(** * Verification of the GitLink connector for GrimoireLab ELK

    A shallow embedding of [grimoire_elk_gitlink]: the raw-item fixer
    ([raw/gitlink.py]), the two enrichers ([enriched/gitlink.py] and
    [enriched/gitlink2.py]) and the batch enrichment loop, together with the
    properties the specification states about them.

    The Python code works on JSON documents held in dictionaries, raises
    exceptions on missing keys, mutates the documents it is given, and calls
    into the host framework (the [Enrich] base class, the date helpers and the
    bulk-upload client).  The embedding has the same shape: a datatype of
    Python values, an exception type, a small state-and-exception monad over a
    world that records the log and the uploads, and a record [Env] holding the
    host framework's helpers, which are parameters of the development. *)

From Stdlib Require Import String Ascii List ZArith QArith Bool Arith Lia DecimalString.
From Stdlib Require Import DecimalPos DecimalZ.
Import ListNotations.

#[local] Open Scope string_scope.
#[local] Open Scope Z_scope.
#[local] Set Warnings "-register-all".

(* ===================================================================== *)
(** * Python values *)
(* ===================================================================== *)

Module Py.

(** JSON documents as Python holds them, plus the two non-JSON objects the
    enrichers handle: floats (the elapsed-day metrics) and [datetime]
    objects (seconds on the time line, with the [tzinfo] flag). A [dict] is an
    association list in insertion order with string keys. *)
Inductive value : Type :=
| VNone
| VBool (b : bool)
| VInt (n : Z)
| VFloat (q : Q)
| VStr (s : string)
| VList (l : list value)
| VDict (d : list (string * value))
| VDatetime (t : Z) (aware : bool).

Definition dict : Type := list (string * value).

(** The exceptions the code can raise. [HostError] stands for an exception
    raised inside a helper of the host framework. *)
Inductive exn : Type :=
| KeyError (k : string)
| KeyErrorNone
| TypeError
| AttributeError
| IndexError
| ValueError
| UnboundLocalError
| HostError (what : string).

Inductive result (A : Type) : Type :=
| Ok (a : A)
| Raise (e : exn).
Arguments Ok {A} a.
Arguments Raise {A} e.

Definition rbind {A B} (r : result A) (k : A -> result B) : result B :=
  match r with
  | Ok a => k a
  | Raise e => Raise e
  end.

(** ** Dictionaries *)

Fixpoint dict_get (d : dict) (k : string) : option value :=
  match d with
  | [] => None
  | (k', v) :: d' => if String.eqb k' k then Some v else dict_get d' k
  end.

Definition dict_has (d : dict) (k : string) : bool :=
  match dict_get d k with Some _ => true | None => false end.

(** [d[k] = v]: an existing key keeps its position, a new key goes last. *)
Fixpoint dict_set (d : dict) (k : string) (v : value) : dict :=
  match d with
  | [] => [(k, v)]
  | (k', v') :: d' =>
      if String.eqb k' k then (k', v) :: d' else (k', v') :: dict_set d' k v
  end.

(** [d.pop(k, None)] as far as the dictionary is concerned. *)
Definition dict_remove (d : dict) (k : string) : dict :=
  filter (fun kv => negb (String.eqb (fst kv) k)) d.

(** [d.pop(k)]: raises when the key is missing. *)
Definition dict_pop (d : dict) (k : string) : result dict :=
  if dict_has d k then Ok (dict_remove d k) else Raise (KeyError k).

(** [d.update(src)] *)
Definition dict_update (d src : dict) : dict :=
  fold_left (fun acc kv => dict_set acc (fst kv) (snd kv)) src d.

Definition dict_keys (d : dict) : list string := map fst d.

(** ** Truth, equality, length *)

Definition truthy (v : value) : bool :=
  match v with
  | VNone => false
  | VBool b => b
  | VInt n => negb (n =? 0)
  | VFloat q => negb (Qeq_bool q 0)
  | VStr s => negb (String.eqb s "")
  | VList l => match l with [] => false | _ => true end
  | VDict d => match d with [] => false | _ => true end
  | VDatetime _ _ => true
  end.

Definition num_of (v : value) : option Q :=
  match v with
  | VBool b => Some (inject_Z (if b then 1 else 0))
  | VInt n => Some (inject_Z n)
  | VFloat q => Some q
  | _ => None
  end.

(** Python's [==]: numbers (booleans included) compare by value, lists
    pointwise, dictionaries as maps. *)
Fixpoint py_eq (a b : value) {struct a} : bool :=
  match a, b with
  | VNone, VNone => true
  | VStr s, VStr t => String.eqb s t
  | VDatetime t1 a1, VDatetime t2 a2 => (t1 =? t2) && Bool.eqb a1 a2
  | VList l, VList m =>
      (fix go (l m : list value) {struct l} : bool :=
         match l, m with
         | [], [] => true
         | x :: l', y :: m' => py_eq x y && go l' m'
         | _, _ => false
         end) l m
  | VDict d, VDict e =>
      Nat.eqb (List.length d) (List.length e) &&
      (fix go (d : list (string * value)) {struct d} : bool :=
         match d with
         | [] => true
         | (k, v) :: d' =>
             match dict_get e k with
             | Some w => py_eq v w && go d'
             | None => false
             end
         end) d
  | (VBool _ | VInt _ | VFloat _), (VBool _ | VInt _ | VFloat _) =>
      match num_of a, num_of b with
      | Some x, Some y => Qeq_bool x y
      | _, _ => false
      end
  | _, _ => false
  end.

Definition py_ne (a b : value) : bool := negb (py_eq a b).

(** ** Characters *)

(** A Python string is held as its UTF-8 encoding. Python counts and cuts
    strings by characters (code points), not by bytes: a character is a byte
    that is not a continuation byte ([10xxxxxx]) together with the
    continuation bytes that follow it. *)
Definition is_continuation (c : ascii) : bool :=
  match c with Ascii _ _ _ _ _ _ b6 b7 => b7 && negb b6 end.

(** The continuation bytes [s] begins with (none in a well-formed string),
    and the characters after them. *)
Fixpoint split_chars (s : string) : string * list string :=
  match s with
  | EmptyString => (EmptyString, [])
  | String c s' =>
      let '(k, cs) := split_chars s' in
      if is_continuation c then (String c k, cs) else (EmptyString, String c k :: cs)
  end.

Definition code_points (s : string) : list string := snd (split_chars s).

(** [len(v)] *)
Definition py_len (v : value) : result nat :=
  match v with
  | VStr s => Ok (List.length (code_points s))
  | VList l => Ok (List.length l)
  | VDict d => Ok (List.length d)
  | _ => Raise TypeError
  end.

(** ** Subscripts, membership, iteration *)

(** [d[k]] on a dictionary. *)
Definition dict_sub (d : dict) (k : string) : result value :=
  match dict_get d k with Some x => Ok x | None => Raise (KeyError k) end.

(** [v[k]] with a string key. *)
Definition subscript (v : value) (k : string) : result value :=
  match v with
  | VDict d => match dict_get d k with Some x => Ok x | None => Raise (KeyError k) end
  | _ => Raise TypeError
  end.

(** [v[None]], as [get_sh_identity] writes when no identity field is given. *)
Definition subscript_none (v : value) : result value :=
  match v with
  | VDict _ => Raise KeyErrorNone
  | _ => Raise TypeError
  end.

(** [v.get(k, default)]: a method of dictionaries only. *)
Definition py_get (v : value) (k : string) (default : value) : result value :=
  match v with
  | VDict d => Ok (match dict_get d k with Some x => x | None => default end)
  | _ => Raise AttributeError
  end.

(** [v.get(None, default)], as the code writes when it has no key to ask
    for: no dictionary of a JSON document has the key [None]. *)
Definition py_get_none (v : value) (default : value) : result value :=
  match v with
  | VDict _ => Ok default
  | _ => Raise AttributeError
  end.

Fixpoint is_prefix (p s : string) : bool :=
  match p, s with
  | EmptyString, _ => true
  | String a p', String b s' => Ascii.eqb a b && is_prefix p' s'
  | String _ _, EmptyString => false
  end.

Fixpoint is_substring (p s : string) : bool :=
  is_prefix p s ||
  match s with
  | EmptyString => false
  | String _ s' => is_substring p s'
  end.

(** [k in v] for a string [k]. *)
Definition py_contains (v : value) (k : string) : result bool :=
  match v with
  | VDict d => Ok (dict_has d k)
  | VList l => Ok (existsb (fun x => py_eq x (VStr k)) l)
  | VStr s => Ok (is_substring k s)
  | _ => Raise TypeError
  end.

(** The characters of a string, each a string of its own. *)
Definition chars (s : string) : list value := map VStr (code_points s).

(** The elements [for x in v] runs over. *)
Definition py_iter (v : value) : result (list value) :=
  match v with
  | VList l => Ok l
  | VDict d => Ok (map (fun kv => VStr (fst kv)) d)
  | VStr s => Ok (chars s)
  | _ => Raise TypeError
  end.

(** ** Strings *)

(** The first [n] characters of [s]. *)
Definition string_take (n : nat) (s : string) : string :=
  String.concat "" (firstn n (code_points s)).

(** [v[:n]] *)
Definition py_slice_to (v : value) (n : nat) : result value :=
  match v with
  | VStr s => Ok (VStr (string_take n s))
  | VList l => Ok (VList (firstn n l))
  | _ => Raise TypeError
  end.

(** The text after the last occurrence of [sep]; the whole string when there
    is none: [s.split(sep)[-1]] for a one-character separator. *)
Fixpoint has_char (c : ascii) (s : string) : bool :=
  match s with
  | EmptyString => false
  | String a s' => Ascii.eqb a c || has_char c s'
  end.

Fixpoint last_field (sep : ascii) (s : string) : string :=
  match s with
  | EmptyString => EmptyString
  | String _ s' => if has_char sep s then last_field sep s' else s
  end.

(** [v.split("/")[-1]] *)
Definition py_split_last (v : value) : result value :=
  match v with
  | VStr s => Ok (VStr (last_field "/"%char s))
  | _ => Raise AttributeError
  end.

(** [s.replace(old, new)] for a non-empty [old]: occurrences are replaced
    from the left and do not overlap. [skip] counts the characters of a
    matched occurrence still to be dropped. *)
Fixpoint replace_from (skip : nat) (old new s : string) : string :=
  match s with
  | EmptyString => EmptyString
  | String c s' =>
      match skip with
      | S k => replace_from k old new s'
      | O =>
          if is_prefix old s
          then new ++ replace_from (String.length old - 1) old new s'
          else String c (replace_from O old new s')
      end
  end.

Definition py_replace (v : value) (old new : string) : result value :=
  match v with
  | VStr s => Ok (VStr (replace_from O old new s))
  | _ => Raise AttributeError
  end.

Fixpoint string_rev_acc (s acc : string) : string :=
  match s with
  | EmptyString => acc
  | String c s' => string_rev_acc s' (String c acc)
  end.

(** [v.endswith(suffix)] *)
Definition py_endswith (v : value) (suffix : string) : result bool :=
  match v with
  | VStr s =>
      Ok (is_prefix (string_rev_acc suffix EmptyString) (string_rev_acc s EmptyString))
  | _ => Raise AttributeError
  end.

(** [v[k] = x] on the dictionary [v]. *)
Definition value_set (v : value) (k : string) (x : value) : value :=
  match v with
  | VDict d => VDict (dict_set d k x)
  | _ => v
  end.

(** [min(dates)] over [datetime] objects, each a time and its [tzinfo]
    flag: the first least element; comparing an aware with a naive one raises. *)
Fixpoint min_from (best : Z * bool) (l : list (Z * bool)) : result (Z * bool) :=
  match l with
  | [] => Ok best
  | x :: l' =>
      if Bool.eqb (snd x) (snd best)
      then min_from (if fst x <? fst best then x else best) l'
      else Raise TypeError
  end.

Definition py_min_date (dates : list (Z * bool)) : result value :=
  match dates with
  | [] => Ok VNone
  | d :: l => rbind (min_from d l) (fun m => Ok (VDatetime (fst m) (snd m)))
  end.

(** [a + b] where the code concatenates strings. *)
Definition py_add_str (a b : value) : result value :=
  match a, b with
  | VStr s, VStr t => Ok (VStr (s ++ t))
  | _, _ => Raise TypeError
  end.

(** ** More of Python, for the rest of the connector *)

(** [s.split(sep)] for a one-character separator: the fields between the
    separators, of which there is always at least one. *)
Fixpoint split_on (sep : ascii) (s : string) : list string :=
  match s with
  | EmptyString => [EmptyString]
  | String c s' =>
      if Ascii.eqb c sep then EmptyString :: split_on sep s'
      else match split_on sep s' with
           | f :: fs => String c f :: fs
           | [] => [String c EmptyString]
           end
  end.

(** [s.split(sep, 1)[0]]: the text before the first separator. *)
Fixpoint before_first (sep : ascii) (s : string) : string :=
  match s with
  | EmptyString => EmptyString
  | String c s' => if Ascii.eqb c sep then EmptyString else String c (before_first sep s')
  end.

(** [l[-k]], for [k] from 1. *)
Definition index_from_end {A} (l : list A) (k : nat) : result A :=
  match nth_error (rev l) (k - 1) with
  | Some x => Ok x
  | None => Raise IndexError
  end.

(** [max(dates)] over [datetime] objects: the first greatest element. *)
Fixpoint max_from (best : Z * bool) (l : list (Z * bool)) : result (Z * bool) :=
  match l with
  | [] => Ok best
  | x :: l' =>
      if Bool.eqb (snd x) (snd best)
      then max_from (if fst best <? fst x then x else best) l'
      else Raise TypeError
  end.

Definition py_max_date (dates : list (Z * bool)) : result value :=
  match dates with
  | [] => Ok VNone
  | d :: l => rbind (max_from d l) (fun m => Ok (VDatetime (fst m) (snd m)))
  end.

(** [len(set(l))]: lists and dictionaries cannot be members of a set. *)
Definition hashable (v : value) : bool :=
  match v with
  | VList _ | VDict _ => false
  | _ => true
  end.

Fixpoint set_of (seen : list value) (l : list value) : result (list value) :=
  match l with
  | [] => Ok seen
  | x :: l' =>
      if hashable x
      then set_of (if existsb (py_eq x) seen then seen else seen ++ [x])%list l'
      else Raise TypeError
  end.

Definition py_set_len (l : list value) : result nat :=
  rbind (set_of [] l) (fun members => Ok (List.length members)).

End Py.

(* ===================================================================== *)
(** * The host framework and the world *)
(* ===================================================================== *)

Module Host.
Import Py.

(** What a run does to the outside: the log lines the connector writes and
    the batches it hands to the bulk-upload client, in order. *)
Inductive event : Type :=
| LogUnroutable (category : value)
    (** [logger.error("[gitlink] rich item not defined for gitlink category {}")] *)
| BulkUpload (batch : list dict) (field_id : string) (written : Z)
    (** [self.elastic.bulk_upload(batch, field_id)] and the count it returned *)
| LogMissing (missing num_items : Z)
    (** [logger.error("%s/%s missing items for gitlink", missing, num_items)] *)
| LogInserted (num_items : Z).
    (** [logger.info("%s items inserted for gitlink", num_items)] *)

(** The world a run threads: how often the clock has been read, and the
    events so far (oldest first). *)
Record world : Type := mkWorld {
  clock_reads : nat;
  trace : list event
}.

Definition world0 : world := mkWorld 0 [].

(** The helpers the connector takes from the host framework: attributes and
    methods of the [Enrich] base class, the date helpers of
    [grimoire_elk.enriched.utils] and [grimoirelab_toolkit.datetime], and the
    clock. They are not part of this repository, so they are parameters. *)
Record Env : Type := mkEnv {
  (** [Enrich.RAW_FIELDS_COPY] and [Enrich.KEYWORD_MAX_LENGTH] *)
  RAW_FIELDS_COPY : list string;
  KEYWORD_MAX_LENGTH : nat;
  (** [self.gelk_version] *)
  gelk_version : value;
  (** whether [self.sortinghat] and [self.prjs_map] are set *)
  sortinghat : bool;
  prjs_map : bool;
  (** [self.copy_raw_fields(fields, source, target)]: the target it leaves *)
  copy_raw_fields : list string -> dict -> dict -> dict;
  (** [self.get_item_project(eitem)] and
      [self.get_item_sh(item, roles, date_field)]: the fields to add *)
  get_item_project : dict -> result dict;
  get_item_sh : value -> list string -> option string -> result dict;
  (** [self.get_grimoire_fields(creation_date, item_name)] *)
  get_grimoire_fields : value -> string -> result dict;
  (** [self.get_email_domain(email)] *)
  get_email_domain : value -> result value;
  (** [self.add_repository_labels(eitem)] and
      [self.add_metadata_filter_raw(eitem)]: the item they leave *)
  add_repository_labels : dict -> dict;
  add_metadata_filter_raw : dict -> dict;
  (** the [@metadata] decorator: what it makes of the item [get_rich_item]
      returns, given the clock as it reads it *)
  metadata : value -> dict -> dict;
  (** [get_time_diff_days(start, end)] and [str_to_datetime(ts)] *)
  get_time_diff_days : value -> value -> result value;
  str_to_datetime : value -> result (Z * bool);
  (** [datetime_utcnow()]: the time the clock shows when it is read for the
      n-th time *)
  datetime_utcnow : nat -> Z;
  (** [d.isoformat()] of a [datetime], and [str(v)] of the values whose text
      the embedding does not spell out *)
  isoformat : Z -> bool -> string;
  py_repr : value -> string
}.

(** The bulk-upload client, [self.elastic.bulk_upload(items, field_id)]: the
    number of records it reports as written. It answers from the batches it
    was given before and the batch it is given now. *)
Definition Sink : Type := list (list dict) -> list dict -> string -> Z.

(** ** Computations: world passing with exceptions.  An exception keeps the
    world as it was when it was raised: what was logged and uploaded stays. *)
Definition M (A : Type) : Type := world -> world * result A.

Definition ret {A} (a : A) : M A := fun w => (w, Ok a).

Definition raise {A} (e : exn) : M A := fun w => (w, Raise e).

Definition bind {A B} (m : M A) (k : A -> M B) : M B :=
  fun w =>
    match m w with
    | (w', Ok a) => k a w'
    | (w', Raise e) => (w', Raise e)
    end.

Definition lift {A} (r : result A) : M A := fun w => (w, r).

Definition emit (ev : event) : M unit :=
  fun w => (mkWorld (clock_reads w) (trace w ++ [ev]), Ok tt).

End Host.

Declare Scope py_scope.
Delimit Scope py_scope with py.
Notation "x <- m ;; k" := (Host.bind m (fun x => k))
  (at level 61, m at next level, right associativity) : py_scope.
Notation "' p <- m ;; k" := (Host.bind m (fun x => match x with p => k end))
  (at level 61, p pattern, m at next level, right associativity) : py_scope.
Notation "x <-- r ;; k" := (Host.bind (Host.lift r) (fun x => k))
  (at level 61, r at next level, right associativity) : py_scope.
Notation "' p <-- r ;; k" :=
  (Host.bind (Host.lift r) (fun x => match x with p => k end))
  (at level 61, p pattern, r at next level, right associativity) : py_scope.

Declare Scope res_scope.
Delimit Scope res_scope with res.
Notation "x <- r ;; k" := (Py.rbind r (fun x => k))
  (at level 61, r at next level, right associativity) : res_scope.
Notation "' p <- r ;; k" := (Py.rbind r (fun x => match x with p => k end))
  (at level 61, p pattern, r at next level, right associativity) : res_scope.
Notation "m ;;; k" := (Host.bind m (fun _ => k))
  (at level 61, right associativity) : py_scope.

(** Loops whose body can raise. *)
Fixpoint rfold {A B} (f : B -> A -> Py.result B) (l : list A) (b : B) : Py.result B :=
  match l with
  | [] => Py.Ok b
  | a :: l' => Py.rbind (f b a) (rfold f l')
  end.

Fixpoint rmap {A B} (f : A -> Py.result B) (l : list A) : Py.result (list B) :=
  match l with
  | [] => Py.Ok []
  | a :: l' => Py.rbind (f a) (fun b => Py.rbind (rmap f l') (fun bs => Py.Ok (b :: bs)))
  end.

(* ===================================================================== *)
(** * [enriched/gitlink2.py]: class [GitlinkEnrich2] *)
(* ===================================================================== *)

Module Gitlink2.
Import Py Host.

Definition MAX_SIZE_BULK_ENRICHED_ITEMS : nat := 200.
Definition GITLINK : string := "www.//gitlink.org.cn/".
Definition ISSUE_TYPE : string := "issue".
Definition PULL_TYPE : string := "pull_request".
Definition COMMENT_TYPE : string := "comment".
Definition ISSUE_COMMENT_TYPE : string := "issue_comment".
Definition REVIEW_COMMENT_TYPE : string := "review_comment".
Definition REPOSITORY_TYPE : string := "repository".

Definition USER_NOT_AVAILABLE : value := VDict [("organizations", VList [])].
Definition DELETED_USER_LOGIN : string := "Deleted user login".
Definition DELETED_USER_NAME : string := "Deleted user".

Definition comment_roles : list string := ["author_data"].
Definition issue_roles : list string := ["assignee_data"; "author_data"].
Definition pr_roles : list string := ["merged_by_data"].

Definition get_field_date : string := "grimoire_creation_date".
Definition get_field_unique_id : string := "id".

(** ** Identities *)

(** [get_sh_identity(item, identity_field=None)] *)
Definition get_sh_identity (item : value) (identity_field : option string)
  : result dict :=
  (user <-
     match item, identity_field with
     | VDict d, _ =>
         if dict_has d "data" then
           data <- subscript item "data" ;;
           match identity_field with
           | Some f => subscript data f
           | None => subscript_none data
           end
         else
           match identity_field with
           | Some f => if String.eqb f "" then Ok item else subscript item f
           | None => Ok item
           end
     | _, Some f => if String.eqb f "" then Ok item else subscript item f
     | _, None => Ok item
     end ;;
   if negb (truthy user) then Ok []
   else
     login <- py_get user "login" VNone ;;
     name <- py_get user "name" login ;;
     email <- py_get user "email" VNone ;;
     login' <- py_get user "login" VNone ;;
     username <- py_get user "username" login' ;;
     Ok [("name", name); ("email", email); ("username", username)])%res.

(** A generator that has run to its end or to an exception: what it yielded,
    and the exception if it stopped on one. *)
Definition generated : Type := list dict * option exn.

Definition gen_then (g : generated) (rest : generated) : generated :=
  match g with
  | (ys, None) => ((ys ++ fst rest)%list, snd rest)
  | (ys, Some e) => (ys, Some e)
  end.

Definition gen_step (r : result (list dict)) (rest : generated) : generated :=
  match r with
  | Ok ys => gen_then (ys, None) rest
  | Raise e => ([], Some e)
  end.

Definition yield_if_user (user : dict) : list dict :=
  if truthy (VDict user) then [user] else [].

(** The loop [for identity in identity_types] of [get_identities]. *)
Fixpoint yield_identity_types (item : value) (identity_types : list string)
  : generated :=
  match identity_types with
  | [] => ([], None)
  | identity :: rest =>
      let identity_attr := identity ++ "_data" in
      gen_step
        (ref <- subscript item identity ;;
         present <- (if truthy ref then py_contains item identity_attr else Ok false) ;;
         if (present : bool) then
           u <- subscript item identity_attr ;;
           user <- get_sh_identity u None ;;
           Ok (yield_if_user user)
         else Ok [])%res
        (yield_identity_types item rest)
  end.

(** The loop [for comment in comments] of [get_identities]. *)
Fixpoint yield_commenters (comments : list value) : generated :=
  match comments with
  | [] => ([], None)
  | comment :: rest =>
      gen_step
        (u <- subscript comment "user_data" ;;
         user <- get_sh_identity u None ;;
         Ok (yield_if_user user))%res
        (yield_commenters rest)
  end.

(** [get_identities(item)] *)
Definition get_identities (item : dict) : generated :=
  match dict_get item "category" with
  | None => ([], Some (KeyError "category"))
  | Some category =>
      match dict_get item "data" with
      | None => ([], Some (KeyError "data"))
      | Some data =>
          let '(identity_types, comments_attr) :=
            if py_eq category (VStr "issue")
            then (["author"; "assignee"], Some "comments_data")
            else if py_eq category (VStr "pull_request")
                 then (["merged_by"], None)
                 else ([], None) in
          gen_then (yield_identity_types data identity_types)
            match
              (comments <- match comments_attr with
                           | Some a => py_get data a (VList [])
                           | None => py_get_none data (VList [])
                           end ;;
               py_iter comments)%res
            with
            | Ok comments => yield_commenters comments
            | Raise e => ([], Some e)
            end
      end
  end.

Section WithHost.
Variable E : Env.

(** [str(v)] and [{}] in a format string; the host renders what is not a
    string, an integer, a boolean or [None]. *)
Definition py_str (v : value) : string :=
  match v with
  | VStr s => s
  | VInt n => NilZero.string_of_int (Z.to_int n)
  | VNone => "None"
  | VBool true => "True"
  | VBool false => "False"
  | _ => py_repr E v
  end.

(** [datetime_utcnow()]: one more reading of the clock. *)
Definition utcnow : M Z :=
  fun w => (mkWorld (S (clock_reads w)) (trace w),
            Ok (datetime_utcnow E (clock_reads w))).

(** [get_time_to_first_attention(item)]: besides the date, the issue with the
    ghost author written into the comments that had none. *)
Definition first_attention_step (item : value) (acc : list value * list (Z * bool))
  (comment : value) : result (list value * list (Z * bool)) :=
  (let '(done, dates) := acc in
   user <- subscript comment "user" ;;
   let comment :=
     if negb (truthy user)
     then value_set comment "user" (VDict [("login", VStr DELETED_USER_LOGIN)])
     else comment in
   author <- subscript item "author" ;;
   a <- subscript author "login" ;;
   user <- subscript comment "user" ;;
   b <- subscript user "login" ;;
   if py_eq a b then Ok ((done ++ [comment])%list, dates)
   else
     created <- subscript comment "created_at" ;;
     d <- str_to_datetime E created ;;
     Ok ((done ++ [comment])%list, (dates ++ [d])%list))%res.

Definition get_time_to_first_attention (item : value) : result (value * value) :=
  (comments_data <- subscript item "comments_data" ;;
   comments <- py_iter comments_data ;;
   '(comments', dates) <- rfold (first_attention_step item) comments ([], []) ;;
   first <- py_min_date dates ;;
   let item' :=
     match comments_data with
     | VList _ => value_set item "comments_data" (VList comments')
     | _ => item
     end in
   Ok (item', first))%res.

(** The filter of the three [..._without_bot] comprehensions. *)
Definition not_author_nor_bot (item comment : value) : result bool :=
  (user <- subscript item "user" ;;
   a <- subscript user "login" ;;
   cuser <- subscript comment "user" ;;
   b <- subscript cuser "login" ;;
   if py_ne a b then
     cuser <- subscript comment "user" ;;
     name <- subscript cuser "name" ;;
     bot <- py_endswith name "bot" ;;
     Ok (negb bot)
   else Ok false)%res.

(** [get_time_to_first_attention_without_bot(item)] *)
Definition get_time_to_first_attention_without_bot (item : value) : result value :=
  (comments_data <- subscript item "comments_data" ;;
   comments <- py_iter comments_data ;;
   dates <- rfold (fun dates comment =>
                     keep <- not_author_nor_bot item comment ;;
                     if (keep : bool) then
                       created <- subscript comment "created_at" ;;
                       d <- str_to_datetime E created ;;
                       Ok (dates ++ [d])%list
                     else Ok dates) comments [] ;;
   py_min_date dates)%res.

(** [get_num_of_comments_without_bot(item)] *)
Definition get_num_of_comments_without_bot (item : value) : result value :=
  (comments_data <- subscript item "comments_data" ;;
   comments <- py_iter comments_data ;;
   kept <- rfold (fun kept comment =>
                    keep <- not_author_nor_bot item comment ;;
                    Ok (if (keep : bool) then (kept ++ [comment])%list else kept))
             comments [] ;;
   Ok (VInt (Z.of_nat (List.length kept))))%res.

(** [add_gelk_metadata(eitem)] *)
Definition add_gelk_metadata (eitem : dict) : M dict :=
  (let eitem := dict_set eitem "metadata__gelk_version" (gelk_version E) in
   let eitem := dict_set eitem "metadata__gelk_backend_name" (VStr "GitlinkEnrich2") in
   now <- utcnow ;;
   ret (dict_set eitem "metadata__enriched_on" (VStr (isoformat E now true))))%py.

(** [__get_reactions(item)]: the reaction counts under their enriched names,
    and the item, whose [reactions] have lost their [url]. *)
Definition reaction_name (reaction : string) : string :=
  if String.eqb reaction "-1" then "thumb_down"
  else if String.eqb reaction "+1" then "thumb_up"
  else reaction.

Definition __get_reactions (item : value) : result (value * dict) :=
  (item_reactions <- py_get item "reactions" (VDict []) ;;
   match item_reactions with
   | VDict r =>
       let r' := dict_remove r "url" in
       let item' :=
         match item with
         | VDict d => if dict_has d "reactions" then value_set item "reactions" (VDict r') else item
         | _ => item
         end in
       Ok (item',
           fold_left (fun reactions kv =>
                        dict_set reactions ("reaction_" ++ reaction_name (fst kv)) (snd kv))
             r' [])
   | VList _ => Raise TypeError
   | _ => Raise AttributeError
   end)%res.

(** [get_project_repository(eitem)] *)
Definition get_project_repository (eitem : dict) : result value :=
  dict_sub eitem "origin".

(** The [user_*] fields of an enriched issue, from [issue["author_data"]]. *)
Definition issue_user_fields (rich : dict) (user : value) : result dict :=
  (if truthy user then
     name <- subscript user "name" ;;
     let rich := dict_set rich "user_name" name in
     let rich := dict_set rich "author_name" name in
     email <- subscript user "email" ;;
     domain <- (if truthy email then get_email_domain E email else Ok VNone) ;;
     let rich := dict_set rich "user_domain" domain in
     company <- subscript user "company" ;;
     let rich := dict_set rich "user_org" company in
     location <- py_get user "location" VNone ;;
     let rich := dict_set rich "user_location" location in
     Ok (dict_set rich "user_geolocation" VNone)
   else
     let rich := dict_set rich "user_name" VNone in
     let rich := dict_set rich "user_domain" VNone in
     let rich := dict_set rich "user_org" VNone in
     let rich := dict_set rich "user_location" VNone in
     let rich := dict_set rich "user_geolocation" VNone in
     Ok (dict_set rich "author_name" VNone))%res.

(** The [assignee_*] fields, from [issue["assignee_data"]]. *)
Definition issue_assignee_fields (rich : dict) (assignee : value) : result dict :=
  (if truthy assignee && py_ne assignee USER_NOT_AVAILABLE then
     login <- subscript assignee "login" ;;
     let rich := dict_set rich "assignee_login" login in
     name <- subscript assignee "name" ;;
     let rich := dict_set rich "assignee_name" name in
     email <- subscript assignee "email" ;;
     domain <- (if truthy email then get_email_domain E email else Ok VNone) ;;
     let rich := dict_set rich "assignee_domain" domain in
     company <- subscript assignee "company" ;;
     let rich := dict_set rich "assignee_org" company in
     location <- py_get assignee "location" VNone ;;
     let rich := dict_set rich "assignee_location" location in
     Ok (dict_set rich "assignee_geolocation" VNone)
   else
     let rich := dict_set rich "assignee_name" VNone in
     let rich := dict_set rich "assignee_login" VNone in
     let rich := dict_set rich "assignee_domain" VNone in
     let rich := dict_set rich "assignee_org" VNone in
     let rich := dict_set rich "assignee_location" VNone in
     Ok (dict_set rich "assignee_geolocation" VNone))%res.

(** [labels = [label["name"] for label in issue["labels"]]] *)
Definition label_names (issue : value) : result value :=
  (labels_v <- subscript issue "labels" ;;
   labels <- py_iter labels_v ;;
   names <- rmap (fun label => subscript label "name") labels ;;
   Ok (VList names))%res.

(** The block under [if "issue" in rich_issue.keys()]. *)
Definition issue_url_id (rich : dict) : result dict :=
  (if dict_has rich "issue" then
     i <- dict_sub rich "issue" ;;
     repo <- py_replace i GITLINK "" ;;
     let rich := dict_set rich "gitlink_repo" repo in
     g <- dict_sub rich "gitlink_repo" ;;
     gi <- py_add_str g (VStr "/issues/") ;;
     n <- dict_sub rich "id_in_repo" ;;
     u <- py_add_str gi n ;;
     Ok (dict_set rich "url_id" u)
   else Ok rich)%res.

(** The block under [if len(issue["comments_data"]) != 0]. *)
Definition issue_attention (rich : dict) (issue : value) : result (value * dict) :=
  (comments_data <- subscript issue "comments_data" ;;
   n <- py_len comments_data ;;
   if negb (Nat.eqb n 0) then
     created <- subscript issue "created_at" ;;
     start <- str_to_datetime E created ;;
     '(issue, first) <- get_time_to_first_attention issue ;;
     d <- get_time_diff_days E (VDatetime (fst start) (snd start)) first ;;
     let rich := dict_set rich "time_to_first_attention" d in
     num <- get_num_of_comments_without_bot issue ;;
     let rich := dict_set rich "num_of_comments_without_bot" num in
     created <- subscript issue "created_at" ;;
     start <- str_to_datetime E created ;;
     first <- get_time_to_first_attention_without_bot issue ;;
     d <- get_time_diff_days E (VDatetime (fst start) (snd start)) first ;;
     Ok (issue, dict_set rich "time_to_first_attention_without_bot" d)
   else Ok (issue, rich))%res.

(** [__get_rich_issue(item)]: the enriched issue, and the raw item as the
    method leaves it. *)
Definition __get_rich_issue (item : dict) : M (dict * dict) :=
  (let rich := copy_raw_fields E (RAW_FIELDS_COPY E) item [] in
   issue <-- dict_sub item "data" ;;
   created <-- subscript issue "created_at" ;;
   finished <-- subscript issue "finished_at" ;;
   ttc <-- get_time_diff_days E created finished ;;
   let rich := dict_set rich "time_to_close_days" ttc in
   status <-- subscript issue "status" ;;
   sid <-- subscript status "id" ;;
   rich <- (if py_eq sid (VInt 1) || py_eq sid (VInt 2) then
              created <-- subscript issue "created_at" ;;
              now <- utcnow ;;
              d <-- get_time_diff_days E created (VDatetime now false) ;;
              ret (dict_set rich "time_open_days" d)
            else
              v <-- dict_sub rich "time_to_close_days" ;;
              ret (dict_set rich "time_open_days" v)) ;;
   author <-- subscript issue "author" ;;
   login <-- subscript author "login" ;;
   let rich := dict_set rich "user_login" login in
   user <-- py_get issue "author_data" VNone ;;
   rich <-- issue_user_fields rich user ;;
   assignee <-- py_get issue "assignee_data" VNone ;;
   rich <-- issue_assignee_fields rich assignee ;;
   id <-- subscript issue "id" ;;
   let rich := dict_set rich "id" id in
   id <-- subscript issue "id" ;;
   let rich := dict_set rich "issue_id" id in
   html_url <-- subscript issue "html_url" ;;
   in_repo <-- py_split_last html_url ;;
   let rich := dict_set rich "issue_id_in_repo" in_repo in
   origin <-- get_project_repository rich ;;
   let rich := dict_set rich "repository" origin in
   title <-- subscript issue "title" ;;
   let rich := dict_set rich "issue_title" title in
   let rich := dict_set rich "issue_title_analyzed" title in
   status <-- subscript issue "status" ;;
   state <-- subscript status "name" ;;
   let rich := dict_set rich "issue_state" state in
   created <-- subscript issue "created_at" ;;
   let rich := dict_set rich "issue_created_at" created in
   updated <-- subscript issue "updated_at" ;;
   let rich := dict_set rich "issue_updated_at" updated in
   '(issue, reactions) <-- __get_reactions issue ;;
   let rich := dict_update rich reactions in
   has_labels <-- py_contains issue "labels" ;;
   rich <-- (if (has_labels : bool)
             then rbind (label_names issue) (fun l => Ok (dict_set rich "issue_labels" l))
             else Ok rich) ;;
   let rich := dict_set rich "item_type" (VStr ISSUE_TYPE) in
   let rich := dict_set rich "issue_pull_request" (VBool true) in
   has_head <-- py_contains issue "head" ;;
   has_pull <-- (if negb has_head then py_contains issue "pull_request" else Ok true) ;;
   let rich :=
     if negb has_head && negb has_pull
     then dict_set rich "issue_pull_request" (VBool false) else rich in
   rich <-- issue_url_id rich ;;
   rich <-- (if prjs_map E
             then rbind (get_item_project E rich) (fun p => Ok (dict_update rich p))
             else Ok rich) ;;
   rich <-- (if dict_has item "project"
             then rbind (dict_sub item "project") (fun p => Ok (dict_set rich "project" p))
             else Ok rich) ;;
   let rich := dict_set rich "time_to_first_attention" VNone in
   '(issue, rich) <-- issue_attention rich issue ;;
   created <-- subscript issue "created_at" ;;
   grimoire <-- get_grimoire_fields E created ISSUE_TYPE ;;
   let rich := dict_update rich grimoire in
   rich <-- dict_pop rich ("is_gitlink2_" ++ ISSUE_TYPE) ;;
   let rich := dict_set rich ("is_gitlink_" ++ ISSUE_TYPE) (VInt 1) in
   let item := dict_set item "data" issue in
   if sortinghat E then
     date <-- dict_sub rich get_field_date ;;
     let item := dict_set item get_field_date date in
     sh <-- get_item_sh E (VDict item) issue_roles None ;;
     ret (item, dict_update rich sh)
   else ret (item, rich))%py.

(** The [user_*] fields of an enriched pull request. *)
Definition pull_user_fields (rich : dict) (user : value) : result dict :=
  (if truthy user then
     name <- subscript user "name" ;;
     let rich := dict_set rich "user_name" name in
     let rich := dict_set rich "author_name" name in
     email <- subscript user "email" ;;
     domain <- (if truthy email then get_email_domain E email else Ok VNone) ;;
     let rich := dict_set rich "user_domain" domain in
     company <- subscript user "company" ;;
     let rich := dict_set rich "user_org" company in
     Ok (dict_set rich "user_geolocation" VNone)
   else
     let rich := dict_set rich "user_name" VNone in
     let rich := dict_set rich "user_domain" VNone in
     let rich := dict_set rich "user_org" VNone in
     let rich := dict_set rich "user_location" VNone in
     let rich := dict_set rich "user_geolocation" VNone in
     Ok (dict_set rich "author_name" VNone))%res.

(** The [merge_author_*] fields, from [pull_request["merge_by"]]. *)
Definition pull_merger_fields (rich : dict) (merged_by : value) : result dict :=
  (if truthy merged_by && py_ne merged_by USER_NOT_AVAILABLE then
     login <- subscript merged_by "login" ;;
     let rich := dict_set rich "merge_author_login" login in
     name <- subscript merged_by "name" ;;
     let rich := dict_set rich "merge_author_name" name in
     email <- subscript merged_by "email" ;;
     domain <- (if truthy email then get_email_domain E email else Ok VNone) ;;
     let rich := dict_set rich "merge_author_domain" domain in
     company <- py_get merged_by "company" VNone ;;
     let rich := dict_set rich "merge_author_org" company in
     Ok (dict_set rich "merge_author_geolocation" VNone)
   else
     let rich := dict_set rich "merge_author_name" VNone in
     let rich := dict_set rich "merge_author_login" VNone in
     let rich := dict_set rich "merge_author_domain" VNone in
     let rich := dict_set rich "merge_author_org" VNone in
     let rich := dict_set rich "merge_author_location" VNone in
     Ok (dict_set rich "merge_author_geolocation" VNone))%res.

(** [__get_rich_pull(item)] *)
Definition __get_rich_pull (item : dict) : M (dict * dict) :=
  (let rich := copy_raw_fields E (RAW_FIELDS_COPY E) item [] in
   pull_request <-- dict_sub item "data" ;;
   user <-- py_get pull_request "user_data" VNone ;;
   rich <-- pull_user_fields rich user ;;
   merged_by <-- py_get pull_request "merge_by" VNone ;;
   rich <-- pull_merger_fields rich merged_by ;;
   id <-- subscript pull_request "id" ;;
   let rich := dict_set rich "id" id in
   id <-- subscript pull_request "id" ;;
   let rich := dict_set rich "pull_id" id in
   index <-- subscript pull_request "index" ;;
   let rich := dict_set rich "pull_id_in_repo" index in
   issue <-- subscript pull_request "issue" ;;
   issue_id <-- subscript issue "id" ;;
   let rich := dict_set rich "issue_id_in_repo" issue_id in
   origin <-- get_project_repository rich ;;
   let rich := dict_set rich "repository" origin in
   status <-- subscript pull_request "status" ;;
   let rich := dict_set rich "pull_state" status in
   updated_on <-- dict_sub item "updated_on" ;;
   let rich := dict_set rich "pull_updated_at" updated_on in
   merged <-- subscript pull_request "merged" ;;
   let rich := dict_set rich "pull_merged" merged in
   merged_at <-- subscript pull_request "merged_at" ;;
   let rich := dict_set rich "pull_merged_at" merged_at in
   origin <-- dict_sub item "origin" ;;
   let rich := dict_set rich "url" origin in
   let rich := dict_set rich "pull_url" origin in
   let rich := dict_set rich "issue_url" origin in
   '(pull_request, reactions) <-- __get_reactions pull_request ;;
   let rich := dict_update rich reactions in
   let rich := dict_set rich "item_type" (VStr PULL_TYPE) in
   comments <-- subscript pull_request "comments" ;;
   total <-- subscript comments "total_count" ;;
   let rich := dict_set rich "num_review_comments" total in
   let rich := dict_set rich "time_to_merge_request_response" VNone in
   rich <-- (if prjs_map E
             then rbind (get_item_project E rich) (fun p => Ok (dict_update rich p))
             else Ok rich) ;;
   rich <-- (if dict_has item "project"
             then rbind (dict_sub item "project") (fun p => Ok (dict_set rich "project" p))
             else Ok rich) ;;
   rich <-- dict_pop rich ("is_gitlink2_" ++ PULL_TYPE) ;;
   let rich := dict_set rich ("is_gitlink_" ++ PULL_TYPE) (VInt 1) in
   let item := dict_set item "data" pull_request in
   if sortinghat E then
     date <-- dict_sub rich get_field_date ;;
     let item := dict_set item get_field_date date in
     sh <-- get_item_sh E (VDict item) pr_roles None ;;
     ret (item, dict_update rich sh)
   else ret (item, rich))%py.

(** [__get_rich_repo(item)] *)
Definition __get_rich_repo (item : dict) : result dict :=
  (let rich := copy_raw_fields E (RAW_FIELDS_COPY E) item [] in
   repo <- dict_sub item "data" ;;
   fetched_on <- subscript repo "fetched_on" ;;
   let rich := dict_set rich "id" (VStr (py_str fetched_on)) in
   forks <- subscript repo "forks_count" ;;
   let rich := dict_set rich "forks_count" forks in
   subscribers <- subscript repo "subscribers_count" ;;
   let rich := dict_set rich "subscribers_count" subscribers in
   stargazers <- subscript repo "stargazers_count" ;;
   let rich := dict_set rich "stargazers_count" stargazers in
   fetched_on <- subscript repo "fetched_on" ;;
   let rich := dict_set rich "fetched_on" fetched_on in
   origin <- subscript repo "origin" ;;
   let rich := dict_set rich "url" origin in
   let rich := dict_set rich "item_type" (VStr "repository") in
   rich <- (if prjs_map E
            then rbind (get_item_project E rich) (fun p => Ok (dict_update rich p))
            else Ok rich) ;;
   updated_on <- dict_sub item "metadata__updated_on" ;;
   grimoire <- get_grimoire_fields E updated_on REPOSITORY_TYPE ;;
   let rich := dict_update rich grimoire in
   rich <- dict_pop rich ("is_gitlink2_" ++ REPOSITORY_TYPE) ;;
   Ok (dict_set rich ("is_gitlink_" ++ REPOSITORY_TYPE) (VInt 1)))%res.

(** [get_rich_item(item)], with the [@metadata] decorator of the host
    applied to what the method returns. *)
Definition get_rich_item (item : dict) : M (dict * dict) :=
  (category <-- dict_sub item "category" ;;
   '(item, rich_item) <-
     (if py_eq category (VStr "issue") then __get_rich_issue item
      else if py_eq category (VStr "pull_request") then __get_rich_pull item
      else if py_eq category (VStr "repository")
           then rich <-- __get_rich_repo item ;; ret (item, rich)
           else emit (LogUnroutable category) ;;; ret (item, [])) ;;
   let rich_item := add_repository_labels E rich_item in
   let rich_item := add_metadata_filter_raw E rich_item in
   now <- utcnow ;;
   ret (item, metadata E (VDatetime now true) rich_item))%py.

(** A run of assignments [target[dst] = source[src]]. *)
Definition copy_keys (source : dict) (pairs : list (string * string)) (target : dict)
  : result dict :=
  rfold (fun t ds => rbind (dict_sub source (snd ds)) (fun v => Ok (dict_set t (fst ds) v)))
    pairs target.

(** The ghost user a comment without [user_data] is given; the comment is
    returned as the code leaves it. *)
Definition comment_user_login (comment : value) : result (value * value) :=
  (user_data <- py_get comment "user_data" VNone ;;
   let '(comment, user_data) :=
     if negb (truthy user_data) then
       let ghost := VDict [("login", VStr DELETED_USER_LOGIN);
                           ("name", VStr DELETED_USER_NAME)] in
       (value_set comment "user_data" ghost, ghost)
     else (comment, user_data) in
   login <- subscript user_data "login" ;;
   Ok (comment, login))%res.

(** What both comment loops do after the identifier is set. *)
Definition finish_comment (sub_type : string) (comment : value) (eitem ecomment : dict)
  : M dict :=
  (updated_at <-- subscript comment "updated_at" ;;
   grimoire <-- get_grimoire_fields E updated_at sub_type ;;
   let ecomment := dict_update ecomment grimoire in
   ecomment <-- dict_pop ecomment ("is_gitlink2_" ++ sub_type) ;;
   let ecomment := dict_set ecomment ("is_gitlink_" ++ sub_type) (VInt 1) in
   let ecomment := dict_set ecomment "is_gitlink_comment" (VInt 1) in
   '(comment, login) <-- comment_user_login comment ;;
   let ecomment := dict_set ecomment "user_login" login in
   ecomment <-- (if sortinghat E
                 then rbind (get_item_sh E comment comment_roles (Some "updated_at"))
                        (fun sh => Ok (dict_update ecomment sh))
                 else Ok ecomment) ;;
   ecomment <-- (if prjs_map E
                 then rbind (get_item_project E ecomment)
                        (fun p => Ok (dict_update ecomment p))
                 else Ok ecomment) ;;
   ecomment <-- (if dict_has eitem "project"
                 then rbind (dict_sub eitem "project")
                        (fun p => Ok (dict_set ecomment "project" p))
                 else Ok ecomment) ;;
   let ecomment := add_repository_labels E ecomment in
   let ecomment := add_metadata_filter_raw E ecomment in
   add_gelk_metadata ecomment)%py.

(** One turn of the loop of [get_rich_issue_comments]. *)
Definition rich_issue_comment (eitem : dict) (comment : value) : M dict :=
  (let ecomment := copy_raw_fields E (RAW_FIELDS_COPY E) eitem [] in
   ecomment <-- copy_keys eitem
     [("issue_labels", "issue_labels"); ("issue_id", "issue_id");
      ("issue_id_in_repo", "issue_id_in_repo"); ("issue_url", "issue_url");
      ("issue_title", "issue_title"); ("issue_state", "issue_state");
      ("issue_created_at", "issue_created_at");
      ("issue_updated_at", "issue_updated_at"); ("issue_closed_at", "closed_at");
      ("issue_pull_request", "issue_pull_request");
      ("gitlink_repo", "gitlink_repo"); ("repository", "repository")] ecomment ;;
   let ecomment := dict_set ecomment "item_type" (VStr COMMENT_TYPE) in
   let ecomment := dict_set ecomment "sub_type" (VStr ISSUE_COMMENT_TYPE) in
   body <-- subscript comment "body" ;;
   short <-- py_slice_to body (KEYWORD_MAX_LENGTH E) ;;
   let ecomment := dict_set ecomment "body" short in
   body <-- subscript comment "body" ;;
   let ecomment := dict_set ecomment "body_analyzed" body in
   '(comment, reactions) <-- __get_reactions comment ;;
   let ecomment := dict_update ecomment reactions in
   updated_at <-- subscript comment "updated_at" ;;
   let ecomment := dict_set ecomment "comment_updated_at" updated_at in
   parent <-- dict_sub eitem "id" ;;
   own <-- subscript comment "id" ;;
   let ecomment :=
     dict_set ecomment "id" (VStr (py_str parent ++ "_issue_comment_" ++ py_str own)) in
   finish_comment ISSUE_COMMENT_TYPE comment eitem ecomment)%py.

Fixpoint mmap {A B} (f : A -> M B) (l : list A) : M (list B) :=
  match l with
  | [] => ret []
  | a :: l' => (b <- f a ;; bs <- mmap f l' ;; ret (b :: bs))%py
  end.

(** [get_rich_issue_comments(comments, eitem)] *)
Definition get_rich_issue_comments (comments : value) (eitem : dict) : M (list dict) :=
  (cs <-- py_iter comments ;; mmap (rich_issue_comment eitem) cs)%py.

(** [enrich_issue(item, eitem)] *)
Definition enrich_issue (item eitem : dict) : M (list dict) :=
  (data <-- dict_sub item "data" ;;
   comments <-- py_get data "comments_data" (VList []) ;;
   if truthy comments then get_rich_issue_comments comments eitem else ret [])%py.

(** One turn of the loop of [get_rich_pull_reviews]. *)
Definition rich_pull_review (eitem : dict) (comment : value) : M dict :=
  (has_updated <-- py_contains comment "updated_at" ;;
   comment <-- (if negb has_updated
                then rbind (subscript comment "submitted_at")
                       (fun s => Ok (value_set comment "updated_at" s))
                else Ok comment) ;;
   let ecomment := copy_raw_fields E (RAW_FIELDS_COPY E) eitem [] in
   state <-- py_get comment "state" (VStr "") ;;
   let ecomment := dict_set ecomment "review_state" state in
   ecomment <-- copy_keys eitem
     [("pull_labels", "pull_labels"); ("pull_id", "pull_id");
      ("pull_id_in_repo", "pull_id_in_repo"); ("issue_id_in_repo", "issue_id_in_repo");
      ("issue_title", "issue_title"); ("issue_url", "issue_url");
      ("pull_url", "pull_url"); ("pull_state", "pull_state");
      ("pull_created_at", "pull_created_at"); ("pull_updated_at", "pull_updated_at");
      ("pull_merged_at", "pull_merged_at"); ("pull_closed_at", "pull_closed_at");
      ("pull_merged", "pull_merged"); ("pull_state", "pull_state");
      ("gitlink_repo", "gitlink_repo"); ("repository", "repository")] ecomment ;;
   let ecomment := dict_set ecomment "item_type" (VStr COMMENT_TYPE) in
   let ecomment := dict_set ecomment "sub_type" (VStr REVIEW_COMMENT_TYPE) in
   body <-- subscript comment "body" ;;
   short <-- py_slice_to body (KEYWORD_MAX_LENGTH E) ;;
   let ecomment := dict_set ecomment "body" short in
   body <-- subscript comment "body" ;;
   let ecomment := dict_set ecomment "body_analyzed" body in
   html_url <-- subscript comment "html_url" ;;
   let ecomment := dict_set ecomment "url" html_url in
   '(comment, reactions) <-- __get_reactions comment ;;
   let ecomment := dict_update ecomment reactions in
   updated_at <-- subscript comment "updated_at" ;;
   let ecomment := dict_set ecomment "comment_updated_at" updated_at in
   updated_at <-- subscript comment "updated_at" ;;
   created_at <-- py_get comment "created_at" updated_at ;;
   let ecomment := dict_set ecomment "comment_created_at" created_at in
   parent <-- dict_sub eitem "id" ;;
   own <-- subscript comment "id" ;;
   let ecomment :=
     dict_set ecomment "id" (VStr (py_str parent ++ "_review_comment_" ++ py_str own)) in
   finish_comment REVIEW_COMMENT_TYPE comment eitem ecomment)%py.

(** [get_rich_pull_reviews(comments, eitem)] *)
Definition get_rich_pull_reviews (comments : value) (eitem : dict) : M (list dict) :=
  (cs <-- py_iter comments ;; mmap (rich_pull_review eitem) cs)%py.

(** [enrich_pulls(item, eitem)] *)
Definition enrich_pulls (item eitem : dict) : M (list dict) :=
  (data <-- dict_sub item "data" ;;
   comments <-- py_get data "review_comments_data" (VList []) ;;
   data <-- dict_sub item "data" ;;
   reviews <-- py_get data "reviews_data" (VList []) ;;
   eitems <- (if truthy comments then get_rich_pull_reviews comments eitem else ret []) ;;
   more <- (if truthy reviews then get_rich_pull_reviews reviews eitem else ret []) ;;
   ret (eitems ++ more)%list)%py.

(** [get_num_of_reviews_without_bot(item)] *)
Definition get_num_of_reviews_without_bot (item : value) : result value :=
  (comments_data <- subscript item "review_comments_data" ;;
   comments <- py_iter comments_data ;;
   kept <- rfold (fun kept comment =>
                    keep <- not_author_nor_bot item comment ;;
                    Ok (if (keep : bool) then (kept ++ [comment])%list else kept))
             comments [] ;;
   Ok (VInt (Z.of_nat (List.length kept))))%res.

(** [get_time_to_merge_request_response(item)]: besides the date, the pull
    request with the ghost author written into the review comments that had
    none. *)
Definition merge_response_step (item : value) (acc : list value * list (Z * bool))
  (comment : value) : result (list value * list (Z * bool)) :=
  (let '(done, dates) := acc in
   user <- subscript comment "user" ;;
   let comment :=
     if negb (truthy user)
     then value_set comment "user" (VDict [("login", VStr DELETED_USER_LOGIN)])
     else comment in
   creator <- subscript item "user" ;;
   a <- subscript creator "login" ;;
   user <- subscript comment "user" ;;
   b <- subscript user "login" ;;
   if py_eq a b then Ok ((done ++ [comment])%list, dates)
   else
     created <- subscript comment "created_at" ;;
     d <- str_to_datetime E created ;;
     Ok ((done ++ [comment])%list, (dates ++ [d])%list))%res.

Definition get_time_to_merge_request_response (item : value) : result (value * value) :=
  (comments_data <- subscript item "review_comments_data" ;;
   comments <- py_iter comments_data ;;
   '(comments', dates) <- rfold (merge_response_step item) comments ([], []) ;;
   first <- py_min_date dates ;;
   let item' :=
     match comments_data with
     | VList _ => value_set item "review_comments_data" (VList comments')
     | _ => item
     end in
   Ok (item', first))%res.

End WithHost.

(** ** The batch enrichment loop *)

(** The batches the sink has been given, oldest first. *)
Definition uploads (t : list event) : list (list dict) :=
  flat_map (fun ev => match ev with BulkUpload b _ _ => [b] | _ => [] end) t.

Section WithSink.
Variable E : Env.
Variable bulk_upload : Sink.

(** [self.elastic.bulk_upload(items_to_enrich, self.get_field_unique_id())] *)
Definition upload (batch : list dict) : M Z :=
  fun w =>
    let written := bulk_upload (uploads (trace w)) batch get_field_unique_id in
    (mkWorld (clock_reads w) (trace w ++ [BulkUpload batch get_field_unique_id written]),
     Ok written).

(** What one turn of the loop adds to the buffer: the enriched item, then
    the records of its comments or reviews. *)
Definition enrich_one (item : dict) : M (list dict) :=
  ('(item, eitem) <- get_rich_item E item ;;
   category <-- dict_sub item "category" ;;
   eitems <- (if py_eq category (VStr ISSUE_TYPE) then enrich_issue E item eitem
              else if py_eq category (VStr PULL_TYPE) then enrich_pulls E item eitem
              else ret []) ;;
   ret (eitem :: eitems))%py.

(** The [for item in ocean_backend.fetch()] loop, from the state it is in:
    it returns the buffer and the two counters as the loop leaves them. *)
Fixpoint enrich_loop (items : list dict) (items_to_enrich : list dict)
  (num_items ins_items : Z) : M (list dict * Z * Z) :=
  match items with
  | [] => ret (items_to_enrich, num_items, ins_items)
  | item :: rest =>
      (added <- enrich_one item ;;
       let items_to_enrich := (items_to_enrich ++ added)%list in
       if (List.length items_to_enrich <? MAX_SIZE_BULK_ENRICHED_ITEMS)%nat
       then enrich_loop rest items_to_enrich num_items ins_items
       else
         let num_items := num_items + Z.of_nat (List.length items_to_enrich) in
         written <- upload items_to_enrich ;;
         enrich_loop rest [] num_items (ins_items + written))%py
  end.

(** [enrich_items(ocean_backend)], on the items the backend fetches. *)
Definition enrich_items (items : list dict) : M Z :=
  ('(items_to_enrich, num_items, ins_items) <- enrich_loop items [] 0 0 ;;
   '(num_items, ins_items) <-
     (if (0 <? List.length items_to_enrich)%nat then
        let num_items := num_items + Z.of_nat (List.length items_to_enrich) in
        written <- upload items_to_enrich ;;
        ret (num_items, ins_items + written)
      else ret (num_items, ins_items)) ;;
   (if negb (num_items =? ins_items)
    then emit (LogMissing (num_items - ins_items) num_items)
    else emit (LogInserted num_items)) ;;;
   ret num_items)%py.

End WithSink.

End Gitlink2.

(* ===================================================================== *)
(** * [enriched/gitlink.py]: class [GitlinkEnrich] *)
(* ===================================================================== *)

Module Gitlink.
Import Py Host.

Definition GITLINK : string := "www.//gitlink.org.cn/".

(** The loop [for f in self.RAW_FIELDS_COPY] the three mapping methods open
    with. *)
Definition copy_raw (fields : list string) (item : dict) (rich : dict) : dict :=
  fold_left
    (fun rich f =>
       dict_set rich f (match dict_get item f with Some v => v | None => VNone end))
    fields rich.

(** [get_project_repository(eitem)] *)
Definition get_project_repository (eitem : dict) : result value :=
  dict_sub eitem "origin".

Section WithHost.
Variable E : Env.

(** The loop [for assignee in assignees]: the list it builds, and the
    dictionary bound to [assignee_data] when the loop ends. *)
Definition assignee_step (acc : list value * option dict) (assignee : value)
  : result (list value * option dict) :=
  (login <- subscript assignee "login" ;;
   let assignee_data := dict_set [] "assignee_login" login in
   name <- subscript assignee "name" ;;
   let assignee_data := dict_set assignee_data "assignee_name" name in
   Ok ((fst acc ++ [VDict assignee_data])%list, Some assignee_data))%res.

Definition issue_assignee (rich : dict) (assignees : value) : result dict :=
  (if truthy assignees then
     l <- py_iter assignees ;;
     '(assignees_data, assignee_data) <- rfold assignee_step l ([], None) ;;
     match assignee_data with
     | Some d => Ok (dict_set rich "assignee" (VDict d))
     | None => Raise UnboundLocalError
     end
   else Ok (dict_set rich "assignee" VNone))%res.

Definition label_names (issue : value) : result value :=
  (labels_v <- subscript issue "labels" ;;
   labels <- py_iter labels_v ;;
   names <- rmap (fun label => subscript label "name") labels ;;
   Ok (VList names))%res.

Definition issue_url_id (rich : dict) : result dict :=
  (if dict_has rich "issue" then
     i <- dict_sub rich "issue" ;;
     repo <- py_replace i GITLINK "" ;;
     let rich := dict_set rich "gitlink_repo" repo in
     g <- dict_sub rich "gitlink_repo" ;;
     gi <- py_add_str g (VStr "/issues/") ;;
     n <- dict_sub rich "id_in_repo" ;;
     u <- py_add_str gi n ;;
     Ok (dict_set rich "url_id" u)
   else Ok rich)%res.

(** [__get_rich_issue(item)] *)
Definition __get_rich_issue (item : dict) : M dict :=
  (let rich := copy_raw (RAW_FIELDS_COPY E) item [] in
   issue <-- dict_sub item "data" ;;
   created <-- subscript issue "created_at" ;;
   updated <-- subscript issue "updated_at" ;;
   ttc <-- get_time_diff_days E created updated ;;
   let rich := dict_set rich "time_to_close_days" ttc in
   status <-- subscript issue "status" ;;
   sid <-- subscript status "id" ;;
   rich <- (if py_eq sid (VInt 1) || py_eq sid (VInt 2) then
              created <-- subscript issue "created_at" ;;
              now <- Gitlink2.utcnow E ;;
              d <-- get_time_diff_days E created (VDatetime now false) ;;
              ret (dict_set rich "time_open_days" d)
            else
              v <-- dict_sub rich "time_to_close_days" ;;
              ret (dict_set rich "time_open_days" v)) ;;
   author <-- subscript issue "author" ;;
   login <-- subscript author "login" ;;
   let rich := dict_set rich "user_login" login in
   user <-- py_get issue "author" VNone ;;
   rich <-- (if truthy user then
               rbind (subscript user "name") (fun name =>
                 Ok (dict_set (dict_set rich "user_name" name) "author_name" name))
             else Ok (dict_set (dict_set rich "user_name" VNone) "author_name" VNone)) ;;
   assignees <-- py_get issue "assignee" VNone ;;
   rich <-- issue_assignee rich assignees ;;
   id <-- subscript issue "id" ;;
   let rich := dict_set rich "id" id in
   index <-- subscript issue "project_issues_index" ;;
   let rich := dict_set rich "id_in_repo" index in
   origin <-- get_project_repository rich ;;
   let rich := dict_set rich "repository" origin in
   status <-- subscript issue "status" ;;
   state <-- subscript status "name" ;;
   let rich := dict_set rich "state" state in
   created <-- subscript issue "created_at" ;;
   let rich := dict_set rich "created_at" created in
   updated <-- subscript issue "updated_at" ;;
   let rich := dict_set rich "updated_at" updated in
   has_labels <-- py_contains issue "labels" ;;
   rich <-- (if (has_labels : bool)
             then rbind (label_names issue) (fun l => Ok (dict_set rich "labels" l))
             else Ok rich) ;;
   let rich := dict_set rich "pull_request" (VBool true) in
   let rich := dict_set rich "item_type" (VStr "pull_request") in
   has_head <-- py_contains issue "head" ;;
   has_pull <-- (if negb has_head then py_contains issue "pull_request" else Ok true) ;;
   let rich :=
     if negb has_head && negb has_pull
     then dict_set (dict_set rich "pull_request" (VBool false)) "item_type" (VStr "issue")
     else rich in
   rich <-- issue_url_id rich ;;
   rich <-- (if prjs_map E
             then rbind (get_item_project E rich) (fun p => Ok (dict_update rich p))
             else Ok rich) ;;
   rich <-- (if dict_has item "project"
             then rbind (dict_sub item "project") (fun p => Ok (dict_set rich "project" p))
             else Ok rich) ;;
   created <-- subscript issue "created_at" ;;
   grimoire <-- get_grimoire_fields E created "issue" ;;
   ret (dict_update rich grimoire))%py.

(** One release of [__get_rich_repo]. *)
Definition rich_release (release : value) : result value :=
  (id <- subscript release "id" ;;
   tag_name <- subscript release "tag_name" ;;
   target <- subscript release "target_commitish" ;;
   name <- subscript release "name" ;;
   body <- subscript release "body" ;;
   created_at <- subscript release "created_at" ;;
   login <- subscript release "user_login" ;;
   user_name <- subscript release "user_name" ;;
   Ok (VDict [("id", id); ("tag_name", tag_name); ("target_commitish", target);
              ("name", name); ("body", body); ("created_at", created_at);
              ("author", VDict [("login", login); ("name", user_name)])]))%res.

(** [__get_rich_repo(item)] *)
Definition __get_rich_repo (item : dict) : result dict :=
  (let rich := copy_raw (RAW_FIELDS_COPY E) item [] in
   repo <- dict_sub item "data" ;;
   forked <- subscript repo "forked_count" ;;
   let rich := dict_set rich "forks_count" forked in
   watchers <- subscript repo "watchers_count" ;;
   let rich := dict_set rich "subscribers_count" watchers in
   praises <- subscript repo "praises_count" ;;
   let rich := dict_set rich "praises_count" praises in
   fetched_on <- subscript repo "fetched_on" ;;
   let rich := dict_set rich "fetched_on" fetched_on in
   origin <- dict_sub item "origin" ;;
   let rich := dict_set rich "url" origin in
   let rich := dict_set rich "item_type" (VStr "repository") in
   releases_v <- subscript repo "releases" ;;
   releases <- py_iter releases_v ;;
   rich_releases <- rmap rich_release releases ;;
   let rich := dict_set rich "releases" (VList rich_releases) in
   let rich := dict_set rich "releases_count" (VInt (Z.of_nat (List.length rich_releases))) in
   rich <- (if prjs_map E
            then rbind (get_item_project E rich) (fun p => Ok (dict_update rich p))
            else Ok rich) ;;
   updated_on <- dict_sub item "metadata__updated_on" ;;
   grimoire <- get_grimoire_fields E updated_on "repository" ;;
   Ok (dict_update rich grimoire))%res.

(** ** The rest of the class *)

(** [get_sh_identity(item, identity_field=None)] *)
Definition get_sh_identity (item : value) (identity_field : option string)
  : result dict :=
  (in_data <- py_contains item "data" ;;
   user <- (if (in_data : bool)
            then match item with
                 | VDict _ =>
                     data <- subscript item "data" ;;
                     match identity_field with
                     | Some f => subscript data f
                     | None => subscript_none data
                     end
                 | _ => Ok item
                 end
            else Ok item) ;;
   if negb (truthy user) then Ok []
   else
     login <- subscript user "login" ;;
     let identity := [("username", login); ("email", VNone); ("name", VNone)] in
     has_email <- py_contains user "email" ;;
     identity <- (if (has_email : bool)
                  then rbind (subscript user "email") (fun e => Ok (dict_set identity "email" e))
                  else Ok identity) ;;
     has_name <- py_contains user "name" ;;
     if (has_name : bool)
     then rbind (subscript user "name") (fun n => Ok (dict_set identity "name" n))
     else Ok identity)%res.

(** The loop of [get_identities]. *)
Fixpoint yield_identity_types (item : value) (identity_types : list string)
  : Gitlink2.generated :=
  match identity_types with
  | [] => ([], None)
  | identity :: rest =>
      let identity_attr := identity ++ "_data" in
      Gitlink2.gen_step
        (ref <- subscript item identity ;;
         present <- (if truthy ref then py_contains item identity_attr else Ok false) ;;
         if (present : bool) then
           u <- subscript item identity_attr ;;
           user <- get_sh_identity u None ;;
           Ok (Gitlink2.yield_if_user user)
         else Ok [])%res
        (yield_identity_types item rest)
  end.

(** [get_identities(item)] *)
Definition get_identities (item : dict) : Gitlink2.generated :=
  match dict_get item "category" with
  | None => ([], Some (KeyError "category"))
  | Some category =>
      match dict_get item "data" with
      | None => ([], Some (KeyError "data"))
      | Some data =>
          yield_identity_types data
            (if py_eq category (VStr "issue") then ["author"; "assignee"]
             else if py_eq category (VStr "pull_request") then ["merge_by"]
             else [])
      end
  end.

(** The filters of the comprehensions: a comment by someone else than the
    author, and one that is not by a bot either. *)
Definition by_another (item comment : value) : result bool :=
  (author <- subscript item "author" ;;
   a <- subscript author "login" ;;
   user <- subscript comment "user" ;;
   b <- subscript user "login" ;;
   Ok (py_ne a b))%res.

Definition by_another_human (item comment : value) : result bool :=
  (other <- by_another item comment ;;
   if (other : bool) then
     user <- subscript comment "user" ;;
     name <- subscript user "name" ;;
     bot <- py_endswith name "bot" ;;
     Ok (negb bot)
   else Ok false)%res.

(** [[str_to_datetime(c["created_at"]) for c in comments if keep(c)]] *)
Definition dates_of (keep : value -> result bool) (comments : list value)
  : result (list (Z * bool)) :=
  rfold (fun dates comment =>
           rbind (keep comment) (fun k =>
           if (k : bool) then
             rbind (subscript comment "created_at") (fun created =>
             rbind (str_to_datetime E created) (fun d => Ok (dates ++ [d])%list))
           else Ok dates))
    comments [].

(** [[c for c in comments if keep(c)]] *)
Definition kept (keep : value -> result bool) (comments : list value)
  : result (list value) :=
  rfold (fun acc comment =>
           rbind (keep comment) (fun k =>
           Ok (if (k : bool) then (acc ++ [comment])%list else acc)))
    comments [].

Definition comments_data (item : value) : result (list value) :=
  rbind (subscript item "comments_data") py_iter.

Definition journals (item : value) : result (list value) :=
  (comments <- subscript item "comments" ;;
   j <- subscript comments "journals" ;;
   py_iter j)%res.

(** [get_time_to_first_attention(item)] *)
Definition get_time_to_first_attention (item : value) : result value :=
  (cs <- comments_data item ;;
   dates <- dates_of (by_another item) cs ;;
   py_min_date dates)%res.

(** [get_num_of_comments_without_bot(item)] *)
Definition get_num_of_comments_without_bot (item : value) : result value :=
  (cs <- comments_data item ;;
   l <- kept (by_another_human item) cs ;;
   Ok (VInt (Z.of_nat (List.length l))))%res.

(** [get_time_to_first_attention_without_bot(item)] *)
Definition get_time_to_first_attention_without_bot (item : value) : result value :=
  (cs <- comments_data item ;;
   dates <- dates_of (by_another_human item) cs ;;
   py_min_date dates)%res.

(** [get_num_of_reviews_without_bot(item)] *)
Definition get_num_of_reviews_without_bot (item : value) : result value :=
  (cs <- journals item ;;
   l <- kept (by_another_human item) cs ;;
   Ok (VInt (Z.of_nat (List.length l))))%res.

(** [get_time_to_merge_request_response(item)]: the comments of ghost users
    and of the creator of the pull request are passed over. *)
Definition get_time_to_merge_request_response (item : value) : result value :=
  (cs <- journals item ;;
   dates <- dates_of (fun comment =>
                        user <- subscript comment "user" ;;
                        if negb (truthy user) then Ok false
                        else by_another item comment) cs ;;
   py_min_date dates)%res.

(** [get_time_to_first_review_attention_without_bot(item)] *)
Definition get_time_to_first_review_attention_without_bot (item : value) : result value :=
  (cs <- journals item ;;
   dates <- dates_of (by_another_human item) cs ;;
   py_min_date dates)%res.

(** [get_latest_comment_date(item)] *)
Definition get_latest_comment_date (item : value) : result value :=
  (cs <- journals item ;;
   dates <- dates_of (fun _ => Ok true) cs ;;
   py_max_date dates)%res.

(** [get_num_commenters(item)] *)
Definition get_num_commenters (item : value) : result value :=
  (cs <- journals item ;;
   commenters <- rmap (fun comment =>
                         rbind (subscript comment "user") (fun u => subscript u "login"))
                   cs ;;
   n <- py_set_len commenters ;;
   Ok (VInt (Z.of_nat n)))%res.

(** [__get_rich_pull(item)] *)
Definition __get_rich_pull (item : dict) : result dict :=
  (let rich := copy_raw (RAW_FIELDS_COPY E) item [] in
   pull_request <- dict_sub item "data" ;;
   merged_by <- py_get pull_request "merge_by" VNone ;;
   rich <- (if truthy merged_by then
              login <- subscript merged_by "login" ;;
              let rich := dict_set rich "merge_author_login" login in
              name <- subscript merged_by "name" ;;
              Ok (dict_set rich "merge_author_name" name)
            else
              Ok (dict_set (dict_set rich "merge_author_name" VNone)
                    "merge_author_login" VNone)) ;;
   id <- subscript pull_request "id" ;;
   let rich := dict_set rich "id" id in
   index <- subscript pull_request "index" ;;
   let rich := dict_set rich "id_in_repo" index in
   origin <- get_project_repository rich ;;
   let rich := dict_set rich "repository" origin in
   title <- subscript pull_request "title" ;;
   let rich := dict_set rich "title" title in
   let rich := dict_set rich "title_analyzed" title in
   status <- subscript pull_request "status" ;;
   let rich := dict_set rich "state" status in
   updated_on <- dict_sub item "updated_on" ;;
   let rich := dict_set rich "updated_at" updated_on in
   merged <- subscript pull_request "merged" ;;
   let rich := dict_set rich "merged" merged in
   merged_at <- subscript pull_request "merged_at" ;;
   let rich := dict_set rich "merged_at" merged_at in
   origin <- dict_sub item "origin" ;;
   let rich := dict_set rich "url" origin in
   let rich := dict_set rich "pull_request" (VBool true) in
   let rich := dict_set rich "item_type" (VStr "pull_request") in
   let rich := dict_set rich "forks" VNone in
   comments <- subscript pull_request "comments" ;;
   total <- subscript comments "total_count" ;;
   let rich := dict_set rich "num_review_comments" total in
   if prjs_map E
   then rbind (get_item_project E rich) (fun p => Ok (dict_update rich p))
   else Ok rich)%res.

(** [get_rich_item(item)], with the [@metadata] decorator of the host
    applied to what the method returns. *)
Definition get_rich_item (item : dict) : M dict :=
  (category <-- dict_sub item "category" ;;
   rich_item <-
     (if py_eq category (VStr "issue") then __get_rich_issue item
      else if py_eq category (VStr "pull_request") then lift (__get_rich_pull item)
      else if py_eq category (VStr "repository") then lift (__get_rich_repo item)
      else emit (LogUnroutable category) ;;; ret []) ;;
   let rich_item := add_repository_labels E rich_item in
   let rich_item := add_metadata_filter_raw E rich_item in
   now <- Gitlink2.utcnow E ;;
   ret (metadata E (VDatetime now true) rich_item))%py.

End WithHost.

End Gitlink.

(* ===================================================================== *)
(** * [raw/gitlink.py]: class [GitlinkOcean] *)
(* ===================================================================== *)

Module Ocean.
Import Py.

(** The user record [_fix_item] writes for a login. *)
Definition filtered_user (login : value) : value :=
  VDict [("name", login); ("login", login); ("email", VNone);
         ("company", VNone); ("location", VNone)].

(** The loop [for identity in identity_types]: the data as the loop leaves
    it, and the exception that stopped it, if one did. *)
Fixpoint fix_identities (data : value) (identity_types : list string)
  : value * option exn :=
  match identity_types with
  | [] => (data, None)
  | identity :: rest =>
      match py_contains data identity with
      | Raise e => (data, Some e)
      | Ok false => fix_identities data rest
      | Ok true =>
          match subscript data identity with
          | Raise e => (data, Some e)
          | Ok ref =>
              if negb (truthy ref) then fix_identities data rest
              else
                match subscript ref "login" with
                | Raise e => (data, Some e)
                | Ok login =>
                    fix_identities
                      (value_set data (identity ++ "_data") (filtered_user login)) rest
                end
          end
      end
  end.

(** The loop [for comment in comments]. *)
Fixpoint fix_comments (comments : list value) : list value * option exn :=
  match comments with
  | [] => ([], None)
  | comment :: rest =>
      match rbind (subscript comment "user") (fun u => subscript u "login") with
      | Raise e => (comment :: rest, Some e)
      | Ok login =>
          let (rest', stop) := fix_comments rest in
          (value_set comment "user_data" (filtered_user login) :: rest', stop)
      end
  end.

(** [_fix_item(item)]: the item as the method leaves it, and the exception it
    raised, if any. The method returns nothing. *)
Definition _fix_item (item : dict) : dict * option exn :=
  match dict_get item "category" with
  | None => (item, Some (KeyError "category"))
  | Some category =>
      if negb (dict_has item "classified_fields_filtered")
         || negb (truthy (match dict_get item "classified_fields_filtered" with
                          | Some v => v
                          | None => VNone
                          end))
      then (item, None)
      else
        match dict_get item "data" with
        | None => (item, Some (KeyError "data"))
        | Some data =>
            let '(identity_types, comments_attr) :=
              if py_eq category (VStr "issue")
              then (["author"; "assignee"], Some "comments_data")
              else if py_eq category (VStr "pull_request")
                   then (["merge_by"], None)
                   else ([], None) in
            match fix_identities data identity_types with
            | (data, Some e) => (dict_set item "data" data, Some e)
            | (data, None) =>
                match
                  match comments_attr with
                  | Some a => py_get data a (VList [])
                  | None => py_get_none data (VList [])
                  end
                with
                | Raise e => (dict_set item "data" data, Some e)
                | Ok comments =>
                    match py_iter comments with
                    | Raise e => (dict_set item "data" data, Some e)
                    | Ok cs =>
                        let (cs', stop) := fix_comments cs in
                        let data :=
                          match comments, comments_attr with
                          | VList _, Some a =>
                              if dict_has (match data with VDict d => d | _ => [] end) a
                              then value_set data a (VList cs')
                              else data
                          | _, _ => data
                          end in
                        (dict_set item "data" data, stop)
                    end
                end
            end
        end
  end.

(** [get_perceval_params_from_url(url)] *)
Definition get_perceval_params_from_url (url : string) : result (list string) :=
  let url := before_first " "%char url in
  rbind (index_from_end (split_on "/"%char url) 2) (fun owner =>
  rbind (index_from_end (split_on "/"%char url) 1) (fun repository =>
  Ok [owner; repository])).

End Ocean.

(* ===================================================================== *)
(** * [identities/gitlink.py]: class [GitlinkIdentities] *)
(* ===================================================================== *)

Module Identities.
Import Py.

Section WithHash.
(** [cls._hash(name)], the one-way hash of the host's [Identities] class. *)
Variable _hash : value -> result value.

Definition hashed_user (h : value) : value :=
  VDict [("name", h); ("login", h); ("email", VNone);
         ("company", VNone); ("location", VNone)].

(** One turn of the loop [for identity in identity_types], on an identity
    that is there and not empty: the data as the turn leaves it, and the
    exception that stopped it, if one did. *)
Definition anonymize_identity (data : value) (identity : string) : value * option exn :=
  match rbind (subscript data identity) (fun ref =>
        rbind (subscript ref "login") _hash) with
  | Raise e => (data, Some e)
  | Ok h =>
      let data := value_set data identity (VDict [("login", h)]) in
      let identity_attr := (identity ++ "_data")%string in
      match rbind (subscript data identity_attr) (fun u =>
            rbind (subscript u "login") (fun login =>
            rbind (_hash login) (fun name =>
            rbind (subscript data identity_attr) (fun u =>
            rbind (subscript u "login") _hash)))) with
      | Raise e => (data, Some e)
      | Ok h' => (value_set data identity_attr (hashed_user h'), None)
      end
  end.

Fixpoint anonymize_identities (data : value) (identity_types : list string)
  : value * option exn :=
  match identity_types with
  | [] => (data, None)
  | identity :: rest =>
      match py_contains data identity with
      | Raise e => (data, Some e)
      | Ok false => anonymize_identities data rest
      | Ok true =>
          match subscript data identity with
          | Raise e => (data, Some e)
          | Ok ref =>
              if negb (truthy ref) then anonymize_identities data rest
              else
                match anonymize_identity data identity with
                | (data, Some e) => (data, Some e)
                | (data, None) => anonymize_identities data rest
                end
          end
      end
  end.

(** The loop [for reaction in comment['reactions_data']]. *)
Fixpoint anonymize_reactions (reactions : list value) : list value * option exn :=
  match reactions with
  | [] => ([], None)
  | reaction :: rest =>
      match rbind (subscript reaction "user") (fun u =>
            rbind (subscript u "login") _hash) with
      | Raise e => (reaction :: rest, Some e)
      | Ok h =>
          let (rest', stop) := anonymize_reactions rest in
          (value_set reaction "user" (VDict [("login", h)]) :: rest', stop)
      end
  end.

(** One turn of the loop [for comment in comments]. *)
Definition anonymize_comment (comment : value) : value * option exn :=
  match
    rbind (py_contains comment "user") (fun has =>
    if (has : bool) then
      rbind (subscript comment "user") (fun u =>
      if truthy u then
        rbind (subscript comment "user") (fun u =>
        rbind (subscript u "login") (fun login =>
        rbind (_hash login) (fun h =>
        Ok (value_set comment "user" (VDict [("login", h)])))))
      else Ok comment)
    else Ok comment)
  with
  | Raise e => (comment, Some e)
  | Ok comment =>
      match rbind (subscript comment "user_data") (fun u =>
            rbind (subscript u "login") (fun login =>
            rbind (_hash login) (fun name =>
            rbind (subscript comment "user_data") (fun u =>
            rbind (subscript u "login") _hash)))) with
      | Raise e => (comment, Some e)
      | Ok h =>
          let comment := value_set comment "user_data" (hashed_user h) in
          match rbind (subscript comment "reactions_data") py_iter with
          | Raise e => (comment, Some e)
          | Ok reactions =>
              let (reactions', stop) := anonymize_reactions reactions in
              (match subscript comment "reactions_data" with
               | Ok (VList _) => value_set comment "reactions_data" (VList reactions')
               | _ => comment
               end, stop)
          end
      end
  end.

Fixpoint anonymize_comments (comments : list value) : list value * option exn :=
  match comments with
  | [] => ([], None)
  | comment :: rest =>
      match anonymize_comment comment with
      | (comment, Some e) => (comment :: rest, Some e)
      | (comment, None) =>
          let (rest', stop) := anonymize_comments rest in
          (comment :: rest', stop)
      end
  end.

(** [anonymize_item(item)]: the item as the method leaves it, and the
    exception it raised, if any. *)
Definition anonymize_item (item : dict) : dict * option exn :=
  match dict_get item "category" with
  | None => (item, Some (KeyError "category"))
  | Some category =>
      match dict_get item "data" with
      | None => (item, Some (KeyError "data"))
      | Some data =>
          let '(identity_types, comments_attr) :=
            if py_eq category (VStr "issue")
            then (["author"; "assignee"], Some "comments_data")
            else if py_eq category (VStr "pull_request")
                 then (["merged_by"], None)
                 else ([], None) in
          match anonymize_identities data identity_types with
          | (data, Some e) => (dict_set item "data" data, Some e)
          | (data, None) =>
              match
                match comments_attr with
                | Some a => py_get data a (VList [])
                | None => py_get_none data (VList [])
                end
              with
              | Raise e => (dict_set item "data" data, Some e)
              | Ok comments =>
                  match py_iter comments with
                  | Raise e => (dict_set item "data" data, Some e)
                  | Ok cs =>
                      let (cs', stop) := anonymize_comments cs in
                      let data :=
                        match comments, comments_attr with
                        | VList _, Some a =>
                            if dict_has (match data with VDict d => d | _ => [] end) a
                            then value_set data a (VList cs')
                            else data
                        | _, _ => data
                        end in
                      (dict_set item "data" data, stop)
                  end
              end
          end
      end
  end.

End WithHash.

End Identities.

(* ===================================================================== *)
(** * A host to run the connector on *)
(* ===================================================================== *)

(** One instance of [Env], used to run the embedding on concrete items. It
    follows what the host framework does with its defaults (no identity
    database, no projects map): the six envelope fields copied by every
    enricher, the two grimoire fields, the three metadata fields; and a sink
    that writes every record it is given. Timestamps have the form
    [YYYY-MM-DDTHH:MM:SS] and are read as UTC. *)
Module SampleHost.
Import Py Host.

Definition digit (c : ascii) : option Z :=
  let n := Z.of_nat (nat_of_ascii c) in
  if (48 <=? n) && (n <=? 57) then Some (n - 48) else None.

Fixpoint number_from (acc : Z) (s : string) : option Z :=
  match s with
  | EmptyString => Some acc
  | String c s' =>
      match digit c with
      | Some d => number_from (10 * acc + d) s'
      | None => None
      end
  end.

Definition field (start len : nat) (s : string) : option Z :=
  let f := String.substring start len s in
  if Nat.eqb (String.length f) len then number_from 0 f else None.

(** Days from 1970-01-01 to the given civil date. *)
Definition days_from_civil (y m d : Z) : Z :=
  let y := if m <=? 2 then y - 1 else y in
  let era := y / 400 in
  let yoe := y - era * 400 in
  let doy := (153 * (m + (if 2 <? m then -3 else 9)) + 2) / 5 + d - 1 in
  let doe := yoe * 365 + yoe / 4 - yoe / 100 + doy in
  era * 146097 + doe - 719468.

Definition parse_timestamp (s : string) : option Z :=
  match field 0 4 s, field 5 2 s, field 8 2 s,
        field 11 2 s, field 14 2 s, field 17 2 s with
  | Some y, Some mo, Some d, Some h, Some mi, Some se =>
      if Nat.eqb (String.length s) 19
      then Some (days_from_civil y mo d * 86400 + h * 3600 + mi * 60 + se)
      else None
  | _, _, _, _, _, _ => None
  end.

Definition str_to_datetime (v : value) : result (Z * bool) :=
  match v with
  | VStr s =>
      match parse_timestamp s with
      | Some t => Ok (t, true)
      | None => Raise (HostError "InvalidDateError")
      end
  | VDatetime t aware => Ok (t, aware)
  | _ => Raise (HostError "InvalidDateError")
  end.

Definition seconds_of (v : value) : result Z :=
  match v with
  | VDatetime t _ => Ok t
  | VStr s =>
      match parse_timestamp s with
      | Some t => Ok t
      | None => Raise (HostError "ParserError")
      end
  | _ => Raise TypeError
  end.

(** Days between two dates, to two decimals; [None] when a date is. *)
Definition get_time_diff_days (start finish : value) : result value :=
  match start, finish with
  | VNone, _ | _, VNone => Ok VNone
  | _, _ =>
      rbind (seconds_of start) (fun a =>
      rbind (seconds_of finish) (fun b =>
        Ok (VFloat (Qmake ((200 * (b - a) + 86400) / 172800) 100))))
  end.

Definition isoformat (t : Z) (aware : bool) : string :=
  NilZero.string_of_int (Z.to_int t) ++ (if aware then "+00:00" else "").

Definition get_grimoire_fields (creation_date : value) (item_name : string)
  : result dict :=
  let grimoire_date :=
    match str_to_datetime creation_date with
    | Ok (t, aware) => VStr (isoformat t aware)
    | Raise _ => VNone
    end in
  Ok [("grimoire_creation_date", grimoire_date);
      ("is_gitlink2_" ++ item_name, VInt 1)].

Definition get_email_domain (email : value) : result value :=
  match email with
  | VStr s => Ok (VStr (last_field "@"%char s))
  | _ => Raise AttributeError
  end.

Definition metadata (now : value) (eitem : dict) : dict :=
  dict_update eitem
    [("metadata__gelk_version", VStr "1.0");
     ("metadata__gelk_backend_name", VStr "GitlinkEnrich2");
     ("metadata__enriched_on",
      match now with VDatetime t a => VStr (isoformat t a) | _ => VNone end)].

Definition writes_all : Sink :=
  fun _ batch _ => Z.of_nat (List.length batch).

Definition host : Env :=
  {| RAW_FIELDS_COPY :=
       ["metadata__updated_on"; "metadata__timestamp"; "offset"; "origin"; "tag"; "uuid"];
     KEYWORD_MAX_LENGTH := 1000;
     gelk_version := VStr "1.0";
     sortinghat := false;
     prjs_map := false;
     copy_raw_fields := Gitlink.copy_raw;
     get_item_project := fun _ => Ok [];
     get_item_sh := fun _ _ _ => Ok [];
     Host.get_grimoire_fields := get_grimoire_fields;
     Host.get_email_domain := get_email_domain;
     add_repository_labels := fun eitem => dict_set eitem "repository_labels" VNone;
     add_metadata_filter_raw := fun eitem => eitem;
     Host.metadata := metadata;
     Host.get_time_diff_days := get_time_diff_days;
     Host.str_to_datetime := str_to_datetime;
     datetime_utcnow := fun n => 1700000000 + Z.of_nat n;
     Host.isoformat := isoformat;
     py_repr := fun _ => "<object>" |}.

End SampleHost.

(** ** Raw items to run it on *)
Module Samples.
Import Py Host.

Definition repo_url : value := VStr "https://www.gitlink.org.cn/owner/repo".

(** The repository record of the specification's scenario, as it is written
    there. *)
Definition scenario_repo : dict :=
  [("category", VStr "repository");
   ("data", VDict [("forks_count", VInt 3); ("subscribers_count", VInt 10);
                   ("stargazers_count", VInt 7);
                   ("fetched_on", VStr "2023-01-01T00:00:00")])].

(** The same record with the two fields [__get_rich_repo] also reads. *)
Definition repo_item : dict :=
  [("category", VStr "repository");
   ("origin", repo_url);
   ("metadata__updated_on", VStr "2023-01-01T00:00:00");
   ("data", VDict [("forks_count", VInt 3); ("subscribers_count", VInt 10);
                   ("stargazers_count", VInt 7);
                   ("fetched_on", VStr "2023-01-01T00:00:00");
                   ("origin", repo_url)])].

Definition user (login name : string) : value :=
  VDict [("login", VStr login); ("name", VStr name)].

Definition comment (id : Z) (login name : string) : value :=
  VDict [("id", VInt id); ("body", VStr "Looks good to me");
         ("created_at", VStr "2023-01-02T00:00:00");
         ("updated_at", VStr "2023-01-02T00:00:00");
         ("user", user login name);
         ("user_data", user login name)].

(** An issue with status code [status], opened by alice. *)
Definition issue_data (status : Z) (comments : list value) : value :=
  VDict [("id", VInt 7);
         ("created_at", VStr "2023-01-01T00:00:00");
         ("updated_at", VStr "2023-01-02T06:00:00");
         ("finished_at", VStr "2023-01-03T12:00:00");
         ("status", VDict [("id", VInt status); ("name", VStr "status")]);
         ("author", user "alice" "Alice");
         ("user", user "alice" "Alice");
         ("html_url", VStr "https://www.gitlink.org.cn/owner/repo/issues/7");
         ("project_issues_index", VInt 7);
         ("title", VStr "A title");
         ("labels", VList [VDict [("name", VStr "bug")]]);
         ("comments_data", VList comments)].

Definition issue_envelope (data : value) : dict :=
  [("category", VStr "issue");
   ("origin", repo_url);
   ("metadata__updated_on", VStr "2023-01-03T12:00:00");
   ("data", data)].

Definition issue_item (status : Z) (comments : list value) : dict :=
  issue_envelope (issue_data status comments).

(** The same issue, assigned to bob and to carol. *)
Definition issue_assigned : dict :=
  issue_envelope
    (value_set (issue_data 5 []) "assignee"
       (VList [user "bob" "Bob"; user "carol" "Carol"])).

(** An item of a category the enricher has no mapping for. *)
Definition commit_item : dict :=
  [("category", VStr "commit"); ("origin", repo_url); ("data", VDict [])].

(** A source that fills one batch and leaves one record over. *)
Definition source_201 : list dict :=
  (repeat repo_item 199 ++ [issue_item 5 []; commit_item])%list.

Definition run_201 : world * result Z :=
  Gitlink2.enrich_items SampleHost.host SampleHost.writes_all source_201 world0.

(** A sink that loses two records of the first batch it is given. *)
Definition loses_two : Sink :=
  fun before batch _ =>
    match before with
    | [] => Z.of_nat (List.length batch) - 2
    | _ => Z.of_nat (List.length batch)
    end.

(** The enriched form of an issue, by either enricher ([[]] if it raised). *)
Definition rich_v2 (item : dict) : dict :=
  match snd (Gitlink2.__get_rich_issue SampleHost.host item world0) with
  | Ok (_, rich) => rich
  | Raise _ => []
  end.

Definition rich_v1 (item : dict) : dict :=
  match snd (Gitlink.__get_rich_issue SampleHost.host item world0) with
  | Ok rich => rich
  | Raise _ => []
  end.

Definition run_lossy : world * result Z :=
  Gitlink2.enrich_items SampleHost.host loses_two source_201 world0.

(** An issue opened by alice, who also wrote its first comment; the second
    comment comes from a user known by name only. *)
Definition identities_data : dict :=
  [("author", user "alice" "Alice");
   ("author_data", user "alice" "Alice");
   ("assignee", VNone);
   ("comments_data",
    VList [comment 11 "alice" "Alice";
           VDict [("id", VInt 12);
                  ("user_data", VDict [("name", VStr "Anonymous")])]])].

Definition identities_issue : dict :=
  [("category", VStr "issue"); ("data", VDict identities_data)].

(** A raw item the fetcher marked as filtered, and the same item unmarked. *)
Definition filtered_issue : dict :=
  (issue_item 5 [comment 11 "bob" "Bob"]
   ++ [("classified_fields_filtered", VList [VStr "user_data"])])%list.

Definition unfiltered_issue : dict :=
  (issue_item 5 [comment 11 "bob" "Bob"]
   ++ [("classified_fields_filtered", VNone)])%list.

(** The commented issue as a payload without the [user] field. *)
Definition issue_without_user : dict :=
  issue_envelope
    match issue_data 5 [comment 11 "bob" "Bob"] with
    | VDict d => VDict (dict_remove d "user")
    | v => v
    end.

(** The issue without comments, and with one comment by bob. *)
Definition run_issue_plain : world * result (list dict) :=
  Gitlink2.enrich_one SampleHost.host (issue_item 5 []) world0.

Definition run_issue_commented : world * result (list dict) :=
  Gitlink2.enrich_one SampleHost.host (issue_item 5 [comment 11 "bob" "Bob"]) world0.

Definition run_scenario_repo : world * result (list dict) :=
  Gitlink2.enrich_one SampleHost.host scenario_repo world0.

Definition run_repo : world * result (list dict) :=
  Gitlink2.enrich_one SampleHost.host repo_item world0.

Definition run_commit : world * result Z :=
  Gitlink2.enrich_items SampleHost.host SampleHost.writes_all [commit_item] world0.

End Samples.

(** ** Readings of the specification that the code is compared with *)
Module AsWritten.
Import Py Host.

(** "After each flush the pipeline compares submitted with written and logs
    the missing count": every upload that wrote fewer records than it was
    given is followed at once by the error line. *)
Fixpoint checked_after_each_flush (t : list event) : bool :=
  match t with
  | [] => true
  | BulkUpload batch _ written :: rest =>
      ((written =? Z.of_nat (List.length batch))
       || match rest with LogMissing _ _ :: _ => true | _ => false end)
      && checked_after_each_flush rest
  | _ :: rest => checked_after_each_flush rest
  end.

(** "One tuple per distinct actor": no identity is yielded twice. *)
Definition dict_eqb (a b : dict) : bool := py_eq (VDict a) (VDict b).

Fixpoint distinct (ids : list dict) : bool :=
  match ids with
  | [] => true
  | i :: rest => negb (existsb (dict_eqb i) rest) && distinct rest
  end.

(** "Skipping actors with no resolvable username": every identity yielded
    has a username. *)
Definition has_username (identity : dict) : bool :=
  match dict_get identity "username" with
  | Some VNone | None => false
  | Some _ => true
  end.

(** The identity tuple made of a user record: the name falls back on the
    login, and so does the username; what is missing is [None]. *)
Definition identity_of (user : dict) : dict :=
  let login := match dict_get user "login" with Some x => x | None => VNone end in
  [("name", match dict_get user "name" with Some x => x | None => login end);
   ("email", match dict_get user "email" with Some x => x | None => VNone end);
   ("username", match dict_get user "username" with Some x => x | None => login end)].

Definition nonempty (user : dict) : bool :=
  match user with [] => false | _ => true end.

(** The user record an actor field refers to: there is one when the field is
    not empty and its [_data] companion is present. *)
Definition referenced (ref : value) (record : option dict) : list dict :=
  match record with
  | Some user => if truthy ref then [user] else []
  | None => []
  end.

End AsWritten.

(* ===================================================================== *)
(** * Notions the properties are stated with *)
(* ===================================================================== *)

Module Behaviour.
Import Py Host.
#[local] Open Scope list_scope.

(** ** Computations that leave the sink alone *)

Definition is_log (ev : event) : Prop :=
  match ev with LogUnroutable _ => True | _ => False end.

(** A computation is quiet when all it does to the world is read the clock
    and log unroutable categories, and when it does not look at the trace. *)
Definition quiet {A} (m : M A) : Prop :=
  forall c, exists c' logs r,
    Forall is_log logs /\
    forall t, m (mkWorld c t) = (mkWorld c' (t ++ logs), r).

(** ** Fields a step writes, fields the host leaves alone *)

Definition mem (k : string) (keys : list string) : bool :=
  existsb (fun key => String.eqb key k) keys.

(** [d'] is [d] but for the keys in [keys]. *)
Definition only_writes (keys : list string) (d d' : dict) : Prop :=
  forall k, mem k keys = false -> dict_get d' k = dict_get d k.

(** The helpers of the host that add fields to an enriched item do not add
    any of [keys]: they keep clear of the fields the connector computes. *)
Record host_leaves (E : Env) (keys : list string) : Prop := {
  project_leaves : forall d p k,
    get_item_project E d = Ok p -> mem k keys = true -> dict_get p k = None;
  grimoire_leaves : forall v name g k,
    get_grimoire_fields E v name = Ok g -> mem k keys = true -> dict_get g k = None;
  sh_leaves : forall i roles f sh k,
    get_item_sh E i roles f = Ok sh -> mem k keys = true -> dict_get sh k = None
}.

(** The helpers of the host that decorate an enriched item (repository
    labels, raw filter, the [@metadata] decorator) leave [keys] as they are. *)
Record decorators_leave (E : Env) (keys : list string) : Prop := {
  labels_leave : forall d k,
    mem k keys = true -> dict_get (add_repository_labels E d) k = dict_get d k;
  filter_leaves : forall d k,
    mem k keys = true -> dict_get (add_metadata_filter_raw E d) k = dict_get d k;
  metadata_leaves : forall now d k,
    mem k keys = true -> dict_get (metadata E now d) k = dict_get d k
}.

(** ** Runs of the loop *)

(** The records handed to the sink, and the records it reported written,
    over a stretch of the trace. *)
Definition submitted (t : list event) : Z :=
  fold_right (fun ev acc =>
                match ev with
                | BulkUpload b _ _ => Z.of_nat (List.length b) + acc
                | _ => acc
                end) 0 t.

Definition reported (t : list event) : Z :=
  fold_right (fun ev acc =>
                match ev with
                | BulkUpload _ _ written => written + acc
                | _ => acc
                end) 0 t.

Definition is_report (ev : event) : bool :=
  match ev with
  | LogMissing _ _ | LogInserted _ => true
  | _ => false
  end.

(** [group] is what some turn of the loop added to the buffer for [item]:
    the enriched item followed by its comment and review records. *)
Definition produced (E : Env) (item : dict) (group : list dict) : Prop :=
  exists w w', Gitlink2.enrich_one E item w = (w', Ok group).

(** A batch that was flushed by the threshold test: made of whole groups,
    below the threshold before its last group came, at or above it after. *)
Definition filled (gs : list (list dict)) : Prop :=
  gs <> [] /\
  (List.length (concat (removelast gs)) < Gitlink2.MAX_SIZE_BULK_ENRICHED_ITEMS)%nat /\
  (Gitlink2.MAX_SIZE_BULK_ENRICHED_ITEMS <= List.length (concat gs))%nat.

(** The line that closes a run, from the two totals. *)
Definition final_report (num_items ins_items : Z) : event :=
  if negb (num_items =? ins_items)
  then LogMissing (num_items - ins_items) num_items
  else LogInserted num_items.

(** Two runs of the loop that differ in the sink, and so in the trace and
    in what was reported written, agree on everything else. *)
Definition same_outcome (r1 r2 : result (list dict * Z * Z)) : Prop :=
  match r1, r2 with
  | Ok (buf1, num1, _), Ok (buf2, num2, _) => buf1 = buf2 /\ num1 = num2
  | Raise e1, Raise e2 => e1 = e2
  | _, _ => False
  end.

(** ** Records of items of another category *)

(** The record made of an item the connector cannot route, when the clock
    has been read [clock] times: the empty dictionary as the host decorates
    every record (repository labels, raw filter, metadata). *)
Definition unroutable_record (E : Env) (clock : nat) : dict :=
  metadata E (VDatetime (datetime_utcnow E clock) true)
    (add_metadata_filter_raw E (add_repository_labels E [])).

(** ** Bytes and characters *)

Fixpoint all_continuation (s : string) : bool :=
  match s with
  | EmptyString => true
  | String c s' => is_continuation c && all_continuation s'
  end.

(** Every byte of [s] is below 128, and so a character of its own. *)
Fixpoint all_ascii (s : string) : bool :=
  match s with
  | EmptyString => true
  | String (Ascii _ _ _ _ _ _ _ b7) s' => negb b7 && all_ascii s'
  end.

(** The first [n] bytes of [s]. *)
Fixpoint byte_take (n : nat) (s : string) : string :=
  match n, s with
  | O, _ => EmptyString
  | S n', String c s' => String c (byte_take n' s')
  | S _, EmptyString => EmptyString
  end.

End Behaviour.

(* ===================================================================== *)
(** * Masked user records, and more items to run the connector on *)
(* ===================================================================== *)

Module Privacy.
Import Py.

(** The user record [_fix_item] and [anonymize_item] write: [h] for the name
    and the login, nothing else. *)
Definition masked (h : value) : value :=
  VDict [("name", h); ("login", h); ("email", VNone);
         ("company", VNone); ("location", VNone)].

Definition masked_by (Q : value -> Prop) (u : value) : Prop :=
  exists h, Q h /\ u = masked h.

(** The identities the two enrichers make of such a record. *)
Definition identity_v2 (h : value) : dict :=
  [("name", h); ("email", VNone); ("username", h)].

Definition identity_v1 (h : value) : dict :=
  [("username", h); ("email", VNone); ("name", h)].

Definition any (h : value) : Prop := True.

(** [h] is what the hash made of some login. *)
Definition hashes (_hash : value -> result value) (h : value) : Prop :=
  exists login, _hash login = Ok h.

End Privacy.

Module Cases.
Import Py Host.

Definition fields_of (v : value) : dict :=
  match v with VDict d => d | _ => [] end.

(** A user record with the personal fields the fetcher delivers. *)
Definition person (login name email : string) : value :=
  VDict [("login", VStr login); ("name", VStr name); ("email", VStr email);
         ("company", VStr "ACME"); ("location", VStr "Changsha")].

Definition comment_at (id : Z) (login name created : string) : value :=
  VDict [("id", VInt id); ("body", VStr "Please rebase");
         ("created_at", VStr created); ("updated_at", VStr created);
         ("user", Samples.user login name)].

(** A pull request opened by alice and merged by bob, with three review
    comments. *)
Definition reviews : list value :=
  [comment_at 31 "bob" "Bob" "2023-01-05T00:00:00";
   comment_at 32 "carol" "Carol" "2023-01-03T00:00:00";
   comment_at 33 "bob" "Bob" "2023-01-04T00:00:00"].

Definition pull_fields : dict :=
  [("id", VInt 21); ("index", VInt 3); ("issue", VDict [("id", VInt 8)]);
   ("title", VStr "A change"); ("status", VStr "merged");
   ("merged", VBool true); ("merged_at", VStr "2023-01-06T00:00:00");
   ("author", Samples.user "alice" "Alice");
   ("merge_by", person "bob" "Bob" "bob@example.org");
   ("merged_by", Samples.user "bob" "Bob");
   ("merged_by_data", person "bob" "Bob" "bob@example.org");
   ("comments", VDict [("total_count", VInt 3); ("journals", VList reviews)])].

Definition pull_data : value := VDict pull_fields.

Definition pull_item : dict :=
  [("category", VStr "pull_request");
   ("origin", Samples.repo_url);
   ("updated_on", VStr "2023-01-06T00:00:00");
   ("metadata__updated_on", VStr "2023-01-06T00:00:00");
   ("data", pull_data)].

Definition filtered_pull : dict :=
  (pull_item ++ [("classified_fields_filtered", VList [VStr "user_data"])])%list.

(** A source with a pull request in it, and one that fills a batch before
    it comes to the pull request. *)
Definition source_with_pull : list dict :=
  [Samples.repo_item; pull_item; Samples.commit_item].

Definition source_aborting : list dict :=
  (repeat Samples.repo_item 201 ++ [pull_item])%list.

Definition run_aborting : world * result Z :=
  Gitlink2.enrich_items SampleHost.host SampleHost.writes_all source_aborting world0.

(** A comment with reactions. *)
Definition reacted : value :=
  VDict [("id", VInt 11);
         ("reactions",
          VDict [("url", VStr "https://www.gitlink.org.cn/api/reactions/11");
                 ("+1", VInt 2); ("-1", VInt 1); ("heart", VInt 0)])].

(** An issue whose user records carry personal fields, marked as filtered. *)
Definition private_comment : value :=
  VDict [("id", VInt 11);
         ("user", Samples.user "carol" "Carol");
         ("user_data", person "carol" "Carol" "carol@example.org");
         ("reactions_data", VList [VDict [("user", Samples.user "dave" "Dave")]])].

Definition private_data : value :=
  VDict [("author", Samples.user "alice" "Alice");
         ("author_data", person "alice" "Alice" "alice@example.org");
         ("assignee", Samples.user "bob" "Bob");
         ("assignee_data", person "bob" "Bob" "bob@example.org");
         ("title", VStr "A title");
         ("comments_data", VList [private_comment])].

Definition private_issue : dict :=
  [("category", VStr "issue"); ("uuid", VStr "0f3a");
   ("data", private_data);
   ("classified_fields_filtered", VList [VStr "user_data"])].

(** A stand-in for the one-way hash of the host's [Identities] class: it is
    a method of strings. *)
Definition sample_hash (v : value) : result value :=
  match v with
  | VStr s => Ok (VStr ("sha1:" ++ s))
  | _ => Raise AttributeError
  end.

(** An issue opened by alice with three comments, the earliest one her own;
    and one with a comment whose author was deleted. *)
Definition discussion : list value :=
  [comment_at 14 "alice" "Alice" "2023-01-02T00:00:00";
   comment_at 15 "bob" "Bob" "2023-01-04T00:00:00";
   comment_at 16 "carol" "Carol" "2023-01-03T00:00:00"].

Definition discussed : value := Samples.issue_data 5 discussion.

Definition haunting : list value :=
  [VDict [("id", VInt 13); ("created_at", VStr "2023-01-02T00:00:00");
          ("user", VNone)];
   Samples.comment 11 "bob" "Bob"].

Definition haunted : value := Samples.issue_data 5 haunting.

(** An issue assigned to the user who is not available. *)
Definition unassigned_data : value :=
  value_set (Samples.issue_data 5 []) "assignee_data" Gitlink2.USER_NOT_AVAILABLE.

Definition unassigned : dict := Samples.issue_envelope unassigned_data.

(** An enriched issue that has the fields a comment record copies. *)
Definition parent_issue : dict :=
  [("id", VInt 7); ("origin", Samples.repo_url);
   ("issue_labels", VList [VStr "bug"]); ("issue_id", VInt 7);
   ("issue_id_in_repo", VStr "7");
   ("issue_url", VStr "https://www.gitlink.org.cn/owner/repo/issues/7");
   ("issue_title", VStr "A title"); ("issue_state", VStr "status");
   ("issue_created_at", VStr "2023-01-01T00:00:00");
   ("issue_updated_at", VStr "2023-01-02T06:00:00");
   ("closed_at", VStr "2023-01-03T12:00:00");
   ("issue_pull_request", VBool false);
   ("gitlink_repo", VStr "owner/repo"); ("repository", Samples.repo_url)].

(** A discussion a bot opens. *)
Definition automated : list value :=
  [comment_at 21 "ci" "ci-bot" "2023-01-02T00:00:00";
   comment_at 22 "bob" "Bob" "2023-01-04T00:00:00"].

Definition automated_issue : value := Samples.issue_data 5 automated.

(** A discussion only a bot takes part in. *)
Definition bot_only : list value :=
  [comment_at 21 "ci" "ci-bot" "2023-01-02T00:00:00"].

Definition bot_only_issue : value := Samples.issue_data 5 bot_only.

(** A repository as [GitlinkEnrich] reads it, with two releases. *)
Definition release (id : Z) (tag : string) : value :=
  VDict [("id", VInt id); ("tag_name", VStr tag); ("target_commitish", VStr "master");
         ("name", VStr tag); ("body", VStr "Notes");
         ("created_at", VStr "2023-01-01T00:00:00");
         ("user_login", VStr "alice"); ("user_name", VStr "Alice")].

Definition released : dict :=
  [("category", VStr "repository");
   ("origin", Samples.repo_url);
   ("metadata__updated_on", VStr "2023-01-01T00:00:00");
   ("data", VDict [("forked_count", VInt 3); ("watchers_count", VInt 10);
                   ("praises_count", VInt 7);
                   ("fetched_on", VStr "2023-01-01T00:00:00");
                   ("releases", VList [release 1 "v1.0"; release 2 "v1.1"])])].

(** The issue of [Samples.identities_issue] without its [assignee] field. *)
Definition no_assignee_issue : dict :=
  [("category", VStr "issue");
   ("data", VDict (dict_remove Samples.identities_data "assignee"))].

(** [n] copies of [s], one after the other. *)
Fixpoint times (n : nat) (s : string) : string :=
  match n with
  | O => EmptyString
  | S n' => (s ++ times n' s)%string
  end.

(** A character of three bytes (U+8BC4), and a comment whose body is 1001 of
    them. *)
Definition wide : string :=
  String "232"%char (String "175"%char (String "132"%char EmptyString)).

Definition verbose : value :=
  value_set (Samples.comment 11 "bob" "Bob") "body" (VStr (times 1001 wide)).

End Cases.

(* ===================================================================== *)
(** * Facts about dictionaries *)
(* ===================================================================== *)

Module DictFacts.
Import Py.

Lemma dict_get_set (d : dict) (k k' : string) (v : value) :
  dict_get (dict_set d k v) k' = if String.eqb k k' then Some v else dict_get d k'.
Proof.
  induction d as [|[k0 v0] d IH]; simpl.
  - destruct (String.eqb k k'); reflexivity.
  - destruct (String.eqb k0 k) eqn:E0; simpl.
    + apply String.eqb_eq in E0; subst k0.
      destruct (String.eqb k k'); reflexivity.
    + rewrite IH. destruct (String.eqb k0 k') eqn:E1; [|reflexivity].
      apply String.eqb_eq in E1; subst k0.
      rewrite String.eqb_sym, E0. reflexivity.
Qed.

Lemma dict_get_set_same (d : dict) (k : string) (v : value) :
  dict_get (dict_set d k v) k = Some v.
Proof. rewrite dict_get_set, String.eqb_refl. reflexivity. Qed.

Lemma dict_get_remove (d : dict) (k k' : string) :
  dict_get (dict_remove d k) k' = if String.eqb k k' then None else dict_get d k'.
Proof.
  unfold dict_remove. induction d as [|[k0 v0] d IH]; simpl.
  - destruct (String.eqb k k'); reflexivity.
  - destruct (String.eqb k0 k) eqn:E0; simpl.
    + apply String.eqb_eq in E0; subst k0. rewrite IH.
      destruct (String.eqb k k'); reflexivity.
    + rewrite IH. destruct (String.eqb k0 k') eqn:E1; [|reflexivity].
      apply String.eqb_eq in E1; subst k0.
      rewrite String.eqb_sym, E0. reflexivity.
Qed.

(** Updating from a dictionary that lacks [k] leaves [k] alone. *)
Lemma dict_get_update_absent (src d : dict) (k : string) :
  dict_get src k = None -> dict_get (dict_update d src) k = dict_get d k.
Proof.
  unfold dict_update. revert d.
  induction src as [|[k0 v0] src IH]; simpl; intros d H; [reflexivity|].
  destruct (String.eqb k0 k) eqn:E0; [discriminate|].
  rewrite IH by assumption. rewrite dict_get_set, E0. reflexivity.
Qed.

Lemma dict_has_update (src d : dict) (k : string) :
  dict_has (dict_update d src) k = dict_has d k || dict_has src k.
Proof.
  unfold dict_update. revert d.
  induction src as [|[k0 v0] src IH]; intros d; simpl.
  - rewrite orb_false_r. reflexivity.
  - rewrite IH. unfold dict_has. rewrite dict_get_set. cbn [dict_get].
    destruct (String.eqb k0 k); destruct (dict_get d k); destruct (dict_get src k);
      reflexivity.
Qed.

Lemma dict_pop_ok (d d' : dict) (k : string) :
  dict_pop d k = Ok d' -> d' = dict_remove d k.
Proof. unfold dict_pop. destruct (dict_has d k); congruence. Qed.

Lemma dict_sub_ok (d : dict) (k : string) (v : value) :
  dict_sub d k = Ok v <-> dict_get d k = Some v.
Proof. unfold dict_sub. destruct (dict_get d k); split; congruence. Qed.

Lemma subscript_ok (x : value) (k : string) (v : value) :
  subscript x k = Ok v -> exists d, x = VDict d /\ dict_get d k = Some v.
Proof.
  destruct x; simpl; try discriminate. intros H. exists d. split; [reflexivity|].
  destruct (dict_get d k); congruence.
Qed.

End DictFacts.

(* ===================================================================== *)
(** * Facts about computations *)
(* ===================================================================== *)

Module Quiet.
Import Py Host Behaviour.
#[local] Open Scope list_scope.

Lemma quiet_lift {A} (r : result A) : quiet (lift r).
Proof.
  intros c. exists c, [], r. split; [constructor|].
  intros t. unfold lift. rewrite app_nil_r. reflexivity.
Qed.

Lemma quiet_ret {A} (a : A) : quiet (ret a).
Proof. exact (quiet_lift (Ok a)). Qed.

Lemma quiet_utcnow (E : Env) : quiet (Gitlink2.utcnow E).
Proof.
  intros c. exists (S c), [], (Ok (datetime_utcnow E c)). split; [constructor|].
  intros t. unfold Gitlink2.utcnow. simpl. rewrite app_nil_r. reflexivity.
Qed.

Lemma quiet_log (category : value) : quiet (emit (LogUnroutable category)).
Proof.
  intros c. exists c, [LogUnroutable category], (Ok tt).
  split; [repeat constructor|]. intros t. reflexivity.
Qed.

Lemma quiet_bind {A B} (m : M A) (k : A -> M B) :
  quiet m -> (forall a, quiet (k a)) -> quiet (bind m k).
Proof.
  intros Hm Hk c. destruct (Hm c) as (c1 & logs1 & r1 & Hl1 & H1).
  destruct r1 as [a|e].
  - destruct (Hk a c1) as (c2 & logs2 & r2 & Hl2 & H2).
    exists c2, (logs1 ++ logs2), r2. split.
    + apply Forall_app; split; assumption.
    + intros t. unfold bind. rewrite H1, H2, app_assoc. reflexivity.
  - exists c1, logs1, (Raise e). split; [assumption|].
    intros t. unfold bind. rewrite H1. reflexivity.
Qed.

Lemma quiet_mmap {A B} (f : A -> M B) (l : list A) :
  (forall a, quiet (f a)) -> quiet (Gitlink2.mmap f l).
Proof.
  intros Hf. induction l as [|a l IH]; simpl.
  - apply quiet_ret.
  - apply quiet_bind; [apply Hf|]. intros b.
    apply quiet_bind; [apply IH|]. intros bs. apply quiet_ret.
Qed.

(** Takes a goal [quiet m] apart along the structure of [m]. *)
Ltac quiet_step :=
  match goal with
  | |- quiet (bind _ _) => apply quiet_bind; [|intros]
  | |- quiet (lift _) => apply quiet_lift
  | |- quiet (ret _) => apply quiet_ret
  | |- quiet (Gitlink2.utcnow _) => apply quiet_utcnow
  | |- quiet (emit (LogUnroutable _)) => apply quiet_log
  | |- quiet (Gitlink2.mmap _ _) => apply quiet_mmap; intros
  | |- quiet (if ?b then _ else _) => destruct b
  | |- quiet (match ?x with (_, _) => _ end) => destruct x
  | |- quiet (let _ := _ in _) => cbv zeta
  end.

Ltac quiet_auto := repeat quiet_step.

Section Enrichers.
Variable E : Env.

Lemma quiet_add_gelk_metadata (eitem : dict) :
  quiet (Gitlink2.add_gelk_metadata E eitem).
Proof. unfold Gitlink2.add_gelk_metadata. quiet_auto. Qed.

Lemma quiet_finish_comment (sub_type : string) (comment : value) (eitem ecomment : dict) :
  quiet (Gitlink2.finish_comment E sub_type comment eitem ecomment).
Proof.
  unfold Gitlink2.finish_comment. quiet_auto. apply quiet_add_gelk_metadata.
Qed.

Lemma quiet_enrich_issue (item eitem : dict) :
  quiet (Gitlink2.enrich_issue E item eitem).
Proof.
  unfold Gitlink2.enrich_issue, Gitlink2.get_rich_issue_comments.
  quiet_auto. unfold Gitlink2.rich_issue_comment. quiet_auto.
  apply quiet_finish_comment.
Qed.

Lemma quiet_get_rich_pull_reviews (comments : value) (eitem : dict) :
  quiet (Gitlink2.get_rich_pull_reviews E comments eitem).
Proof.
  unfold Gitlink2.get_rich_pull_reviews. quiet_auto.
  unfold Gitlink2.rich_pull_review. quiet_auto. apply quiet_finish_comment.
Qed.

Lemma quiet_enrich_pulls (item eitem : dict) :
  quiet (Gitlink2.enrich_pulls E item eitem).
Proof.
  unfold Gitlink2.enrich_pulls. quiet_auto; apply quiet_get_rich_pull_reviews.
Qed.

Lemma quiet_get_rich_issue (item : dict) : quiet (Gitlink2.__get_rich_issue E item).
Proof. unfold Gitlink2.__get_rich_issue. quiet_auto. Qed.

Lemma quiet_get_rich_pull (item : dict) : quiet (Gitlink2.__get_rich_pull E item).
Proof. unfold Gitlink2.__get_rich_pull. quiet_auto. Qed.

Lemma quiet_get_rich_item (item : dict) : quiet (Gitlink2.get_rich_item E item).
Proof.
  unfold Gitlink2.get_rich_item. quiet_auto;
    first [apply quiet_get_rich_issue | apply quiet_get_rich_pull].
Qed.

Lemma quiet_enrich_one (item : dict) : quiet (Gitlink2.enrich_one E item).
Proof.
  unfold Gitlink2.enrich_one. quiet_auto;
    first [apply quiet_get_rich_item | apply quiet_enrich_issue | apply quiet_enrich_pulls].
Qed.

End Enrichers.

End Quiet.

(* ===================================================================== *)
(** * Which fields a step writes *)
(* ===================================================================== *)

Module Frames.
Import Py Host Behaviour DictFacts.
#[local] Open Scope list_scope.

(** Takes [H : chain = Ok x] apart, one step of the chain at a time. *)
Ltac inv_res H :=
  repeat
    match type of H with
    | rbind ?r _ = Ok _ =>
        let a := fresh "a" in
        let Ea := fresh "Ea" in
        destruct r as [a|] eqn:Ea; [cbn beta iota delta [rbind] in H|discriminate H]
    | (if ?b then _ else _) = Ok _ => destruct b eqn:?
    | (let (_, _) := ?x in _) = Ok _ => destruct x
    | Raise _ = Ok _ => discriminate H
    | Ok _ = Ok _ => inversion H; subst; clear H
    end.

(** Proves [dict_get (dict_set ... d ...) k = dict_get d k] from
    [Hk : mem k keys = false]. *)
Ltac frame_sets Hk :=
  unfold mem in Hk; cbn [existsb] in Hk;
  repeat (apply orb_false_elim in Hk; destruct Hk as [? Hk]);
  repeat (rewrite dict_get_set;
          match goal with
          | Hne : String.eqb ?a ?b = false |- context [String.eqb ?a ?b] => rewrite Hne
          end);
  try reflexivity.

Section Steps.
Variable E : Env.

Lemma issue_user_fields_writes (rich rich' : dict) (user : value) :
  Gitlink2.issue_user_fields E rich user = Ok rich' ->
  only_writes ["user_name"; "author_name"; "user_domain"; "user_org";
               "user_location"; "user_geolocation"] rich rich'.
Proof.
  unfold Gitlink2.issue_user_fields. intros H k Hk.
  inv_res H; frame_sets Hk.
Qed.

Lemma issue_assignee_fields_writes (rich rich' : dict) (assignee : value) :
  Gitlink2.issue_assignee_fields E rich assignee = Ok rich' ->
  only_writes ["assignee_login"; "assignee_name"; "assignee_domain"; "assignee_org";
               "assignee_location"; "assignee_geolocation"] rich rich'.
Proof.
  unfold Gitlink2.issue_assignee_fields. intros H k Hk.
  inv_res H; frame_sets Hk.
Qed.

Lemma issue_url_id_writes (rich rich' : dict) :
  Gitlink2.issue_url_id rich = Ok rich' ->
  only_writes ["gitlink_repo"; "url_id"] rich rich'.
Proof.
  unfold Gitlink2.issue_url_id. intros H k Hk.
  inv_res H; frame_sets Hk.
Qed.

Lemma issue_attention_writes (rich rich' : dict) (issue issue' : value) :
  Gitlink2.issue_attention E rich issue = Ok (issue', rich') ->
  only_writes ["time_to_first_attention"; "num_of_comments_without_bot";
               "time_to_first_attention_without_bot"] rich rich'.
Proof.
  unfold Gitlink2.issue_attention. intros H k Hk.
  inv_res H; frame_sets Hk.
Qed.

Lemma eqb_append_prefix (p n k : string) :
  String.eqb (p ++ n)%string k = true -> is_prefix p k = true.
Proof.
  intros H. apply String.eqb_eq in H. subst k.
  induction p as [|c p IH]; [reflexivity|].
  simpl. rewrite Ascii.eqb_refl. exact IH.
Qed.

Lemma reactions_fold_keys (r : dict) (k : string) :
  is_prefix "reaction_" k = false ->
  forall acc, dict_get acc k = None ->
  dict_get
    (fold_left (fun reactions kv =>
                  dict_set reactions
                    ("reaction_" ++ Gitlink2.reaction_name (fst kv))%string (snd kv))
       r acc) k = None.
Proof.
  intros Hk. induction r as [|[name v] r IH]; intros acc Hacc; [exact Hacc|].
  cbn [fold_left fst snd]. apply IH. rewrite dict_get_set.
  destruct (String.eqb ("reaction_" ++ Gitlink2.reaction_name name)%string k) eqn:He;
    [|exact Hacc].
  apply eqb_append_prefix in He. congruence.
Qed.

(** The enriched reactions are all named [reaction_...]. *)
Lemma get_reactions_keys (item item' : value) (reactions : dict) (k : string) :
  Gitlink2.__get_reactions item = Ok (item', reactions) ->
  is_prefix "reaction_" k = false ->
  dict_get reactions k = None.
Proof.
  unfold Gitlink2.__get_reactions. intros H Hk.
  destruct (py_get item "reactions" (VDict [])) as [r|]; [|discriminate].
  simpl in H. destruct r; try discriminate. inversion H; subst.
  apply reactions_fold_keys; [assumption|reflexivity].
Qed.

Lemma v1_issue_assignee_writes (rich rich' : dict) (assignees : value) :
  Gitlink.issue_assignee rich assignees = Ok rich' ->
  only_writes ["assignee"] rich rich'.
Proof.
  unfold Gitlink.issue_assignee. intros H k Hk.
  inv_res H; [|frame_sets Hk].
  match type of H with
  | match ?o with Some _ => _ | None => _ end = _ => destruct o; [|discriminate H]
  end.
  inv_res H. frame_sets Hk.
Qed.

Lemma v1_issue_url_id_writes (rich rich' : dict) :
  Gitlink.issue_url_id rich = Ok rich' ->
  only_writes ["gitlink_repo"; "url_id"] rich rich'.
Proof.
  unfold Gitlink.issue_url_id. intros H k Hk.
  inv_res H; frame_sets Hk.
Qed.

(** The loop over the assignees leaves [assignee_data] bound to the
    dictionary it built for the last of them. *)
Lemma assignee_fold_last (l : list value) :
  forall (acc : list value) (prev : option dict) (ds : list value) (o : option dict),
    rfold Gitlink.assignee_step l (acc, prev) = Ok (ds, o) ->
    l <> [] ->
    exists login name,
      subscript (last l VNone) "login" = Ok login /\
      subscript (last l VNone) "name" = Ok name /\
      o = Some [("assignee_login", login); ("assignee_name", name)].
Proof.
  induction l as [|a l IH]; intros acc prev ds o H Hne; [contradiction|].
  cbn [rfold] in H. unfold Gitlink.assignee_step at 1 in H.
  destruct (subscript a "login") as [login|] eqn:Hl; [|discriminate].
  destruct (subscript a "name") as [name|] eqn:Hn; [|discriminate].
  cbn [rbind fst] in H. destruct l as [|b l].
  - cbn [rfold] in H. injection H as _ <-. exists login, name.
    repeat split; assumption.
  - apply IH in H; [|discriminate]. exact H.
Qed.

Lemma v1_issue_assignee_last (rich rich' : dict) (l : list value) :
  Gitlink.issue_assignee rich (VList l) = Ok rich' ->
  l <> [] ->
  exists login name,
    subscript (last l VNone) "login" = Ok login /\
    subscript (last l VNone) "name" = Ok name /\
    dict_get rich' "assignee"
      = Some (VDict [("assignee_login", login); ("assignee_name", name)]).
Proof.
  unfold Gitlink.issue_assignee. intros H Hne.
  destruct l as [|a l]; [contradiction|]. cbn [truthy py_iter rbind] in H.
  destruct (rfold Gitlink.assignee_step (a :: l) ([], None)) as [[ds o]|] eqn:Hf;
    [|discriminate].
  destruct (assignee_fold_last _ _ _ _ _ Hf Hne) as (login & name & Hl & Hn & ->).
  cbn [rbind] in H. injection H as <-. exists login, name.
  repeat split; try assumption. apply dict_get_set_same.
Qed.

End Steps.

(** Takes [H : computation w = (w', Ok x)] apart, once [bind], [lift] and
    [ret] are unfolded in it. *)
Ltac inv_m H :=
  repeat (cbv beta iota in H;
    match type of H with
    | (match ?r with Ok _ => _ | Raise _ => _ end) = (_, Ok _) =>
        destruct r eqn:?; [|discriminate H]
    | (let (_, _) := ?m in _) = (_, Ok _) =>
        first [ is_var m; destruct m
              | destruct m as [? [?|?]] eqn:?; [|discriminate H] ]
    | (let (_, _) := ?m in _) _ = (_, Ok _) =>
        first [ is_var m; destruct m
              | destruct m as [? [?|?]] eqn:?; [|discriminate H] ]
    | (if ?c then _ else _) _ = (_, Ok _) => destruct c eqn:?
    | (_, Raise _) = (_, Ok _) => discriminate H
    end).

Ltac eqb_eval := simpl (String.eqb _ _); cbv iota.

(** Follows a field of an enriched item back through the steps that built
    the item; [L] says which fields the host leaves alone. *)
Ltac walk L :=
  repeat first
    [ rewrite dict_get_set; eqb_eval
    | rewrite dict_get_remove; eqb_eval
    | rewrite dict_get_update_absent by
        first [ eapply (grimoire_leaves _ _ L); [eassumption|reflexivity]
              | eapply (project_leaves _ _ L); [eassumption|reflexivity]
              | eapply (sh_leaves _ _ L); [eassumption|reflexivity]
              | eapply get_reactions_keys; [eassumption|reflexivity] ]
    | match goal with
      | Hs : Gitlink2.issue_user_fields _ _ _ = Ok ?r |- context [dict_get ?r ?k] =>
          rewrite (issue_user_fields_writes _ _ _ _ Hs k eq_refl)
      | Hs : Gitlink2.issue_assignee_fields _ _ _ = Ok ?r |- context [dict_get ?r ?k] =>
          rewrite (issue_assignee_fields_writes _ _ _ _ Hs k eq_refl)
      | Hs : Gitlink2.issue_url_id _ = Ok ?r |- context [dict_get ?r ?k] =>
          rewrite (issue_url_id_writes _ _ Hs k eq_refl)
      | Hs : Gitlink2.issue_attention _ _ _ = Ok (_, ?r) |- context [dict_get ?r ?k] =>
          rewrite (issue_attention_writes _ _ _ _ _ Hs k eq_refl)
      | Hs : Gitlink.issue_assignee _ _ = Ok ?r |- context [dict_get ?r ?k] =>
          rewrite (v1_issue_assignee_writes _ _ _ Hs k eq_refl)
      | Hs : Gitlink.issue_url_id _ = Ok ?r |- context [dict_get ?r ?k] =>
          rewrite (v1_issue_url_id_writes _ _ Hs k eq_refl)
      | Hs : dict_pop _ _ = Ok ?r |- context [dict_get ?r _] =>
          apply dict_pop_ok in Hs; subst r
      | Hs : (if ?c then _ else _) = Ok ?r |- context [dict_get ?r _] =>
          destruct c; inv_res Hs
      | |- context [dict_get (if ?c then _ else _) _] => destruct c
      end ].

(** Settles the two time fields once the steps after them are walked
    through: [Hp] is the step that chose between the clock and the closing
    time. *)
Ltac settle_times L Hr :=
  match goal with
  | Hp : (if _ then _ else _) _ = (_, Ok ?r5) |- context [dict_get ?rich _] =>
      let Hc := fresh "Hc" in
      let Ho := fresh "Ho" in
      assert (Hc : dict_get rich "time_to_close_days" = dict_get r5 "time_to_close_days")
        by (rewrite <- Hr; walk L; reflexivity);
      assert (Ho : dict_get rich "time_open_days" = dict_get r5 "time_open_days")
        by (rewrite <- Hr; walk L; reflexivity);
      rewrite Hc, Ho; clear Hc Ho Hr;
      destruct (py_eq _ (VInt 1) || py_eq _ (VInt 2));
      unfold Gitlink2.utcnow in Hp; inv_m Hp;
      let Hw5 := fresh "Hw" in
      let Hr5 := fresh "Hr" in
      injection Hp as Hw5 Hr5; rewrite <- Hr5
  end;
  walk L;
  try (split; [reflexivity|eexists; split; reflexivity]);
  match goal with
  | Hs : dict_sub (dict_set _ _ _) _ = Ok _ |- _ =>
      unfold dict_sub in Hs; rewrite dict_get_set_same in Hs;
      injection Hs as ->
  end;
  split; reflexivity.

Section Times.
Variable E : Env.
Hypothesis L : host_leaves E ["time_open_days"; "time_to_close_days"].

(** The two time fields of [GitlinkEnrich2.__get_rich_issue]. *)
Lemma v2_issue_times (item : dict) (w w' : world) (item' rich : dict) :
  Gitlink2.__get_rich_issue E item w = (w', Ok (item', rich)) ->
  exists issue created finished status sid ttc,
    dict_get item "data" = Some issue /\
    subscript issue "created_at" = Ok created /\
    subscript issue "finished_at" = Ok finished /\
    subscript issue "status" = Ok status /\
    subscript status "id" = Ok sid /\
    get_time_diff_days E created finished = Ok ttc /\
    dict_get rich "time_to_close_days" = Some ttc /\
    if py_eq sid (VInt 1) || py_eq sid (VInt 2)
    then exists d,
           get_time_diff_days E created
             (VDatetime (datetime_utcnow E (clock_reads w)) false) = Ok d /\
           dict_get rich "time_open_days" = Some d
    else dict_get rich "time_open_days" = Some ttc.
Proof.
  intros H. unfold Gitlink2.__get_rich_issue, bind, lift, ret in H.
  inv_m H.
  all: injection H as Hw Hi Hr.
  all: do 6 eexists.
  all: (split; [apply dict_sub_ok; eassumption|]).
  all: do 5 (split; [eassumption|]).
  all: settle_times L Hr.
Qed.

(** The two time fields of [GitlinkEnrich.__get_rich_issue]. *)
Lemma v1_issue_times (item : dict) (w w' : world) (rich : dict) :
  Gitlink.__get_rich_issue E item w = (w', Ok rich) ->
  exists issue created updated status sid ttc,
    dict_get item "data" = Some issue /\
    subscript issue "created_at" = Ok created /\
    subscript issue "updated_at" = Ok updated /\
    subscript issue "status" = Ok status /\
    subscript status "id" = Ok sid /\
    get_time_diff_days E created updated = Ok ttc /\
    dict_get rich "time_to_close_days" = Some ttc /\
    if py_eq sid (VInt 1) || py_eq sid (VInt 2)
    then exists d,
           get_time_diff_days E created
             (VDatetime (datetime_utcnow E (clock_reads w)) false) = Ok d /\
           dict_get rich "time_open_days" = Some d
    else dict_get rich "time_open_days" = Some ttc.
Proof.
  intros H. unfold Gitlink.__get_rich_issue, bind, lift, ret in H.
  inv_m H.
  all: injection H as Hw Hr.
  all: do 6 eexists.
  all: (split; [apply dict_sub_ok; eassumption|]).
  all: do 5 (split; [eassumption|]).
  all: settle_times L Hr.
Qed.

End Times.

(** [GitlinkEnrich2.__get_rich_repo] on a record that has the fields the
    method reads. *)
Lemma v2_rich_repo (E : Env) (item data : dict)
  (forks subscribers stargazers fetched_on origin updated : value) (g : dict) :
  host_leaves E ["forks_count"; "subscribers_count"; "stargazers_count"; "item_type"] ->
  (prjs_map E = true -> forall d, exists p, get_item_project E d = Ok p) ->
  dict_get item "data" = Some (VDict data) ->
  dict_get data "forks_count" = Some forks ->
  dict_get data "subscribers_count" = Some subscribers ->
  dict_get data "stargazers_count" = Some stargazers ->
  dict_get data "fetched_on" = Some fetched_on ->
  dict_get data "origin" = Some origin ->
  dict_get item "metadata__updated_on" = Some updated ->
  get_grimoire_fields E updated "repository" = Ok g ->
  dict_has g "is_gitlink2_repository" = true ->
  exists rich,
    Gitlink2.__get_rich_repo E item = Ok rich /\
    dict_get rich "forks_count" = Some forks /\
    dict_get rich "subscribers_count" = Some subscribers /\
    dict_get rich "stargazers_count" = Some stargazers /\
    dict_get rich "item_type" = Some (VStr "repository").
Proof.
  intros L Hproj Hdata Hf Hs Hg Hfo Ho Hu Hgr Hflag.
  unfold Gitlink2.__get_rich_repo, dict_sub, subscript.
  rewrite Hdata. cbn [rbind]. rewrite Hfo, Hf, Hs, Hg, Ho. cbn [rbind].
  unfold Gitlink2.REPOSITORY_TYPE.
  destruct (prjs_map E) eqn:Hp.
  - match goal with
    | |- context [get_item_project E ?d] =>
        destruct (Hproj eq_refl d) as [p Hpr]; rewrite Hpr
    end.
    cbn [rbind]. rewrite Hu. cbn [rbind]. rewrite Hgr. cbn [rbind].
    unfold dict_pop. rewrite dict_has_update.
    replace (dict_has g ("is_gitlink2_" ++ "repository")) with true by (symmetry; exact Hflag).
    rewrite orb_true_r. cbn [rbind]. eexists. split; [reflexivity|].
    repeat split; walk L; reflexivity.
  - cbn [rbind]. rewrite Hu. cbn [rbind]. rewrite Hgr. cbn [rbind].
    unfold dict_pop. rewrite dict_has_update.
    replace (dict_has g ("is_gitlink2_" ++ "repository")) with true by (symmetry; exact Hflag).
    rewrite orb_true_r. cbn [rbind]. eexists. split; [reflexivity|].
    repeat split; walk L; reflexivity.
Qed.

(** A comment cannot be enriched from an issue that has no [issue_url]. *)
Lemma rich_issue_comment_needs_url (E : Env) (eitem : dict) (comment : value)
  (w : world) :
  dict_get eitem "issue_url" = None ->
  exists e, Gitlink2.rich_issue_comment E eitem comment w = (w, Raise e).
Proof.
  intros Hurl. unfold Gitlink2.rich_issue_comment, bind, lift, Gitlink2.copy_keys.
  cbn [rfold rbind fst snd].
  destruct (dict_sub eitem "issue_labels"); cbn [rbind]; [|eexists; reflexivity].
  destruct (dict_sub eitem "issue_id"); cbn [rbind]; [|eexists; reflexivity].
  destruct (dict_sub eitem "issue_id_in_repo"); cbn [rbind]; [|eexists; reflexivity].
  unfold dict_sub at 1. rewrite Hurl. cbn [rbind]. eexists. reflexivity.
Qed.

Section NoUrl.
Variable E : Env.
Hypothesis L : host_leaves E ["issue_url"].
Hypothesis D : decorators_leave E ["issue_url"].

(** [GitlinkEnrich2.__get_rich_issue] sets no [issue_url], and leaves the
    category of the item as it is. *)
Lemma v2_issue_no_url (item : dict) (w w' : world) (item' rich : dict) :
  dict_get (copy_raw_fields E (RAW_FIELDS_COPY E) item []) "issue_url" = None ->
  Gitlink2.__get_rich_issue E item w = (w', Ok (item', rich)) ->
  dict_get rich "issue_url" = None /\
  dict_get item' "category" = dict_get item "category".
Proof.
  intros Hraw H. unfold Gitlink2.__get_rich_issue, bind, lift, ret in H.
  inv_m H.
  all: injection H as Hw Hi Hr.
  all: split; [|rewrite <- Hi; walk L; reflexivity].
  all: rewrite <- Hr; walk L.
  all: match goal with
       | Hp : (if _ then _ else _) _ = (_, Ok ?r5) |- _ =>
           destruct (py_eq _ (VInt 1) || py_eq _ (VInt 2));
           unfold Gitlink2.utcnow in Hp; inv_m Hp;
           injection Hp as _ Hr5; rewrite <- Hr5; walk L; exact Hraw
       end.
Qed.

Lemma v2_rich_item_issue (item : dict) (w w' : world) (item' eitem : dict) :
  dict_get (copy_raw_fields E (RAW_FIELDS_COPY E) item []) "issue_url" = None ->
  dict_get item "category" = Some (VStr "issue") ->
  Gitlink2.get_rich_item E item w = (w', Ok (item', eitem)) ->
  dict_get eitem "issue_url" = None /\
  dict_get item' "category" = Some (VStr "issue").
Proof.
  intros Hraw Hcat H.
  unfold Gitlink2.get_rich_item, bind, lift, ret, dict_sub in H.
  rewrite Hcat in H. cbn [py_eq String.eqb Ascii.eqb Bool.eqb] in H.
  destruct (Gitlink2.__get_rich_issue E item w) as [w1 [[i r]|e]] eqn:Hi;
    [|discriminate].
  destruct (v2_issue_no_url item w w1 i r Hraw Hi) as [Hr Hc].
  cbn [Gitlink2.utcnow] in H. injection H as _ <- <-. split.
  - rewrite (metadata_leaves _ _ D), (filter_leaves _ _ D), (labels_leave _ _ D)
      by reflexivity. exact Hr.
  - rewrite Hc. exact Hcat.
Qed.

(** So when an issue is enriched at all, it is into one record: no comment
    of it was enriched. *)
Lemma v2_issue_alone (item : dict) (w w' : world) (group : list dict) :
  dict_get (copy_raw_fields E (RAW_FIELDS_COPY E) item []) "issue_url" = None ->
  dict_get item "category" = Some (VStr "issue") ->
  Gitlink2.enrich_one E item w = (w', Ok group) ->
  exists eitem, group = [eitem].
Proof.
  intros Hraw Hcat H. unfold Gitlink2.enrich_one in H. unfold bind at 1 in H.
  destruct (Gitlink2.get_rich_item E item w) as [w1 [[item' eitem]|e]] eqn:Hg;
    [|discriminate].
  destruct (v2_rich_item_issue item w w1 item' eitem Hraw Hcat Hg) as [Hurl Hc].
  unfold bind, lift, ret, dict_sub in H. rewrite Hc in H.
  cbn [py_eq String.eqb Ascii.eqb Bool.eqb Gitlink2.ISSUE_TYPE] in H.
  destruct (Gitlink2.enrich_issue E item' eitem w1) as [w2 [eitems|e]] eqn:Hi;
    [|discriminate].
  injection H as _ <-. exists eitem. f_equal.
  unfold Gitlink2.enrich_issue, Gitlink2.get_rich_issue_comments, bind, lift, ret in Hi.
  inv_m Hi; [|injection Hi as _ <-; reflexivity].
  match goal with
  | Hc : py_iter _ = Ok ?cs |- _ => destruct cs as [|c cs]
  end.
  - cbn [Gitlink2.mmap] in Hi. injection Hi as _ <-. reflexivity.
  - cbn [Gitlink2.mmap] in Hi. unfold bind at 1 in Hi.
    destruct (rich_issue_comment_needs_url E eitem c w1 Hurl) as [e He].
    rewrite He in Hi. discriminate.
Qed.

End NoUrl.

(** On integer status codes, the test of the enrichers is "1 or 2". *)
Lemma status_code_open (n : Z) :
  py_eq (VInt n) (VInt 1) || py_eq (VInt n) (VInt 2) = true <-> n = 1 \/ n = 2.
Proof.
  simpl. rewrite orb_true_iff, !Qeq_bool_iff. unfold Qeq. simpl. lia.
Qed.

End Frames.

Module SampleFacts.
Import Py Host Behaviour.
#[local] Open Scope list_scope.

(** The sample host leaves alone every field that is not one of its own. *)
Lemma sample_host_leaves (keys : list string) :
  forallb (fun k => negb (is_prefix "is_gitlink2_" k)
                    && negb (String.eqb "grimoire_creation_date" k)) keys = true ->
  Behaviour.host_leaves SampleHost.host keys.
Proof.
  intros Hkeys.
  assert (Hk : forall k, Behaviour.mem k keys = true ->
                 is_prefix "is_gitlink2_" k = false /\
                 String.eqb "grimoire_creation_date" k = false).
  { intros k Hm. unfold Behaviour.mem in Hm. apply existsb_exists in Hm.
    destruct Hm as (key & Hin & He). apply String.eqb_eq in He. subst key.
    rewrite forallb_forall in Hkeys. specialize (Hkeys k Hin).
    apply andb_true_iff in Hkeys. destruct Hkeys as [H1 H2].
    apply negb_true_iff in H1, H2. split; assumption. }
  split.
  - intros d p k H _. inversion H. reflexivity.
  - intros v name g k H Hm. destruct (Hk k Hm) as [Hp Hg].
    unfold SampleHost.host, get_grimoire_fields, SampleHost.get_grimoire_fields in H.
    injection H as <-. cbn [dict_get]. rewrite Hg.
    match goal with
    | |- context [String.eqb ?x k] => destruct (String.eqb x k) eqn:He
    end; [|reflexivity].
    apply String.eqb_eq in He. subst k. simpl in Hp. discriminate.
  - intros i roles f sh k H _. inversion H. reflexivity.
Qed.

Lemma sample_decorators_leave :
  Behaviour.decorators_leave SampleHost.host
    ["forks_count"; "subscribers_count"; "stargazers_count"; "item_type"].
Proof.
  assert (Hk : forall k,
             Behaviour.mem k ["forks_count"; "subscribers_count";
                           "stargazers_count"; "item_type"] = true ->
             k = "forks_count" \/ k = "subscribers_count" \/
             k = "stargazers_count" \/ k = "item_type").
  { intros k H. unfold Behaviour.mem in H. cbn [existsb] in H.
    repeat (apply orb_true_iff in H; destruct H as [H|H]);
      try discriminate; apply String.eqb_eq in H; subst; tauto. }
  split.
  - intros d k H. apply Hk in H. cbn [SampleHost.host add_repository_labels].
    rewrite DictFacts.dict_get_set.
    destruct H as [-> | [-> | [-> | ->]]]; reflexivity.
  - intros d k _. reflexivity.
  - intros now d k H. apply Hk in H. cbn [SampleHost.host metadata].
    unfold SampleHost.metadata. apply DictFacts.dict_get_update_absent.
    destruct H as [-> | [-> | [-> | ->]]]; reflexivity.
Qed.

End SampleFacts.

(* ===================================================================== *)
(** * Identity extraction *)
(* ===================================================================== *)

Module IdentityFacts.
Import Py Host AsWritten.
#[local] Open Scope list_scope.

Lemma sh_identity_of_record (user : dict) :
  dict_has user "data" = false ->
  Gitlink2.get_sh_identity (VDict user) None
    = Ok (if nonempty user then identity_of user else []).
Proof.
  intros H. unfold Gitlink2.get_sh_identity. rewrite H. cbn [rbind].
  destruct user as [|kv user]; reflexivity.
Qed.

Lemma yield_record (user : dict) :
  Gitlink2.yield_if_user (if nonempty user then identity_of user else [])
    = map identity_of (filter nonempty [user]).
Proof. destruct user; reflexivity. Qed.

(** One turn of the loop over the identity types. *)
Lemma yield_identity_type (d : dict) (identity : string) (rest : list string)
  (ref : value) (record : option dict) :
  dict_get d identity = Some ref ->
  dict_get d (identity ++ "_data")%string = option_map VDict record ->
  Forall (fun u => dict_has u "data" = false) (referenced ref record) ->
  Gitlink2.yield_identity_types (VDict d) (identity :: rest)
    = Gitlink2.gen_then
        (map identity_of (filter nonempty (referenced ref record)), None)
        (Gitlink2.yield_identity_types (VDict d) rest).
Proof.
  intros Href Hrec Hdata. cbn [Gitlink2.yield_identity_types].
  unfold subscript at 1. rewrite Href. cbn [rbind].
  unfold referenced in *. destruct (truthy ref).
  - cbn [py_contains rbind]. unfold dict_has at 1. rewrite Hrec.
    destruct record as [user|]; cbn [option_map rbind].
    + unfold subscript. rewrite Hrec. cbn [option_map rbind].
      rewrite (sh_identity_of_record user (Forall_inv Hdata)). cbn [rbind].
      rewrite yield_record. reflexivity.
    + reflexivity.
  - cbn [rbind]. destruct record; reflexivity.
Qed.

(** The loop over the comments. *)
Lemma yield_commenters_records (comments : list value) (users : list dict) :
  Forall2 (fun c u => subscript c "user_data" = Ok (VDict u)) comments users ->
  Forall (fun u => dict_has u "data" = false) users ->
  Gitlink2.yield_commenters comments = (map identity_of (filter nonempty users), None).
Proof.
  induction 1 as [|c u comments users Hc _ IH]; intros Hd; [reflexivity|].
  inversion Hd as [|? ? Hu Hus]; subst.
  cbn [Gitlink2.yield_commenters]. rewrite Hc. cbn [rbind].
  rewrite (sh_identity_of_record u Hu). cbn [rbind].
  rewrite yield_record, (IH Hus). unfold Gitlink2.gen_step, Gitlink2.gen_then.
  cbn [fst snd filter]. destruct (nonempty u); reflexivity.
Qed.

End IdentityFacts.

(* ===================================================================== *)
(** * The batch enrichment loop *)
(* ===================================================================== *)

Module Loop.
Import Py Host Behaviour Quiet.
#[local] Open Scope list_scope.

Lemma submitted_app (t u : list event) : submitted (t ++ u) = submitted t + submitted u.
Proof.
  induction t as [|ev t IH]; simpl; [reflexivity|].
  destruct ev; rewrite IH; lia.
Qed.

Lemma reported_app (t u : list event) : reported (t ++ u) = reported t + reported u.
Proof.
  induction t as [|ev t IH]; simpl; [reflexivity|].
  destruct ev; rewrite IH; lia.
Qed.

Lemma uploads_app (t u : list event) :
  Gitlink2.uploads (t ++ u) = Gitlink2.uploads t ++ Gitlink2.uploads u.
Proof. unfold Gitlink2.uploads. apply flat_map_app. Qed.

Lemma logs_no_uploads (logs : list event) :
  Forall is_log logs -> Gitlink2.uploads logs = [].
Proof.
  induction 1 as [|ev logs Hev _ IH]; [reflexivity|].
  destruct ev; simpl in *; try contradiction. exact IH.
Qed.

Lemma logs_no_counts (logs : list event) :
  Forall is_log logs ->
  submitted logs = 0 /\ reported logs = 0 /\ forallb (fun ev => negb (is_report ev)) logs = true.
Proof.
  induction 1 as [|ev logs Hev _ IH]; [repeat split|].
  destruct ev; simpl in *; try contradiction. exact IH.
Qed.

(** What a turn of the loop adds to the buffer starts with the enriched
    item: it is never empty. *)
Lemma enrich_one_nonempty (E : Env) (item : dict) (w w' : world) (g : list dict) :
  Gitlink2.enrich_one E item w = (w', Ok g) -> g <> [].
Proof.
  unfold Gitlink2.enrich_one, bind, lift, ret. intros H.
  destruct (Gitlink2.get_rich_item E item w) as [w1 [[item' eitem]|e]]; [|discriminate].
  destruct (dict_sub item' "category") as [category|e]; [|discriminate].
  match type of H with
  | (match ?m w1 with _ => _ end) = _ => destruct (m w1) as [w2 [eitems|e]]
  end; [|discriminate].
  inversion H. discriminate.
Qed.

Lemma produced_nonempty (E : Env) (item : dict) (g : list dict) :
  produced E item g -> g <> [].
Proof. intros (w & w' & H). eapply enrich_one_nonempty; eassumption. Qed.

Section Run.
Variable E : Env.
Variable sink : Sink.

#[local] Abbreviation MAX := Gitlink2.MAX_SIZE_BULK_ENRICHED_ITEMS.

(** One turn of the loop, spelled out. *)
Lemma enrich_loop_cons (item : dict) (rest : list dict) (buf : list dict)
  (num ins : Z) (c : nat) (t : list event) :
  exists c1 logs r,
    Forall is_log logs /\
    (forall t', Gitlink2.enrich_one E item (mkWorld c t') = (mkWorld c1 (t' ++ logs), r)) /\
    Gitlink2.enrich_loop E sink (item :: rest) buf num ins (mkWorld c t) =
    match r with
    | Raise e => (mkWorld c1 (t ++ logs), Raise e)
    | Ok g =>
        if (List.length (buf ++ g) <? MAX)%nat
        then Gitlink2.enrich_loop E sink rest (buf ++ g) num ins (mkWorld c1 (t ++ logs))
        else
          Gitlink2.enrich_loop E sink rest []
            (num + Z.of_nat (List.length (buf ++ g)))
            (ins + sink (Gitlink2.uploads (t ++ logs)) (buf ++ g) Gitlink2.get_field_unique_id)
            (mkWorld c1
               ((t ++ logs) ++
                [BulkUpload (buf ++ g) Gitlink2.get_field_unique_id
                   (sink (Gitlink2.uploads (t ++ logs)) (buf ++ g)
                      Gitlink2.get_field_unique_id)]))
    end.
Proof.
  destruct (quiet_enrich_one E item c) as (c1 & logs & r & Hl & Hq).
  exists c1, logs, r. split; [assumption|]. split; [assumption|].
  simpl. unfold bind at 1. rewrite Hq. destruct r as [g|e]; [|reflexivity].
  destruct (List.length (buf ++ g) <? MAX)%nat; reflexivity.
Qed.

(** The batches the loop flushes, in terms of the groups of records the items
    contribute: [pend] holds the groups in the buffer when the loop is
    entered, [pend'] those in the buffer when it is left. *)
Lemma enrich_loop_batches (items : list dict) :
  forall (pend : list (list dict)) (num ins : Z) (w w' : world)
         (buf' : list dict) (num' ins' : Z),
    (List.length (concat pend) < MAX)%nat ->
    Gitlink2.enrich_loop E sink items (concat pend) num ins w = (w', Ok (buf', num', ins')) ->
    exists groups gss pend',
      Forall2 (produced E) items groups /\
      pend ++ groups = concat gss ++ pend' /\
      Gitlink2.uploads (trace w') = Gitlink2.uploads (trace w) ++ map (@concat dict) gss /\
      buf' = concat pend' /\
      (List.length buf' < MAX)%nat /\
      Forall filled gss.
Proof.
  induction items as [|item rest IH]; intros pend num ins w w' buf' num' ins' Hlt H.
  - simpl in H. inversion H; subst. exists [], [], pend.
    split; [constructor|]. split; [rewrite app_nil_r; reflexivity|].
    split; [simpl; rewrite app_nil_r; reflexivity|].
    split; [reflexivity|]. split; [assumption|constructor].
  - destruct w as [c t].
    destruct (enrich_loop_cons item rest (concat pend) num ins c t)
      as (c1 & logs & r & Hl & Hq & Hstep).
    rewrite Hstep in H. destruct r as [g|e]; [|discriminate].
    assert (Hg : produced E item g).
    { exists (mkWorld c t), (mkWorld c1 (t ++ logs)). apply Hq. }
    assert (Hcat : concat pend ++ g = concat (pend ++ [g])).
    { rewrite concat_app. simpl. rewrite app_nil_r. reflexivity. }
    destruct (List.length (concat pend ++ g) <? MAX)%nat eqn:Hfull.
    + apply Nat.ltb_lt in Hfull. rewrite Hcat in H, Hfull.
      destruct (IH _ _ _ _ _ _ _ _ Hfull H)
        as (groups & gss & pend' & Hp & Heq & Hup & Hbuf & Hlen & Hfilled).
      exists (g :: groups), gss, pend'. repeat split; try assumption.
      * constructor; assumption.
      * rewrite <- Heq, <- app_assoc. reflexivity.
      * rewrite Hup. simpl. rewrite uploads_app, (logs_no_uploads logs Hl), app_nil_r.
        reflexivity.
    + apply Nat.ltb_ge in Hfull.
      assert (H0 : (List.length (@concat dict []) < MAX)%nat)
        by (simpl; unfold MAX; lia).
      change (@nil dict) with (@concat dict []) in H at 1.
      destruct (IH _ _ _ _ _ _ _ _ H0 H)
        as (groups & gss & pend' & Hp & Heq & Hup & Hbuf & Hlen & Hfilled).
      exists (g :: groups), ((pend ++ [g]) :: gss), pend'.
      repeat split; try assumption.
      * constructor; assumption.
      * simpl in Heq. simpl. rewrite Heq, <- !app_assoc. reflexivity.
      * rewrite Hup. simpl. rewrite !uploads_app, (logs_no_uploads logs Hl).
        simpl. rewrite app_nil_r, <- app_assoc, Hcat. reflexivity.
      * constructor; [|assumption]. unfold filled. repeat split.
        -- destruct pend; discriminate.
        -- rewrite removelast_last. assumption.
        -- rewrite <- Hcat. assumption.
Qed.

(** What the loop adds to the trace, and how the two counters follow it. *)
Lemma enrich_loop_trace (items : list dict) :
  forall (buf : list dict) (num ins : Z) (w w' : world)
         (r : result (list dict * Z * Z)),
    Gitlink2.enrich_loop E sink items buf num ins w = (w', r) ->
    exists evs,
      trace w' = trace w ++ evs /\
      forallb (fun ev => negb (is_report ev)) evs = true /\
      forall buf' num' ins',
        r = Ok (buf', num', ins') ->
        num' = num + submitted evs /\ ins' = ins + reported evs.
Proof.
  induction items as [|item rest IH]; intros buf num ins w w' r H.
  - simpl in H. inversion H; subst. exists []. rewrite app_nil_r.
    split; [reflexivity|]. split; [reflexivity|].
    intros buf' num' ins' Hr. inversion Hr; subst. simpl. lia.
  - destruct w as [c t].
    destruct (enrich_loop_cons item rest buf num ins c t)
      as (c1 & logs & r1 & Hl & _ & Hstep).
    rewrite Hstep in H. clear Hstep.
    destruct (logs_no_counts logs Hl) as (Hs & Hr & Hn).
    destruct r1 as [g|e].
    + destruct (List.length (buf ++ g) <? MAX)%nat.
      * destruct (IH _ _ _ _ _ _ H) as (evs & Ht & Hrep & Hcount).
        exists (logs ++ evs). simpl in *. rewrite Ht, app_assoc.
        split; [reflexivity|]. split; [rewrite forallb_app, Hn, Hrep; reflexivity|].
        intros buf' num' ins' Hok. rewrite submitted_app, reported_app, Hs, Hr.
        apply (Hcount _ _ _ Hok).
      * destruct (IH _ _ _ _ _ _ H) as (evs & Ht & Hrep & Hcount).
        simpl in Ht.
        match type of Ht with
        | _ = (_ ++ [?ev]) ++ _ => exists (logs ++ ev :: evs)
        end.
        simpl in *. rewrite Ht, <- !app_assoc.
        split; [reflexivity|].
        split; [rewrite forallb_app, Hn; simpl; exact Hrep|].
        intros buf' num' ins' Hok. rewrite submitted_app, reported_app, Hs, Hr.
        destruct (Hcount _ _ _ Hok) as [-> ->]. simpl. lia.
    + inversion H; subst. exists logs. simpl.
      split; [reflexivity|]. split; [assumption|]. discriminate.
Qed.

End Run.

Lemma enrich_loop_any_sink (E : Env) (sink1 sink2 : Sink) (items : list dict) :
  forall (buf : list dict) (num ins1 ins2 : Z) (c : nat) (t1 t2 : list event),
    clock_reads (fst (Gitlink2.enrich_loop E sink1 items buf num ins1 (mkWorld c t1))) =
    clock_reads (fst (Gitlink2.enrich_loop E sink2 items buf num ins2 (mkWorld c t2))) /\
    same_outcome
      (snd (Gitlink2.enrich_loop E sink1 items buf num ins1 (mkWorld c t1)))
      (snd (Gitlink2.enrich_loop E sink2 items buf num ins2 (mkWorld c t2))).
Proof.
  induction items as [|item rest IH]; intros buf num ins1 ins2 c t1 t2.
  - simpl. repeat split.
  - destruct (enrich_loop_cons E sink1 item rest buf num ins1 c t1)
      as (c1 & logs1 & r1 & _ & Hq1 & ->).
    destruct (enrich_loop_cons E sink2 item rest buf num ins2 c t2)
      as (c2 & logs2 & r2 & _ & Hq2 & ->).
    specialize (Hq1 []). rewrite Hq2 in Hq1. inversion Hq1; subst.
    destruct r1 as [g|e]; [|simpl; split; reflexivity].
    destruct (List.length (buf ++ g) <? Gitlink2.MAX_SIZE_BULK_ENRICHED_ITEMS)%nat;
      apply IH.
Qed.

(** [enrich_items] from the loop: the flush of what is left in the buffer,
    then the one report. *)
Lemma enrich_items_run (E : Env) (sink : Sink) (items : list dict) (w : world) :
  Gitlink2.enrich_items E sink items w =
  match Gitlink2.enrich_loop E sink items [] 0 0 w with
  | (w1, Raise e) => (w1, Raise e)
  | (w1, Ok (buf, num, ins)) =>
      let rest :=
        if (0 <? List.length buf)%nat
        then [BulkUpload buf Gitlink2.get_field_unique_id
                (sink (Gitlink2.uploads (trace w1)) buf Gitlink2.get_field_unique_id)]
        else [] in
      (mkWorld (clock_reads w1)
         (trace w1 ++ rest ++
          [final_report (num + submitted rest) (ins + reported rest)]),
       Ok (num + submitted rest))
  end.
Proof.
  unfold Gitlink2.enrich_items, bind at 1.
  destruct (Gitlink2.enrich_loop E sink items [] 0 0 w) as [w1 [[[buf num] ins]|e]];
    [|reflexivity].
  destruct (0 <? List.length buf)%nat; unfold final_report; simpl.
  - unfold bind, Gitlink2.upload, ret, emit. simpl.
    rewrite !Z.add_0_r.
    destruct (num + Z.of_nat (List.length buf) =? _); simpl;
      rewrite <- app_assoc; reflexivity.
  - unfold bind, ret, emit. simpl. rewrite !Z.add_0_r.
    destruct (num =? ins); reflexivity.
Qed.

Lemma uploads_final_report (num ins : Z) :
  Gitlink2.uploads [final_report num ins] = [].
Proof. unfold final_report. destruct (negb (num =? ins)); reflexivity. Qed.

Lemma length_concat_removelast {A} (l : list (list A)) :
  (List.length (concat (removelast l)) <= List.length (concat l))%nat.
Proof.
  induction l as [|x l IH]; [apply Nat.le_refl|].
  destruct l as [|y l].
  - simpl. lia.
  - change (removelast (x :: y :: l)) with (x :: removelast (y :: l)).
    change (concat (x :: removelast (y :: l))) with (x ++ concat (removelast (y :: l))).
    change (concat (x :: y :: l)) with (x ++ concat (y :: l)).
    rewrite !length_app. lia.
Qed.

Lemma Forall_removelast {A} (P : A -> Prop) (l : list A) :
  Forall P l -> Forall P (removelast l).
Proof.
  induction 1 as [|x l Hx Hl IH]; [constructor|].
  destruct l; simpl; [constructor|]. constructor; assumption.
Qed.

Lemma concat_nil_nonempty {A} (l : list (list A)) :
  Forall (fun g => g <> []) l -> concat l = [] -> l = [].
Proof.
  destruct 1 as [|g l Hg _]; [reflexivity|].
  simpl. intros H. apply app_eq_nil in H. destruct H. contradiction.
Qed.

Lemma produced_all_nonempty (E : Env) (items : list dict) (groups : list (list dict)) :
  Forall2 (produced E) items groups -> Forall (fun g => g <> []) groups.
Proof.
  induction 1; constructor; [eapply produced_nonempty; eassumption|assumption].
Qed.

(** The batches of a whole run. *)
Lemma enrich_items_batches (E : Env) (sink : Sink) (items : list dict)
  (w w' : world) (n : Z) :
  Gitlink2.enrich_items E sink items w = (w', Ok n) ->
  exists gss : list (list (list dict)),
    Forall2 (produced E) items (concat gss) /\
    Gitlink2.uploads (trace w') = Gitlink2.uploads (trace w) ++ map (@concat dict) gss /\
    Forall (fun gs => (1 <= List.length (concat gs))%nat /\
                      (List.length (concat (removelast gs)) < 200)%nat) gss /\
    Forall (fun gs => (200 <= List.length (concat gs))%nat) (removelast gss).
Proof.
  intros H. rewrite enrich_items_run in H.
  destruct (Gitlink2.enrich_loop E sink items [] 0 0 w)
    as [w1 [[[buf num] ins]|e]] eqn:Hloop; [|discriminate].
  assert (H0 : (List.length (@concat dict []) < Gitlink2.MAX_SIZE_BULK_ENRICHED_ITEMS)%nat)
    by (simpl; unfold Gitlink2.MAX_SIZE_BULK_ENRICHED_ITEMS; lia).
  change (@nil dict) with (@concat dict []) in Hloop at 1.
  destruct (enrich_loop_batches E sink items [] 0 0 w w1 buf num ins H0 Hloop)
    as (groups & gss & pend' & Hp & Heq & Hup & Hbuf & Hlen & Hfilled).
  simpl in Heq. subst groups.
  assert (Hfull : Forall (fun gs => (1 <= List.length (concat gs))%nat /\
                                    (List.length (concat (removelast gs)) < 200)%nat) gss).
  { eapply Forall_impl; [|exact Hfilled]. intros gs (_ & Hb & Ha).
    unfold Gitlink2.MAX_SIZE_BULK_ENRICHED_ITEMS in *. split; [lia|assumption]. }
  assert (Hmin : Forall (fun gs => (200 <= List.length (concat gs))%nat) gss).
  { eapply Forall_impl; [|exact Hfilled]. intros gs (_ & _ & Ha). exact Ha. }
  inversion H; subst w' n; clear H. simpl.
  destruct (0 <? List.length buf)%nat eqn:Hrest.
  - apply Nat.ltb_lt in Hrest. exists (gss ++ [pend']).
    split; [rewrite concat_app; simpl; rewrite app_nil_r; assumption|].
    split.
    { rewrite !uploads_app, uploads_final_report, Hup, map_app.
      simpl. rewrite <- Hbuf, <- app_assoc. reflexivity. }
    split.
    { apply Forall_app. split; [assumption|]. constructor; [|constructor].
      rewrite <- Hbuf. split; [lia|].
      pose proof (length_concat_removelast pend') as Hle.
      rewrite <- Hbuf in Hle. unfold Gitlink2.MAX_SIZE_BULK_ENRICHED_ITEMS in *. lia. }
    rewrite removelast_last. assumption.
  - apply Nat.ltb_ge in Hrest.
    assert (Hnil : pend' = []).
    { apply concat_nil_nonempty.
      - apply produced_all_nonempty in Hp. apply Forall_app in Hp. apply Hp.
      - rewrite <- Hbuf. destruct buf; [reflexivity|simpl in Hrest; lia]. }
    subst pend'. rewrite app_nil_r in Hp. exists gss.
    split; [assumption|]. split.
    { simpl. rewrite uploads_app, uploads_final_report, Hup, app_nil_r.
      reflexivity. }
    split; [assumption|]. apply Forall_removelast. assumption.
Qed.


(** The trace of a whole run: the loop's events and the last flush, none of
    them a report, then the one report on the totals. *)
Lemma enrich_items_trace (E : Env) (sink : Sink) (items : list dict)
  (w w' : world) (n : Z) :
  Gitlink2.enrich_items E sink items w = (w', Ok n) ->
  exists body,
    trace w' = trace w ++ body ++ [final_report (submitted body) (reported body)] /\
    forallb (fun ev => negb (is_report ev)) body = true /\
    n = submitted body.
Proof.
  intros H. rewrite enrich_items_run in H.
  destruct (Gitlink2.enrich_loop E sink items [] 0 0 w)
    as [w1 [[[buf num] ins]|e]] eqn:Hloop; [|discriminate].
  destruct (enrich_loop_trace E sink items _ _ _ _ _ _ Hloop) as (evs & Ht & Hrep & Hcount).
  destruct (Hcount _ _ _ eq_refl) as [-> ->].
  inversion H; subst w' n; clear H. simpl.
  match goal with
  | |- context [_ ++ ?rest ++ [final_report _ _]] => exists (evs ++ rest)
  end.
  rewrite Ht, submitted_app, reported_app, <- !app_assoc.
  split; [reflexivity|]. split; [|reflexivity].
  rewrite forallb_app, Hrep. destruct (0 <? List.length buf)%nat; reflexivity.
Qed.

(** The outcome of a run does not depend on the sink. *)
Lemma enrich_items_any_sink (E : Env) (sink1 sink2 : Sink) (items : list dict)
  (w : world) :
  snd (Gitlink2.enrich_items E sink1 items w) =
  snd (Gitlink2.enrich_items E sink2 items w).
Proof.
  rewrite !enrich_items_run. destruct w as [c t].
  destruct (enrich_loop_any_sink E sink1 sink2 items [] 0 0 0 c t t) as [_ H].
  destruct (Gitlink2.enrich_loop E sink1 items [] 0 0 (mkWorld c t))
    as [w1 [[[buf1 num1] ins1]|e1]];
  destruct (Gitlink2.enrich_loop E sink2 items [] 0 0 (mkWorld c t))
    as [w2 [[[buf2 num2] ins2]|e2]]; simpl in H; try contradiction.
  - destruct H as [-> ->]. simpl.
    destruct (0 <? List.length buf2)%nat; reflexivity.
  - subst. reflexivity.
Qed.

Lemma concat_map_concat {A} (l : list (list (list A))) :
  concat (map (@concat A) l) = concat (concat l).
Proof.
  induction l as [|x l IH]; [reflexivity|].
  simpl. rewrite concat_app, IH. reflexivity.
Qed.

Lemma submitted_uploads (t : list event) :
  submitted t = Z.of_nat (List.length (concat (Gitlink2.uploads t))).
Proof.
  induction t as [|ev t IH]; [reflexivity|].
  destruct ev; simpl; try exact IH.
  rewrite length_app, IH. lia.
Qed.

(** The loop and the run return when every turn does. *)
Lemma enrich_loop_returns (E : Env) (sink : Sink) (items : list dict) :
  (forall item w0, In item items ->
     exists w1 g, Gitlink2.enrich_one E item w0 = (w1, Ok g)) ->
  forall (buf : list dict) (num ins : Z) (w : world),
  exists w' out, Gitlink2.enrich_loop E sink items buf num ins w = (w', Ok out).
Proof.
  induction items as [|item rest IH]; intros Hall buf num ins w.
  - simpl. eexists. eexists. reflexivity.
  - destruct w as [c t].
    destruct (enrich_loop_cons E sink item rest buf num ins c t)
      as (c1 & logs & r & _ & Hq & ->).
    destruct (Hall item (mkWorld c t) (or_introl eq_refl)) as (w1 & g & Hg).
    rewrite Hq in Hg. injection Hg as _ ->.
    assert (Hrest : forall item0 w0, In item0 rest ->
              exists w2 g0, Gitlink2.enrich_one E item0 w0 = (w2, Ok g0)).
    { intros item0 w0 Hin. apply Hall. right. exact Hin. }
    destruct (List.length (buf ++ g) <? Gitlink2.MAX_SIZE_BULK_ENRICHED_ITEMS)%nat;
      apply IH; exact Hrest.
Qed.

Lemma enrich_items_returns (E : Env) (sink : Sink) (items : list dict) (w : world) :
  (forall item w0, In item items ->
     exists w1 g, Gitlink2.enrich_one E item w0 = (w1, Ok g)) ->
  exists w' n, Gitlink2.enrich_items E sink items w = (w', Ok n).
Proof.
  intros Hall. rewrite enrich_items_run.
  destruct (enrich_loop_returns E sink items Hall [] 0 0 w) as (w1 & [[buf num] ins] & ->).
  eexists. eexists. reflexivity.
Qed.

Lemma In_removelast {A} (x : A) (l : list A) : In x (removelast l) -> In x l.
Proof.
  induction l as [|a l IH]; [intros []|].
  destruct l as [|b l]; [intros []|].
  intros [->|H]; [left; reflexivity|right; apply IH; exact H].
Qed.

(** When every item gives one record, the batches flushed by the threshold
    test hold 200 records each. *)
Lemma exact_batches {A} (gss : list (list (list A))) :
  Forall (fun gs => (1 <= List.length (concat gs))%nat /\
                    (List.length (concat (removelast gs)) < 200)%nat) gss ->
  Forall (fun gs => (200 <= List.length (concat gs))%nat) (removelast gss) ->
  Forall (fun g => List.length g = 1%nat) (concat gss) ->
  Forall (fun gs => List.length (concat gs) = 200%nat) (removelast gss).
Proof.
  intros Hall Hfull Hone. rewrite Forall_forall in *.
  intros gs Hin. specialize (Hfull gs Hin).
  apply In_removelast in Hin. destruct (Hall gs Hin) as [Hpos Hbefore].
  assert (Hne : gs <> []) by (intros ->; simpl in Hpos; lia).
  pose proof (app_removelast_last [] Hne) as Heq.
  assert (Hlast : In (last gs []) (removelast gs ++ [last gs []]))
    by (apply in_or_app; right; left; reflexivity).
  rewrite <- Heq in Hlast.
  assert (Hc : concat gs = concat (removelast gs) ++ last gs []).
  { rewrite Heq at 1. rewrite concat_app. simpl. rewrite app_nil_r. reflexivity. }
  assert (Hl : List.length (last gs []) = 1%nat).
  { apply Hone. apply in_concat. exists gs. split; assumption. }
  rewrite Hc, length_app in Hfull |- *. lia.
Qed.

End Loop.

(* ===================================================================== *)
(** * Reactions *)
(* ===================================================================== *)

Module ReactionFacts.
Import Py Host DictFacts.
#[local] Open Scope list_scope.

Lemma dict_set_same (d : dict) (k : string) (v : value) :
  dict_set (dict_set d k v) k v = dict_set d k v.
Proof.
  induction d as [|[k' v'] d IH]; simpl.
  - rewrite String.eqb_refl. reflexivity.
  - destruct (String.eqb k' k) eqn:He; simpl; rewrite He; [reflexivity|].
    rewrite IH. reflexivity.
Qed.

Lemma dict_set_present (d : dict) (k : string) (v : value) :
  dict_get d k = Some v -> dict_set d k v = d.
Proof.
  induction d as [|[k' v'] d IH]; simpl; [discriminate|].
  destruct (String.eqb k' k) eqn:He.
  - intros H. injection H as ->. reflexivity.
  - intros H. rewrite (IH H). reflexivity.
Qed.

Lemma dict_remove_twice (d : dict) (k : string) :
  dict_remove (dict_remove d k) k = dict_remove d k.
Proof.
  unfold dict_remove. induction d as [|[k' v'] d IH]; simpl; [reflexivity|].
  destruct (String.eqb k' k) eqn:He; simpl; [exact IH|].
  rewrite He. simpl. rewrite IH. reflexivity.
Qed.

Lemma In_dict_remove (d : dict) (k name : string) (v : value) :
  In (name, v) (dict_remove d k) <-> In (name, v) d /\ name <> k.
Proof.
  unfold dict_remove. rewrite filter_In. simpl. rewrite negb_true_iff.
  split; intros [H1 H2]; (split; [assumption|]).
  - intros ->. rewrite String.eqb_refl in H2. discriminate.
  - apply String.eqb_neq. assumption.
Qed.

#[local] Abbreviation renamed name :=
  ("reaction_" ++ Gitlink2.reaction_name name)%string.

(** What the loop over the reactions has put under a key comes from a
    reaction, or was there before. *)
Lemma reactions_fold_sound (r : dict) (k : string) (v : value) :
  forall acc,
    dict_get
      (fold_left (fun reactions kv => dict_set reactions (renamed (fst kv)) (snd kv)) r acc) k
    = Some v ->
    dict_get acc k = Some v \/ exists name, In (name, v) r /\ k = renamed name.
Proof.
  induction r as [|[name x] r IH]; intros acc H; [left; exact H|].
  cbn [fold_left fst snd] in H. apply IH in H. destruct H as [H|(n & Hin & Hk)].
  - rewrite dict_get_set in H. destruct (String.eqb (renamed name) k) eqn:He.
    + apply String.eqb_eq in He. injection H as ->. right. exists name.
      split; [left; reflexivity|symmetry; exact He].
    + left. exact H.
  - right. exists n. split; [right; exact Hin|exact Hk].
Qed.

(** Every reaction is there under its enriched name when the loop ends. *)
Lemma reactions_fold_complete (r : dict) (name : string) :
  forall acc,
    (dict_has acc (renamed name) = true \/ In name (dict_keys r)) ->
    dict_has
      (fold_left (fun reactions kv => dict_set reactions (renamed (fst kv)) (snd kv)) r acc)
      (renamed name) = true.
Proof.
  induction r as [|[n x] r IH]; intros acc H.
  - destruct H as [H|[]]. exact H.
  - cbn [fold_left fst snd]. apply IH. destruct H as [H|[H|H]].
    + left. unfold dict_has in *. rewrite dict_get_set.
      destruct (String.eqb (renamed n) (renamed name)); [reflexivity|exact H].
    + simpl in H. subst n. left. unfold dict_has. rewrite dict_get_set_same. reflexivity.
    + right. exact H.
Qed.

Lemma get_reactions_of_dict (item : value) (r : dict) :
  py_get item "reactions" (VDict []) = Ok (VDict r) ->
  exists item',
    Gitlink2.__get_reactions item =
      Ok (item',
          fold_left (fun reactions kv => dict_set reactions (renamed (fst kv)) (snd kv))
            (dict_remove r "url") []) /\
    py_get item' "reactions" (VDict []) = Ok (VDict (dict_remove r "url")) /\
    match item with
    | VDict d => if dict_has d "reactions"
                 then item' = VDict (dict_set d "reactions" (VDict (dict_remove r "url")))
                 else item' = item
    | _ => item' = item
    end.
Proof.
  intros H. unfold Gitlink2.__get_reactions. rewrite H. cbn [rbind].
  eexists. split; [reflexivity|]. destruct item as [| | | | | |d|]; try discriminate.
  unfold py_get in H. unfold dict_has. destruct (dict_get d "reactions") as [x|] eqn:Hd.
  - split; [|reflexivity]. cbn [value_set py_get]. rewrite dict_get_set_same. reflexivity.
  - injection H as <-. split; [|reflexivity]. cbn [py_get]. rewrite Hd. reflexivity.
Qed.

Lemma get_reactions_is_dict (item item' : value) (reactions : dict) :
  Gitlink2.__get_reactions item = Ok (item', reactions) ->
  exists r, py_get item "reactions" (VDict []) = Ok (VDict r).
Proof.
  unfold Gitlink2.__get_reactions. intros H.
  destruct (py_get item "reactions" (VDict [])) as [x|]; [|discriminate].
  cbn [rbind] in H. destruct x; try discriminate. eexists. reflexivity.
Qed.

(** [__get_reactions] changes nothing of the item but its [reactions]. *)
Lemma get_reactions_keeps (d : dict) (v : value) (reactions : dict) :
  Gitlink2.__get_reactions (VDict d) = Ok (v, reactions) ->
  exists d', v = VDict d' /\
             forall k, String.eqb "reactions" k = false -> dict_get d' k = dict_get d k.
Proof.
  intros H. destruct (get_reactions_is_dict _ _ _ H) as [r Hr].
  destruct (get_reactions_of_dict _ r Hr) as (i & Hi & _ & Hs).
  rewrite Hi in H. injection H as <- _.
  destruct (dict_has d "reactions").
  - subst i. eexists. split; [reflexivity|]. intros k Hk.
    rewrite dict_get_set, Hk. reflexivity.
  - subst i. exists d. split; reflexivity.
Qed.

End ReactionFacts.

(* ===================================================================== *)
(** * Pull requests, and runs that stop on an exception *)
(* ===================================================================== *)

Module Pulls.
Import Py Host Behaviour DictFacts Frames Quiet Loop.
#[local] Open Scope list_scope.

Section Steps.
Variable E : Env.

Lemma pull_user_fields_writes (rich rich' : dict) (user : value) :
  Gitlink2.pull_user_fields E rich user = Ok rich' ->
  only_writes ["user_name"; "author_name"; "user_domain"; "user_org";
               "user_location"; "user_geolocation"] rich rich'.
Proof.
  unfold Gitlink2.pull_user_fields. intros H k Hk.
  inv_res H; frame_sets Hk.
Qed.

Lemma pull_merger_fields_writes (rich rich' : dict) (merged_by : value) :
  Gitlink2.pull_merger_fields E rich merged_by = Ok rich' ->
  only_writes ["merge_author_login"; "merge_author_name"; "merge_author_domain";
               "merge_author_org"; "merge_author_location";
               "merge_author_geolocation"] rich rich'.
Proof.
  unfold Gitlink2.pull_merger_fields. intros H k Hk.
  inv_res H; frame_sets Hk.
Qed.

(** [__get_rich_pull] neither reads the clock nor logs. *)
Lemma rich_pull_keeps_world (item : dict) (w : world) :
  fst (Gitlink2.__get_rich_pull E item w) = w.
Proof.
  unfold Gitlink2.__get_rich_pull, bind, lift, ret.
  repeat match goal with
         | |- context [match ?r with Ok _ => _ | Raise _ => _ end] =>
             destruct r; try reflexivity
         | |- context [let (_, _) := ?x in _] => destruct x
         | |- context [if ?c then _ else _] => destruct c
         end.
  all: reflexivity.
Qed.

Hypothesis P : forall d p,
  get_item_project E d = Ok p -> dict_get p "is_gitlink2_pull_request" = None.

Ltac walk_pull :=
  repeat first
    [ rewrite dict_get_set; eqb_eval
    | rewrite dict_get_update_absent by
        first [ eapply P; eassumption
              | eapply get_reactions_keys; [eassumption|reflexivity] ]
    | match goal with
      | Hs : Gitlink2.pull_user_fields _ _ _ = Ok ?r |- context [dict_get ?r ?k] =>
          rewrite (pull_user_fields_writes _ _ _ Hs k eq_refl)
      | Hs : Gitlink2.pull_merger_fields _ _ _ = Ok ?r |- context [dict_get ?r ?k] =>
          rewrite (pull_merger_fields_writes _ _ _ Hs k eq_refl)
      | Hs : (if ?c then _ else _) = Ok ?r |- context [dict_get ?r _] =>
          destruct c; inv_res Hs
      end ].

(** No step of [__get_rich_pull] sets the flag the method removes at its
    end, so the method does not return. *)
Lemma rich_pull_no_flag (item : dict) (w w' : world) (out : dict * dict) :
  dict_get (copy_raw_fields E (RAW_FIELDS_COPY E) item []) "is_gitlink2_pull_request" = None ->
  Gitlink2.__get_rich_pull E item w <> (w', Ok out).
Proof.
  intros Hraw H. unfold Gitlink2.__get_rich_pull, bind, lift, ret in H.
  inv_m H.
  all: match goal with
       | Hp : dict_pop ?x _ = Ok _ |- _ =>
           unfold dict_pop, dict_has in Hp;
           assert (Hn : dict_get x "is_gitlink2_pull_request" = None);
           [walk_pull; exact Hraw
           |change ("is_gitlink2_" ++ Gitlink2.PULL_TYPE)%string
              with "is_gitlink2_pull_request" in Hp;
            rewrite Hn in Hp; discriminate Hp]
       end.
Qed.

Lemma rich_pull_raises (item : dict) (w : world) :
  dict_get (copy_raw_fields E (RAW_FIELDS_COPY E) item []) "is_gitlink2_pull_request" = None ->
  exists e, Gitlink2.__get_rich_pull E item w = (w, Raise e).
Proof.
  intros Hraw. pose proof (rich_pull_keeps_world item w) as Hw.
  destruct (Gitlink2.__get_rich_pull E item w) as [w1 [out|e]] eqn:H.
  - exfalso. exact (rich_pull_no_flag item w w1 out Hraw H).
  - simpl in Hw. subst w1. exists e. reflexivity.
Qed.

Lemma enrich_one_pull_raises (item : dict) (w : world) :
  dict_get item "category" = Some (VStr "pull_request") ->
  dict_get (copy_raw_fields E (RAW_FIELDS_COPY E) item []) "is_gitlink2_pull_request" = None ->
  exists e, Gitlink2.enrich_one E item w = (w, Raise e).
Proof.
  intros Hcat Hraw. destruct (rich_pull_raises item w Hraw) as [e He].
  exists e. unfold Gitlink2.enrich_one, Gitlink2.get_rich_item, bind, lift, dict_sub.
  rewrite Hcat. cbn [py_eq String.eqb Ascii.eqb Bool.eqb]. rewrite He. reflexivity.
Qed.

End Steps.

Section Run.
Variable E : Env.
Variable sink : Sink.

(** A turn of the loop that raises ends the loop. *)
Lemma enrich_loop_raises (items : list dict) (item : dict) :
  In item items ->
  (forall w, exists e, Gitlink2.enrich_one E item w = (w, Raise e)) ->
  forall buf num ins w,
    exists w' e, Gitlink2.enrich_loop E sink items buf num ins w = (w', Raise e).
Proof.
  intros Hin Hr. induction items as [|a rest IH]; [contradiction|].
  intros buf num ins [c t].
  destruct (enrich_loop_cons E sink a rest buf num ins c t)
    as (c1 & logs & r & _ & Hq & ->).
  destruct r as [g|e]; [|eexists; eexists; reflexivity].
  destruct Hin as [-> | Hin].
  - destruct (Hr (mkWorld c [])) as [e He]. rewrite Hq in He. discriminate.
  - destruct (List.length (buf ++ g) <? Gitlink2.MAX_SIZE_BULK_ENRICHED_ITEMS)%nat;
      apply (IH Hin).
Qed.

(** The batches a run of the loop hands to the sink are all at or above the
    threshold, whatever the outcome of the run. *)
Lemma enrich_loop_full (items : list dict) :
  forall buf num ins w w' r,
    Gitlink2.enrich_loop E sink items buf num ins w = (w', r) ->
    exists batches,
      Gitlink2.uploads (trace w') = Gitlink2.uploads (trace w) ++ batches /\
      Forall (fun b => (Gitlink2.MAX_SIZE_BULK_ENRICHED_ITEMS <= List.length b)%nat) batches.
Proof.
  induction items as [|a rest IH]; intros buf num ins [c t] w' r H.
  - simpl in H. injection H as <- _. exists []. rewrite app_nil_r. split; [reflexivity|constructor].
  - destruct (enrich_loop_cons E sink a rest buf num ins c t)
      as (c1 & logs & r1 & Hl & _ & Hstep).
    rewrite Hstep in H. clear Hstep. destruct r1 as [g|e].
    + destruct (List.length (buf ++ g) <? Gitlink2.MAX_SIZE_BULK_ENRICHED_ITEMS)%nat eqn:Hlt.
      * destruct (IH _ _ _ _ _ _ H) as (bs & Hu & Hf). exists bs.
        split; [|exact Hf]. rewrite Hu. simpl.
        rewrite uploads_app, (logs_no_uploads logs Hl), app_nil_r. reflexivity.
      * apply Nat.ltb_ge in Hlt.
        destruct (IH _ _ _ _ _ _ H) as (bs & Hu & Hf). exists ((buf ++ g) :: bs).
        split; [|constructor; assumption]. rewrite Hu. simpl.
        rewrite !uploads_app, (logs_no_uploads logs Hl). simpl.
        rewrite app_nil_r, <- app_assoc. reflexivity.
    + injection H as <- _. exists []. simpl.
      rewrite uploads_app, (logs_no_uploads logs Hl). split; [reflexivity|constructor].
Qed.

End Run.
End Pulls.

(* ===================================================================== *)
(** * Repository URLs *)
(* ===================================================================== *)

Module UrlFacts.
Import Py.
#[local] Open Scope list_scope.

Lemma has_char_app (c : ascii) (a b : string) :
  has_char c (a ++ b)%string = has_char c a || has_char c b.
Proof.
  induction a as [|x a IH]; simpl; [reflexivity|].
  rewrite IH, orb_assoc. reflexivity.
Qed.

Lemma split_on_nonempty (sep : ascii) (s : string) : split_on sep s <> [].
Proof.
  destruct s as [|c s]; simpl; [discriminate|].
  destruct (Ascii.eqb c sep); [discriminate|].
  destruct (split_on sep s); discriminate.
Qed.

(** A string without the separator is one field. *)
Lemma split_on_field (sep : ascii) (s : string) :
  has_char sep s = false -> split_on sep s = [s].
Proof.
  induction s as [|c s IH]; simpl; [reflexivity|].
  intros H. apply orb_false_elim in H. destruct H as [Hc Hs].
  rewrite Hc, (IH Hs). reflexivity.
Qed.

(** The fields of [a + sep + b] are those of [a], then those of [b]. *)
Lemma split_on_app (sep : ascii) (a b : string) :
  split_on sep (a ++ String sep b)%string = split_on sep a ++ split_on sep b.
Proof.
  induction a as [|c a IH]; simpl.
  - rewrite Ascii.eqb_refl. reflexivity.
  - destruct (Ascii.eqb c sep); [rewrite IH; reflexivity|].
    rewrite IH. pose proof (split_on_nonempty sep a) as Hn.
    destruct (split_on sep a) as [|f fs]; [contradiction|reflexivity].
Qed.

Lemma before_first_all (sep : ascii) (s : string) :
  has_char sep s = false -> before_first sep s = s.
Proof.
  induction s as [|c s IH]; simpl; [reflexivity|].
  intros H. apply orb_false_elim in H. destruct H as [Hc Hs].
  rewrite Hc, (IH Hs). reflexivity.
Qed.

Lemma before_first_app (sep : ascii) (s rest : string) :
  has_char sep s = false -> before_first sep (s ++ String sep rest)%string = s.
Proof.
  induction s as [|c s IH]; simpl.
  - rewrite Ascii.eqb_refl. reflexivity.
  - intros H. apply orb_false_elim in H. destruct H as [Hc Hs].
    rewrite Hc, (IH Hs). reflexivity.
Qed.

Lemma append_empty (s : string) : (s ++ "")%string = s.
Proof. induction s as [|c s IH]; simpl; [reflexivity|rewrite IH; reflexivity]. Qed.

Lemma append_assoc (a b c : string) : ((a ++ b) ++ c)%string = (a ++ b ++ c)%string.
Proof. induction a as [|x a IH]; simpl; [reflexivity|rewrite IH; reflexivity]. Qed.

(** The URL proper is what comes before the filter. *)
Lemma before_filter (url rest : string) :
  has_char " " url = false ->
  rest = "" \/ (exists filter, rest = String " " filter) ->
  before_first " " (url ++ rest)%string = url.
Proof.
  intros H [-> | [f ->]].
  - rewrite append_empty. apply before_first_all. exact H.
  - apply before_first_app. exact H.
Qed.

End UrlFacts.

(* ===================================================================== *)
(** * The fix of filtered items, and the identities after it *)
(* ===================================================================== *)

Module PrivacyFacts.
Import Py Host Behaviour DictFacts Frames Privacy.
#[local] Open Scope list_scope.

Lemma sh_identity_masked (h : value) :
  Gitlink2.get_sh_identity (masked h) None = Ok (identity_v2 h).
Proof. reflexivity. Qed.

Lemma v1_sh_identity_masked (h : value) :
  Gitlink.get_sh_identity (masked h) None = Ok (identity_v1 h).
Proof. reflexivity. Qed.

Ltac eqb_eval_in H := simpl (String.eqb _ _) in H; cbv iota in H.

Section Yield.
Variable Q : value -> Prop.

(** The identities of a payload whose user records are all masked. *)
Lemma yield_types_masked (d : dict) (types : list string) :
  (forall t ref u, In t types -> dict_get d t = Some ref -> truthy ref = true ->
                   dict_get d (t ++ "_data")%string = Some u -> masked_by Q u) ->
  Forall (fun id => exists h, Q h /\ id = identity_v2 h)
    (fst (Gitlink2.yield_identity_types (VDict d) types)).
Proof.
  induction types as [|t types IH]; intros H; [constructor|].
  cbn [Gitlink2.yield_identity_types]. unfold subscript at 1.
  assert (IH' := IH (fun t' ref u Hin => H t' ref u (or_intror Hin))). clear IH.
  destruct (dict_get d t) as [ref|] eqn:Href; [|constructor].
  cbn [rbind]. destruct (truthy ref) eqn:Ht.
  - cbn [py_contains rbind]. unfold dict_has, subscript.
    destruct (dict_get d (t ++ "_data")%string) as [u|] eqn:Hu; cbn [rbind].
    + destruct (H t ref u (or_introl eq_refl) Href Ht Hu) as (h & Hq & ->).
      rewrite sh_identity_masked. cbn [rbind Gitlink2.gen_step Gitlink2.gen_then].
      destruct (Gitlink2.yield_identity_types (VDict d) types) as [ys stop].
      cbn [fst snd Gitlink2.yield_if_user truthy identity_v2 app] in *.
      constructor; [exists h; split; [assumption|reflexivity]|assumption].
    + cbn [Gitlink2.gen_step Gitlink2.gen_then].
      destruct (Gitlink2.yield_identity_types (VDict d) types) as [ys stop].
      exact IH'.
  - cbn [rbind Gitlink2.gen_step Gitlink2.gen_then].
    destruct (Gitlink2.yield_identity_types (VDict d) types) as [ys stop].
    exact IH'.
Qed.

Lemma v1_yield_types_masked (d : dict) (types : list string) :
  (forall t ref u, In t types -> dict_get d t = Some ref -> truthy ref = true ->
                   dict_get d (t ++ "_data")%string = Some u -> masked_by Q u) ->
  Forall (fun id => exists h, Q h /\ id = identity_v1 h)
    (fst (Gitlink.yield_identity_types (VDict d) types)).
Proof.
  induction types as [|t types IH]; intros H; [constructor|].
  cbn [Gitlink.yield_identity_types]. unfold subscript at 1.
  assert (IH' := IH (fun t' ref u Hin => H t' ref u (or_intror Hin))). clear IH.
  destruct (dict_get d t) as [ref|] eqn:Href; [|constructor].
  cbn [rbind]. destruct (truthy ref) eqn:Ht.
  - cbn [py_contains rbind]. unfold dict_has, subscript.
    destruct (dict_get d (t ++ "_data")%string) as [u|] eqn:Hu; cbn [rbind].
    + destruct (H t ref u (or_introl eq_refl) Href Ht Hu) as (h & Hq & ->).
      rewrite v1_sh_identity_masked. cbn [rbind Gitlink2.gen_step Gitlink2.gen_then].
      destruct (Gitlink.yield_identity_types (VDict d) types) as [ys stop].
      cbn [fst snd Gitlink2.yield_if_user truthy identity_v1 app] in *.
      constructor; [exists h; split; [assumption|reflexivity]|assumption].
    + cbn [Gitlink2.gen_step Gitlink2.gen_then].
      destruct (Gitlink.yield_identity_types (VDict d) types) as [ys stop].
      exact IH'.
  - cbn [rbind Gitlink2.gen_step Gitlink2.gen_then].
    destruct (Gitlink.yield_identity_types (VDict d) types) as [ys stop].
    exact IH'.
Qed.

Lemma yield_commenters_masked (comments : list value) :
  Forall (fun c => forall u, subscript c "user_data" = Ok u -> masked_by Q u) comments ->
  Forall (fun id => exists h, Q h /\ id = identity_v2 h)
    (fst (Gitlink2.yield_commenters comments)).
Proof.
  induction 1 as [|c comments Hc _ IH]; [constructor|].
  cbn [Gitlink2.yield_commenters].
  destruct (subscript c "user_data") as [u|] eqn:Hu; [|constructor].
  destruct (Hc u eq_refl) as (h & Hq & ->). cbn [rbind].
  rewrite sh_identity_masked. cbn [rbind Gitlink2.gen_step Gitlink2.gen_then].
  destruct (Gitlink2.yield_commenters comments) as [ys stop].
  cbn [fst snd Gitlink2.yield_if_user truthy identity_v2 app] in *.
  constructor; [exists h; split; [assumption|reflexivity]|assumption].
Qed.

Lemma gen_then_Forall (P : dict -> Prop) (g rest : Gitlink2.generated) :
  Forall P (fst g) -> Forall P (fst rest) -> Forall P (fst (Gitlink2.gen_then g rest)).
Proof.
  destruct g as [ys [e|]]; simpl; intros Hg Hr; [assumption|].
  apply Forall_app. split; assumption.
Qed.

End Yield.

(** ** [_fix_item] *)

Lemma value_set_other (v : value) (k : string) (x : value) :
  (forall d, v <> VDict d) -> value_set v k x = v.
Proof. destruct v; intros H; try reflexivity. exfalso. apply (H d). reflexivity. Qed.

Lemma fix_identities_other (data : value) (types : list string) :
  (forall d, data <> VDict d) -> fst (Ocean.fix_identities data types) = data.
Proof.
  intros Hd. induction types as [|t types IH]; [reflexivity|].
  cbn [Ocean.fix_identities].
  destruct (py_contains data t) as [[|]|]; try reflexivity; [|exact IH].
  destruct (subscript data t) as [ref|]; [|reflexivity].
  destruct (negb (truthy ref)); [exact IH|].
  destruct (subscript ref "login"); [|reflexivity].
  rewrite value_set_other by assumption. exact IH.
Qed.

Lemma fix_comments_masked (cs cs' : list value) :
  Ocean.fix_comments cs = (cs', None) ->
  Forall (fun c => forall u, subscript c "user_data" = Ok u -> masked_by any u) cs'.
Proof.
  revert cs'. induction cs as [|c cs IH]; intros cs' H.
  - injection H as <-. constructor.
  - cbn [Ocean.fix_comments] in H.
    destruct (subscript c "user") as [u|] eqn:Hu; [|discriminate].
    cbn [rbind] in H. destruct (subscript u "login") as [login|]; [|discriminate].
    destruct (Ocean.fix_comments cs) as [rest stop]. injection H as <- ->.
    constructor; [|apply IH; reflexivity].
    destruct c; try discriminate. cbn [value_set subscript].
    rewrite dict_get_set_same. intros x Hx. injection Hx as <-.
    exists login. split; [exact I|reflexivity].
Qed.


(** Takes a run of [fix_identities] or [anonymize_identities] over a fixed
    list of identity types apart. *)
Ltac run_identities H :=
  repeat first
    [ progress cbn [Ocean.fix_identities Identities.anonymize_identities
                    Identities.anonymize_identity py_contains subscript
                    value_set rbind negb String.append] in H
    | rewrite dict_get_set in H; eqb_eval_in H
    | rewrite dict_get_set_same in H
    | progress unfold dict_has in H
    | match type of H with
      | (if match ?o with Some _ => _ | None => _ end then _ else _) = _ =>
          destruct o eqn:?
      | (match ?o with Some _ => _ | None => _ end) = _ => destruct o eqn:?
      | (if negb (truthy ?r) then _ else _) = _ => destruct (truthy r) eqn:?
      | (match (match ?r with VDict _ => _ | _ => _ end) with _ => _ end) = _ =>
          destruct r; try discriminate H
      | (match ?r with Ok _ => _ | Raise _ => _ end) = _ => destruct r eqn:?
      | (_, Some _) = (_, None) => discriminate H
      end ].

(** Settles what such a run leaves: the records it wrote are masked, the
    fields it did not write are as they were. *)
Ltac settle_masked witness :=
  split;
  [ let Hin := fresh "Hin" in
    let Hr := fresh "Hr" in
    let Hu := fresh "Hu" in
    intros ? ? ? Hin Hr ? Hu;
    repeat (destruct Hin as [<- | Hin]); try contradiction;
    cbn [String.append] in Hu;
    repeat (rewrite dict_get_set in Hr; eqb_eval_in Hr);
    repeat (rewrite dict_get_set in Hu; eqb_eval_in Hu);
    try congruence;
    injection Hu as <-; eexists; (split; [|reflexivity]); witness
  | let Hk := fresh "Hk" in
    intros ? Hk; cbn [map String.append] in Hk; frame_sets Hk ].

Lemma fix_identities_masks (d : dict) (types : list string) (data' : value) :
  types = ["author"; "assignee"] \/ types = ["merge_by"] \/ types = [] ->
  Ocean.fix_identities (VDict d) types = (data', None) ->
  exists d', data' = VDict d' /\
    (forall t ref u, In t types -> dict_get d' t = Some ref -> truthy ref = true ->
                     dict_get d' (t ++ "_data")%string = Some u -> masked_by any u) /\
    (forall k, mem k (map (fun t => t ++ "_data")%string types) = false ->
               dict_get d' k = dict_get d k).
Proof.
  intros [-> | [-> | ->]] H.
  all: run_identities H.
  all: injection H as <-; eexists; (split; [reflexivity|]).
  all: settle_masked ltac:(exact I).
Qed.


Lemma fix_identities_dict (data data' : value) (types : list string) :
  Ocean.fix_identities data types = (data', None) ->
  (exists d, data = VDict d) \/ data' = data.
Proof.
  intros H. destruct data; try (left; eexists; reflexivity); right.
  all: match goal with
       | H : Ocean.fix_identities ?v _ = _ |- _ =>
           pose proof (fix_identities_other v types) as Ho
       end.
  all: rewrite H in Ho; apply Ho; discriminate.
Qed.

(** Comments that are not dictionaries stop the loop. *)
Lemma fix_comments_strings (cs cs' : list value) :
  Forall (fun c => exists s, c = VStr s) cs ->
  Ocean.fix_comments cs = (cs', None) -> cs = [].
Proof.
  intros Hs H. destruct Hs as [|c cs [s ->] _]; [reflexivity|].
  cbn in H. discriminate.
Qed.

Lemma py_iter_strings (v : value) (cs : list value) :
  (forall l, v <> VList l) -> py_iter v = Ok cs ->
  Forall (fun c => exists s, c = VStr s) cs.
Proof.
  intros Hv H. destruct v; try discriminate.
  - injection H as <-. clear Hv. unfold chars.
    induction (code_points s) as [|c cs IH]; simpl; constructor;
      [eexists; reflexivity|exact IH].
  - exfalso. apply (Hv l). reflexivity.
  - injection H as <-. clear Hv.
    induction d as [|kv d IH]; simpl; constructor; [eexists; reflexivity|exact IH].
Qed.

Lemma fix_item_masks (item item' : dict) (category flag : value) :
  dict_get item "category" = Some category ->
  dict_get item "classified_fields_filtered" = Some flag -> truthy flag = true ->
  Ocean._fix_item item = (item', None) ->
  exists d',
    item' = dict_set item "data" (VDict d') /\
    (forall t ref u,
       In t (if py_eq category (VStr "issue") then ["author"; "assignee"]
             else if py_eq category (VStr "pull_request") then ["merge_by"] else []) ->
       dict_get d' t = Some ref -> truthy ref = true ->
       dict_get d' (t ++ "_data")%string = Some u -> masked_by any u) /\
    (py_eq category (VStr "issue") = true ->
     forall cs, rbind (py_get (VDict d') "comments_data" (VList [])) py_iter = Ok cs ->
       Forall (fun c => forall u, subscript c "user_data" = Ok u -> masked_by any u) cs).
Proof.
  intros Hcat Hflag Ht H. unfold Ocean._fix_item, dict_has in H.
  rewrite Hcat, Hflag, Ht in H. cbn [negb orb] in H.
  destruct (dict_get item "data") as [data|] eqn:Hd; [|discriminate].
  set (types := if py_eq category (VStr "issue") then ["author"; "assignee"]
                else if py_eq category (VStr "pull_request") then ["merge_by"] else []).
  assert (Htypes : types = ["author"; "assignee"] \/ types = ["merge_by"] \/ types = []).
  { unfold types. destruct (py_eq category (VStr "issue")); [tauto|].
    destruct (py_eq category (VStr "pull_request")); tauto. }
  destruct (py_eq category (VStr "issue")) eqn:Hissue.
  - fold types in H. 
    destruct (Ocean.fix_identities data types) as [data1 [e|]] eqn:Hf; [discriminate|].
    assert (Hdict : exists d, data = VDict d).
    { destruct (fix_identities_dict _ _ _ Hf) as [Hdict | ->]; [assumption|].
      destruct data; try (eexists; reflexivity); cbn in H; discriminate H. }
    destruct Hdict as [d ->].
    destruct (fix_identities_masks d types data1 Htypes Hf) as (d1 & -> & Hm & _).
    cbn [py_get] in H. destruct (dict_get d1 "comments_data") as [comments|] eqn:Hc.
    + destruct (py_iter comments) as [cs|] eqn:Hi; [|discriminate].
      destruct (Ocean.fix_comments cs) as [cs' stop] eqn:Hfc. injection H as <- ->.
      assert (Hl : (exists l, comments = VList l) \/ forall l, comments <> VList l)
        by (destruct comments; try (right; discriminate); left; eexists; reflexivity).
      destruct Hl as [[l ->] | Hl].
      * exists (dict_set d1 "comments_data" (VList cs')). split; [reflexivity|]. split.
        -- intros t ref u Hin Hr Htr Hu. apply (Hm t ref u Hin); try assumption.
           ++ destruct Hin as [<- | [<- | []]];
                rewrite dict_get_set in Hr; exact Hr.
           ++ destruct Hin as [<- | [<- | []]];
                rewrite dict_get_set in Hu; exact Hu.
        -- intros _ cs0 Hcs. cbn [py_get] in Hcs. rewrite dict_get_set_same in Hcs.
           injection Hcs as <-. exact (fix_comments_masked _ _ Hfc).
      * exists d1. split; [destruct comments; try reflexivity; exfalso; eapply Hl; reflexivity|].
        split; [exact Hm|]. intros _ cs0 Hcs. cbn [py_get] in Hcs.
        rewrite Hc in Hcs. cbn [rbind] in Hcs. rewrite Hi in Hcs. injection Hcs as <-.
        rewrite (fix_comments_strings cs cs' (py_iter_strings _ _ Hl Hi) Hfc). constructor.
    + cbn in H. injection H as <-. exists d1. split; [reflexivity|]. split; [exact Hm|].
      intros _ cs0 Hcs. cbn [py_get] in Hcs. rewrite Hc in Hcs. injection Hcs as <-.
      constructor.
  - assert (Hshape : exists comments_attr,
               (if py_eq category (VStr "pull_request")
                then (["merge_by"], @None string) else ([], None)) = (types, comments_attr)
               /\ comments_attr = None).
    { unfold types. destruct (py_eq category (VStr "pull_request"));
        eexists; split; reflexivity. }
    destruct Hshape as (ca & Hs & ->). rewrite Hs in H.
    destruct (Ocean.fix_identities data types) as [data1 [e|]] eqn:Hf; [discriminate|].
    assert (Hdict : exists d, data = VDict d).
    { destruct (fix_identities_dict _ _ _ Hf) as [Hdict | ->]; [assumption|].
      destruct data; try (eexists; reflexivity); cbn in H; discriminate H. }
    destruct Hdict as [d ->].
    destruct (fix_identities_masks d types data1 Htypes Hf) as (d1 & -> & Hm & _).
    cbn in H. injection H as <-. exists d1. split; [reflexivity|]. split; [exact Hm|].
    discriminate.
Qed.

End PrivacyFacts.

Module PullFacts.
Import Py Host DictFacts.

(** What [get_identities] reads of a pull request is not what
    [_fix_item] writes. *)
Lemma merger_reads_same (data m : value) :
  let data' := value_set data "merge_by_data" m in
  Gitlink2.yield_identity_types data' ["merged_by"] =
    Gitlink2.yield_identity_types data ["merged_by"] /\
  py_get_none data' (VList []) = py_get_none data (VList []).
Proof.
  destruct data; try (split; reflexivity).
  cbn [value_set Gitlink2.yield_identity_types subscript py_contains py_get_none
       String.append].
  unfold dict_has. rewrite !dict_get_set. split; reflexivity.
Qed.

Lemma fix_item_pull (item : dict) (data : value) :
  dict_get item "category" = Some (VStr "pull_request") ->
  dict_get item "data" = Some data ->
  fst (Ocean._fix_item item) = item \/
  fst (Ocean._fix_item item) = dict_set item "data" data \/
  exists m, fst (Ocean._fix_item item) = dict_set item "data" (value_set data "merge_by_data" m).
Proof.
  intros Hcat Hd. unfold Ocean._fix_item. rewrite Hcat, Hd.
  match goal with |- context [if ?c then _ else _] => destruct c end; [left; reflexivity|].
  cbn [py_eq String.eqb Ascii.eqb Bool.eqb Ocean.fix_identities].
  destruct (py_contains data "merge_by") as [[|]|]; [| |right; left; reflexivity].
  - destruct (subscript data "merge_by") as [ref|]; [|right; left; reflexivity].
    destruct (negb (truthy ref)).
    + right; left. destruct data; reflexivity.
    + destruct (subscript ref "login") as [login|]; [|right; left; reflexivity].
      right; right. exists (Ocean.filtered_user login).
      cbn [String.append]. destruct data; reflexivity.
  - right; left. destruct data; reflexivity.
Qed.

End PullFacts.

Module FixFrame.
Import Py Host Behaviour DictFacts.

Lemma subscript_value_set (v : value) (k k' : string) (x : value) :
  String.eqb k k' = false -> subscript (value_set v k x) k' = subscript v k'.
Proof.
  intros H. destruct v; try reflexivity. cbn [value_set subscript].
  rewrite dict_get_set, H. reflexivity.
Qed.

(** Whatever its outcome, the loop over the identity types writes the
    [_data] companions of the types and nothing else. *)
Lemma fix_identities_frame (types : list string) (k : string) :
  forall data,
    (forall t, In t types -> String.eqb (t ++ "_data") k = false) ->
    subscript (fst (Ocean.fix_identities data types)) k = subscript data k.
Proof.
  induction types as [|t types IH]; intros data Hk; [reflexivity|].
  assert (IH' : forall data', subscript (fst (Ocean.fix_identities data' types)) k
                              = subscript data' k).
  { intros data'. apply IH. intros t' Hin. apply Hk. right. exact Hin. }
  cbn [Ocean.fix_identities].
  destruct (py_contains data t) as [[|]|]; try reflexivity; [|apply IH'].
  destruct (subscript data t) as [ref|]; [|reflexivity].
  destruct (negb (truthy ref)); [apply IH'|].
  destruct (subscript ref "login") as [login|]; [|reflexivity].
  rewrite IH'. apply subscript_value_set. apply Hk. left. reflexivity.
Qed.

Lemma fix_item_frame (item : dict) (data : value) (k : string) :
  dict_get item "data" = Some data ->
  mem k ["author_data"; "assignee_data"; "merge_by_data"; "comments_data"] = false ->
  (fst (Ocean._fix_item item) = item \/
   exists data', fst (Ocean._fix_item item) = dict_set item "data" data' /\
                 subscript data' k = subscript data k).
Proof.
  intros Hd Hk. unfold mem in Hk. cbn [existsb] in Hk.
  repeat (apply orb_false_elim in Hk; destruct Hk as [? Hk]).
  unfold Ocean._fix_item. rewrite Hd.
  destruct (dict_get item "category") as [category|]; [|left; reflexivity].
  match goal with |- context [if ?c then _ else _] => destruct c end; [left; reflexivity|].
  right.
  set (shape := if py_eq category (VStr "issue")
                then (["author"; "assignee"], Some "comments_data")
                else if py_eq category (VStr "pull_request")
                     then (["merge_by"], None) else ([], None)).
  assert (Hs : (forall t, In t (fst shape) -> String.eqb (t ++ "_data") k = false) /\
               (snd shape = Some "comments_data" \/ snd shape = None)).
  { unfold shape. destruct (py_eq category (VStr "issue")).
    - split; [|left; reflexivity]. intros t [<- | [<- | []]]; assumption.
    - destruct (py_eq category (VStr "pull_request")); (split; [|right; reflexivity]).
      + intros t [<- | []]; assumption.
      + intros t []. }
  destruct shape as [types comments_attr]. cbn [fst snd] in Hs. destruct Hs as [Ht Hc].
  pose proof (fix_identities_frame types k data Ht) as Hf.
  destruct (Ocean.fix_identities data types) as [data1 [e|]]; cbn [fst] in Hf.
  - eexists. split; [reflexivity|exact Hf].
  - match goal with
    | |- context [match ?r with Ok _ => _ | Raise _ => _ end] => destruct r as [comments|]
    end; [|eexists; split; [reflexivity|exact Hf]].
    destruct (py_iter comments) as [cs|]; [|eexists; split; [reflexivity|exact Hf]].
    destruct (Ocean.fix_comments cs) as [cs' stop]. eexists. split; [reflexivity|].
    destruct Hc as [-> | ->]; destruct comments; try exact Hf.
    match goal with |- context [if ?c then _ else _] => destruct c end; [|exact Hf].
    rewrite subscript_value_set by assumption. exact Hf.
Qed.

End FixFrame.

(* ===================================================================== *)
(** * Anonymized items *)
(* ===================================================================== *)

Module AnonFacts.
Import Py Host Behaviour DictFacts Frames Privacy PrivacyFacts.
#[local] Open Scope list_scope.

Section WithHash.
Variable _hash : value -> result value.

Lemma anonymize_identities_other (data : value) (types : list string) :
  (forall d, data <> VDict d) ->
  fst (Identities.anonymize_identities _hash data types) = data.
Proof.
  intros Hd. induction types as [|t types IH]; [reflexivity|].
  cbn [Identities.anonymize_identities].
  destruct (py_contains data t) as [[|]|]; try reflexivity; [|exact IH].
  destruct data; try reflexivity. exfalso. apply (Hd d). reflexivity.
Qed.

(** One identity anonymized: its reference holds a hashed login, its record
    is masked by a hash. *)
Lemma anonymize_identity_ok (d : dict) (t : string) (data' : value) :
  Identities.anonymize_identity _hash (VDict d) t = (data', None) ->
  exists h h',
    hashes _hash h' /\
    data' = VDict (dict_set (dict_set d t (VDict [("login", h)]))
                     (t ++ "_data")%string (masked h')).
Proof.
  unfold Identities.anonymize_identity. intros H.
  destruct (rbind (subscript (VDict d) t) (fun ref => rbind (subscript ref "login") _hash))
    as [h|]; [|discriminate].
  cbn [value_set] in H.
  match type of H with
  | match rbind ?r (fun u => rbind (subscript u "login") (fun login =>
                    rbind (_hash login) (fun _ => ?k))) with _ => _ end = _ =>
      destruct r as [u|]; [|discriminate]; cbn [rbind] in H;
      destruct (subscript u "login") as [login|]; [|discriminate]; cbn [rbind] in H;
      destruct (_hash login) as [name|] eqn:Hh; [|discriminate]; cbn [rbind] in H
  end.
  injection H as <-. exists h, name. split; [exists login; exact Hh|reflexivity].
Qed.

Ltac run_anonymize H :=
  repeat first
    [ match type of H with
      | (let (_, _) := Identities.anonymize_identity _ _ _ in _) = _ =>
          let Hp := fresh "Hp" in
          match type of H with
          | (let (_, _) := ?x in _) = _ => destruct x as [? [?|]] eqn:Hp
          end;
          [discriminate H|];
          apply anonymize_identity_ok in Hp;
          destruct Hp as (? & ? & ? & ->)
      end
    | run_identities H ].

Lemma anonymize_identities_masks (d : dict) (types : list string) (data' : value) :
  types = ["author"; "assignee"] \/ types = ["merged_by"] \/ types = [] ->
  Identities.anonymize_identities _hash (VDict d) types = (data', None) ->
  exists d', data' = VDict d' /\
    (forall t ref u, In t types -> dict_get d' t = Some ref -> truthy ref = true ->
                     dict_get d' (t ++ "_data")%string = Some u ->
                     masked_by (hashes _hash) u).
Proof.
  intros [-> | [-> | ->]] H.
  all: run_anonymize H.
  all: try discriminate H.
  all: injection H as <-; eexists; (split; [reflexivity|]).
  all: intros t ref u Hin Hr Htr Hu.
  all: repeat (destruct Hin as [<- | Hin]); try contradiction.
  all: cbn [String.append] in Hu.
  all: repeat (rewrite dict_get_set in Hr; eqb_eval_in Hr).
  all: repeat (rewrite dict_get_set in Hu; eqb_eval_in Hu).
  all: try congruence.
  all: injection Hu as <-; eexists; (split; [|reflexivity]); assumption.
Qed.

(** A comment anonymized: its author record is masked by a hash. *)
Lemma anonymize_comment_masks (c c' : value) :
  Identities.anonymize_comment _hash c = (c', None) ->
  forall u, subscript c' "user_data" = Ok u -> masked_by (hashes _hash) u.
Proof.
  unfold Identities.anonymize_comment. intros H.
  match type of H with
  | match ?r with Ok _ => _ | Raise _ => _ end = _ => destruct r as [c1|]; [|discriminate]
  end.
  match type of H with
  | match rbind ?r (fun u => rbind (subscript u "login") (fun login =>
                    rbind (_hash login) (fun _ => ?k))) with _ => _ end = _ =>
      destruct r as [u|] eqn:Hu; [|discriminate]; cbn [rbind] in H;
      destruct (subscript u "login") as [login|]; [|discriminate]; cbn [rbind] in H;
      destruct (_hash login) as [name|] eqn:Hh; [|discriminate]; cbn [rbind] in H
  end.
  destruct c1 as [| | | | | |d1|]; try discriminate Hu. cbn [value_set] in H.
  match type of H with
  | match ?r with Ok _ => _ | Raise _ => _ end = _ => destruct r as [rs|]; [|discriminate]
  end.
  destruct (Identities.anonymize_reactions _hash rs) as [rs' stop].
  injection H as <- ->. intros x Hx.
  assert (Hm : subscript (VDict (dict_set d1 "user_data" (Identities.hashed_user name)))
                 "user_data" = Ok (masked name))
    by (cbn [subscript]; rewrite dict_get_set_same; reflexivity).
  match type of Hx with
  | context [match ?r with Ok _ => _ | Raise _ => _ end] => destruct r as [[]|]
  end.
  all: try (rewrite Hm in Hx; injection Hx as <-; exists name;
            split; [exists login; exact Hh|reflexivity]).
  cbn [value_set subscript] in Hx, Hm. rewrite dict_get_set in Hx. eqb_eval_in Hx.
  rewrite Hm in Hx. injection Hx as <-. exists name.
  split; [exists login; exact Hh|reflexivity].
Qed.

Lemma anonymize_comments_masks (cs cs' : list value) :
  Identities.anonymize_comments _hash cs = (cs', None) ->
  Forall (fun c => forall u, subscript c "user_data" = Ok u -> masked_by (hashes _hash) u)
    cs'.
Proof.
  revert cs'. induction cs as [|c cs IH]; intros cs' H.
  - injection H as <-. constructor.
  - cbn [Identities.anonymize_comments] in H.
    destruct (Identities.anonymize_comment _hash c) as [c1 [e|]] eqn:Hc; [discriminate|].
    destruct (Identities.anonymize_comments _hash cs) as [rest stop].
    injection H as <- ->. constructor; [|apply IH; reflexivity].
    exact (anonymize_comment_masks c c1 Hc).
Qed.

(** Comments that are not dictionaries stop the loop. *)
Lemma anonymize_comments_strings (cs cs' : list value) :
  Forall (fun c => exists s, c = VStr s) cs ->
  Identities.anonymize_comments _hash cs = (cs', None) -> cs = [].
Proof.
  intros Hs H. destruct Hs as [|c cs [s ->] _]; [reflexivity|].
  cbn [Identities.anonymize_comments] in H.
  unfold Identities.anonymize_comment in H. cbn [py_contains rbind subscript] in H.
  destruct (is_substring "user" s); discriminate H.
Qed.

Lemma anonymize_identities_dict (data data' : value) (types : list string) :
  Identities.anonymize_identities _hash data types = (data', None) ->
  (exists d, data = VDict d) \/ data' = data.
Proof.
  intros H. destruct data; try (left; eexists; reflexivity); right.
  all: match goal with
       | H : Identities.anonymize_identities _ ?v _ = _ |- _ =>
           pose proof (anonymize_identities_other v types) as Ho
       end.
  all: rewrite H in Ho; apply Ho; discriminate.
Qed.

Lemma anonymize_item_masks (item item' : dict) :
  Identities.anonymize_item _hash item = (item', None) ->
  exists category d',
    dict_get item "category" = Some category /\
    item' = dict_set item "data" (VDict d') /\
    (forall t ref u,
       In t (if py_eq category (VStr "issue") then ["author"; "assignee"]
             else if py_eq category (VStr "pull_request") then ["merged_by"] else []) ->
       dict_get d' t = Some ref -> truthy ref = true ->
       dict_get d' (t ++ "_data")%string = Some u -> masked_by (hashes _hash) u) /\
    (py_eq category (VStr "issue") = true ->
     forall cs, rbind (py_get (VDict d') "comments_data" (VList [])) py_iter = Ok cs ->
       Forall (fun c => forall u, subscript c "user_data" = Ok u ->
                                  masked_by (hashes _hash) u) cs).
Proof.
  intros H. unfold Identities.anonymize_item, dict_has in H.
  destruct (dict_get item "category") as [category|]; [|discriminate].
  exists category.
  destruct (dict_get item "data") as [data|] eqn:Hd; [|discriminate].
  set (types := if py_eq category (VStr "issue") then ["author"; "assignee"]
                else if py_eq category (VStr "pull_request") then ["merged_by"] else []).
  assert (Htypes : types = ["author"; "assignee"] \/ types = ["merged_by"] \/ types = []).
  { unfold types. destruct (py_eq category (VStr "issue")); [tauto|].
    destruct (py_eq category (VStr "pull_request")); tauto. }
  destruct (py_eq category (VStr "issue")) eqn:Hissue.
  - fold types in H.
    destruct (Identities.anonymize_identities _hash data types) as [data1 [e|]] eqn:Hf;
      [discriminate|].
    assert (Hdict : exists d, data = VDict d).
    { destruct (anonymize_identities_dict _ _ _ Hf) as [Hdict | ->]; [assumption|].
      destruct data; try (eexists; reflexivity); cbn in H; discriminate H. }
    destruct Hdict as [d ->].
    destruct (anonymize_identities_masks d types data1 Htypes Hf) as (d1 & -> & Hm).
    cbn [py_get] in H. destruct (dict_get d1 "comments_data") as [comments|] eqn:Hc.
    + destruct (py_iter comments) as [cs|] eqn:Hi; [|discriminate].
      destruct (Identities.anonymize_comments _hash cs) as [cs' stop] eqn:Hfc.
      injection H as <- ->.
      assert (Hl : (exists l, comments = VList l) \/ forall l, comments <> VList l)
        by (destruct comments; try (right; discriminate); left; eexists; reflexivity).
      destruct Hl as [[l ->] | Hl].
      * exists (dict_set d1 "comments_data" (VList cs')).
        split; [reflexivity|]. split; [reflexivity|]. split.
        -- intros t ref u Hin Hr Htr Hu. apply (Hm t ref u Hin); try assumption.
           ++ destruct Hin as [<- | [<- | []]];
                rewrite dict_get_set in Hr; exact Hr.
           ++ destruct Hin as [<- | [<- | []]];
                rewrite dict_get_set in Hu; exact Hu.
        -- intros _ cs0 Hcs. cbn [py_get] in Hcs. rewrite dict_get_set_same in Hcs.
           injection Hcs as <-. exact (anonymize_comments_masks _ _ Hfc).
      * exists d1. split; [reflexivity|].
        split; [destruct comments; try reflexivity; exfalso; eapply Hl; reflexivity|].
        split; [exact Hm|]. intros _ cs0 Hcs. cbn [py_get] in Hcs.
        rewrite Hc in Hcs. cbn [rbind] in Hcs. rewrite Hi in Hcs. injection Hcs as <-.
        rewrite (anonymize_comments_strings cs cs' (py_iter_strings _ _ Hl Hi) Hfc).
        constructor.
    + cbn in H. injection H as <-. exists d1. split; [reflexivity|].
      split; [reflexivity|]. split; [exact Hm|].
      intros _ cs0 Hcs. cbn [py_get] in Hcs. rewrite Hc in Hcs. injection Hcs as <-.
      constructor.
  - assert (Hshape : exists comments_attr,
               (if py_eq category (VStr "pull_request")
                then (["merged_by"], @None string) else ([], None)) = (types, comments_attr)
               /\ comments_attr = None).
    { unfold types. destruct (py_eq category (VStr "pull_request"));
        eexists; split; reflexivity. }
    destruct Hshape as (ca & Hs & ->). rewrite Hs in H.
    destruct (Identities.anonymize_identities _hash data types) as [data1 [e|]] eqn:Hf;
      [discriminate|].
    assert (Hdict : exists d, data = VDict d).
    { destruct (anonymize_identities_dict _ _ _ Hf) as [Hdict | ->]; [assumption|].
      destruct data; try (eexists; reflexivity); cbn in H; discriminate H. }
    destruct Hdict as [d ->].
    destruct (anonymize_identities_masks d types data1 Htypes Hf) as (d1 & -> & Hm).
    cbn in H. injection H as <-. exists d1. split; [reflexivity|].
    split; [reflexivity|]. split; [exact Hm|]. discriminate.
Qed.

End WithHash.
End AnonFacts.

(* ===================================================================== *)
(** * Issues and pull requests among the issues *)
(* ===================================================================== *)

Module Kinds.
Import Py Host Behaviour DictFacts Frames ReactionFacts.
#[local] Open Scope list_scope.

Section V2.
Variable E : Env.
Hypothesis L : host_leaves E ["item_type"; "issue_pull_request"].

Lemma v2_issue_kind (item : dict) (w w' : world) (item' rich : dict) :
  Gitlink2.__get_rich_issue E item w = (w', Ok (item', rich)) ->
  exists d,
    dict_get item "data" = Some (VDict d) /\
    dict_get rich "item_type" = Some (VStr "issue") /\
    dict_get rich "issue_pull_request"
      = Some (VBool (dict_has d "head" || dict_has d "pull_request")).
Proof.
  intros H. unfold Gitlink2.__get_rich_issue, bind, lift, ret in H.
  inv_m H.
  all: injection H as Hw Hi Hr.
  all: match goal with
       | Hd : dict_sub _ "data" = Ok ?issue, Hs : subscript ?issue "created_at" = Ok _ |- _ =>
           destruct issue; try discriminate Hs
       end.
  all: match goal with
       | Hg : Gitlink2.__get_reactions (VDict _) = Ok (_, _) |- _ =>
           destruct (get_reactions_keeps _ _ _ Hg) as (d' & -> & Hkeep)
       end.
  all: repeat match goal with
       | Hc : py_contains (VDict _) _ = Ok _ |- _ =>
           cbn [py_contains] in Hc; unfold dict_has in Hc;
           rewrite Hkeep in Hc by reflexivity; injection Hc as <-
       | Hc : (if _ then _ else Ok true) = Ok _ |- _ => cbn [negb] in Hc
       | Hc : Ok _ = Ok _ |- _ => injection Hc as <-
       end.
  all: eexists; (split; [apply dict_sub_ok; eassumption|]).
  all: rewrite <- Hr; unfold dict_has.
  all: match goal with
       | |- context [dict_get ?d "head"] => destruct (dict_get d "head")
       end.
  all: cbn [negb] in *.
  all: repeat match goal with
       | Hc : py_contains (VDict _) _ = Ok _ |- _ =>
           cbn [py_contains] in Hc; unfold dict_has in Hc;
           rewrite Hkeep in Hc by reflexivity; injection Hc as <-
       | Hc : Ok _ = Ok _ |- _ => injection Hc as <-
       end.
  all: try match goal with
       | |- context [dict_get ?d "pull_request"] => destruct (dict_get d "pull_request")
       end.
  all: cbn [negb andb orb].
  all: split; walk L; reflexivity.
Qed.
End V2.

Section V1.
Variable E : Env.
Hypothesis L : host_leaves E ["item_type"; "pull_request"].

Lemma v1_issue_kind (item : dict) (w w' : world) (rich : dict) :
  Gitlink.__get_rich_issue E item w = (w', Ok rich) ->
  exists d,
    dict_get item "data" = Some (VDict d) /\
    if dict_has d "head" || dict_has d "pull_request"
    then dict_get rich "item_type" = Some (VStr "pull_request") /\
         dict_get rich "pull_request" = Some (VBool true)
    else dict_get rich "item_type" = Some (VStr "issue") /\
         dict_get rich "pull_request" = Some (VBool false).
Proof.
  intros H. unfold Gitlink.__get_rich_issue, bind, lift, ret in H.
  inv_m H.
  all: injection H as Hw Hr.
  all: match goal with
       | Hd : dict_sub _ "data" = Ok ?issue, Hs : subscript ?issue "created_at" = Ok _ |- _ =>
           destruct issue; try discriminate Hs
       end.
  all: eexists; (split; [apply dict_sub_ok; eassumption|]).
  all: rewrite <- Hr; cbn [py_contains] in *; unfold dict_has in *.
  all: match goal with
       | |- context [dict_get ?d "head"] => destruct (dict_get d "head")
       end.
  all: cbn [negb] in *.
  all: try match goal with
       | |- context [dict_get ?d "pull_request"] => destruct (dict_get d "pull_request")
       end.
  all: repeat match goal with
       | Hc : (if negb _ then _ else _) = Ok _ |- _ => progress cbn [negb] in Hc
       | Hc : Ok _ = Ok _ |- _ => injection Hc as <-
       end.
  all: cbn [negb andb orb].
  all: split; walk L; reflexivity.
Qed.

End V1.
End Kinds.

(* ===================================================================== *)
(** * Dates and counts of comments *)
(* ===================================================================== *)

Module DateFacts.
Import Py Host DictFacts.
#[local] Open Scope list_scope.

Lemma min_from_least (l : list (Z * bool)) :
  forall best m,
    min_from best l = Ok m ->
    In m (best :: l) /\ forall x, In x (best :: l) -> fst m <= fst x.
Proof.
  induction l as [|y l IH]; intros best m H.
  - injection H as <-. split; [left; reflexivity|].
    intros x [<- | []]. lia.
  - cbn [min_from] in H. destruct (Bool.eqb (snd y) (snd best)); [|discriminate].
    apply IH in H. destruct H as [Hin Hle]. split.
    + destruct Hin as [Hm | Hin]; [|right; right; exact Hin].
      destruct (fst y <? fst best); subst m; [right; left|left]; reflexivity.
    + intros x Hx.
      assert (Hb : fst m <= fst (if fst y <? fst best then y else best))
        by (apply Hle; left; reflexivity).
      destruct Hx as [<- | [<- | Hx]].
      * destruct (fst y <? fst best) eqn:Hlt; [apply Z.ltb_lt in Hlt; lia|exact Hb].
      * destruct (fst y <? fst best) eqn:Hlt; [exact Hb|apply Z.ltb_ge in Hlt; lia].
      * apply Hle. right. exact Hx.
Qed.

Lemma max_from_greatest (l : list (Z * bool)) :
  forall best m,
    max_from best l = Ok m ->
    In m (best :: l) /\ forall x, In x (best :: l) -> fst x <= fst m.
Proof.
  induction l as [|y l IH]; intros best m H.
  - injection H as <-. split; [left; reflexivity|].
    intros x [<- | []]. lia.
  - cbn [max_from] in H. destruct (Bool.eqb (snd y) (snd best)); [|discriminate].
    apply IH in H. destruct H as [Hin Hle]. split.
    + destruct Hin as [Hm | Hin]; [|right; right; exact Hin].
      destruct (fst best <? fst y); subst m; [right; left|left]; reflexivity.
    + intros x Hx.
      assert (Hb : fst (if fst best <? fst y then y else best) <= fst m)
        by (apply Hle; left; reflexivity).
      destruct Hx as [<- | [<- | Hx]].
      * destruct (fst best <? fst y) eqn:Hlt; [apply Z.ltb_lt in Hlt; lia|exact Hb].
      * destruct (fst best <? fst y) eqn:Hlt; [exact Hb|apply Z.ltb_ge in Hlt; lia].
      * apply Hle. right. exact Hx.
Qed.

Lemma py_min_date_least (dates : list (Z * bool)) (v : value) :
  py_min_date dates = Ok v ->
  (v = VNone <-> dates = []) /\
  forall t aware, v = VDatetime t aware ->
    In (t, aware) dates /\ forall x, In x dates -> t <= fst x.
Proof.
  destruct dates as [|d l]; cbn [py_min_date].
  - intros H. injection H as <-. split; [tauto|]. discriminate.
  - destruct (min_from d l) as [m|] eqn:Hm; [|discriminate]. cbn [rbind].
    intros H. injection H as <-. split; [split; discriminate|].
    intros t aware Ht. injection Ht as <- <-.
    destruct (min_from_least _ _ _ Hm) as [Hin Hle]. split; [|exact Hle].
    destruct m. exact Hin.
Qed.

Lemma py_max_date_greatest (dates : list (Z * bool)) (v : value) :
  py_max_date dates = Ok v ->
  (v = VNone <-> dates = []) /\
  forall t aware, v = VDatetime t aware ->
    In (t, aware) dates /\ forall x, In x dates -> fst x <= t.
Proof.
  destruct dates as [|d l]; cbn [py_max_date].
  - intros H. injection H as <-. split; [tauto|]. discriminate.
  - destruct (max_from d l) as [m|] eqn:Hm; [|discriminate]. cbn [rbind].
    intros H. injection H as <-. split; [split; discriminate|].
    intros t aware Ht. injection Ht as <- <-.
    destruct (max_from_greatest _ _ _ Hm) as [Hin Hle]. split; [|exact Hle].
    destruct m. exact Hin.
Qed.

Section Dates.
Variable E : Env.
Variable keep : value -> result bool.

(** The date of a comment the comprehension keeps. *)
#[local] Abbreviation dated c d :=
  (keep c = Ok true /\
   exists created, subscript c "created_at" = Ok created /\
                   str_to_datetime E created = Ok d).

Lemma dates_fold (cs : list value) :
  forall acc ds,
    rfold (fun dates comment =>
             rbind (keep comment) (fun k =>
             if (k : bool) then
               rbind (subscript comment "created_at") (fun created =>
               rbind (str_to_datetime E created) (fun d => Ok (dates ++ [d])))
             else Ok dates)) cs acc = Ok ds ->
    (forall d, In d ds <-> In d acc \/ exists c, In c cs /\ dated c d) /\
    Forall (fun c => keep c = Ok false \/ exists d, dated c d) cs.
Proof.
  induction cs as [|c cs IH]; intros acc ds H.
  - injection H as <-. split; [|constructor].
    intros d. split; [tauto|]. intros [H | (c & [] & _)]. exact H.
  - cbn [rfold] in H. destruct (keep c) as [[|]|] eqn:Hk; [| |discriminate];
      cbn [rbind] in H.
    + destruct (subscript c "created_at") as [created|] eqn:Hc; [|discriminate].
      cbn [rbind] in H.
      destruct (str_to_datetime E created) as [d0|] eqn:Hd; [|discriminate].
      cbn [rbind] in H. apply IH in H. destruct H as [Hin Hall]. split.
      * intros d. rewrite Hin, in_app_iff. split.
        -- intros [[H | [<- | []]] | (c' & Hc' & Hd')].
           ++ left. exact H.
           ++ right. exists c. split; [left; reflexivity|].
              split; [exact Hk|]. exists created. split; assumption.
           ++ right. exists c'. split; [right; exact Hc'|exact Hd'].
        -- intros [H | (c' & [<- | Hc'] & Hk' & created' & Hcr & Hd')].
           ++ left. left. exact H.
           ++ left. right. left. congruence.
           ++ right. exists c'. split; [exact Hc'|].
              split; [exact Hk'|]. exists created'. split; assumption.
      * constructor; [|exact Hall]. right. exists d0.
        split; [exact Hk|]. exists created. split; assumption.
    + apply IH in H. destruct H as [Hin Hall]. split.
      * intros d. rewrite Hin. split.
        -- intros [H | (c' & Hc' & Hd')]; [left; exact H|].
           right. exists c'. split; [right; exact Hc'|exact Hd'].
        -- intros [H | (c' & [<- | Hc'] & Hk' & Hd')]; [left; exact H| |].
           ++ congruence.
           ++ right. exists c'. split; [exact Hc'|]. split; [exact Hk'|exact Hd'].
      * constructor; [left; exact Hk|exact Hall].
Qed.

Lemma dates_of_kept (cs : list value) (ds : list (Z * bool)) :
  Gitlink.dates_of E keep cs = Ok ds ->
  (forall d, In d ds <-> exists c, In c cs /\ dated c d) /\
  Forall (fun c => keep c = Ok false \/ exists d, dated c d) cs.
Proof.
  intros H. apply dates_fold in H. destruct H as [Hin Hall]. split; [|exact Hall].
  intros d. rewrite Hin. split; [intros [[] | H]; exact H|intros H; right; exact H].
Qed.

End Dates.
End DateFacts.

Module VersionFacts.
Import Py Host DictFacts ReactionFacts.
#[local] Open Scope list_scope.

Section Agree.
Variable E : Env.
Variable item : value.

(** On comments that have an author, the loop of the second enricher
    collects the dates the comprehension of the first one collects, and
    leaves the comments as they are. *)
Lemma first_attention_fold (cs : list value) :
  Forall (fun c => exists u, subscript c "user" = Ok u /\ truthy u = true) cs ->
  forall done dates,
    rfold (Gitlink2.first_attention_step E item) cs (done, dates) =
    rbind
      (rfold (fun dates comment =>
                rbind (Gitlink.by_another item comment) (fun k =>
                if (k : bool) then
                  rbind (subscript comment "created_at") (fun created =>
                  rbind (str_to_datetime E created) (fun d => Ok (dates ++ [d])))
                else Ok dates)) cs dates)
      (fun ds => Ok (done ++ cs, ds)).
Proof.
  induction 1 as [|c cs (u & Hu & Ht) _ IH]; intros done dates.
  - cbn [rfold rbind]. rewrite app_nil_r. reflexivity.
  - cbn [rfold]. unfold Gitlink2.first_attention_step at 1, Gitlink.by_another at 1.
    rewrite Hu. cbn [rbind]. rewrite Ht. cbn [negb].
    destruct (subscript item "author") as [author|]; [|reflexivity]. cbn [rbind].
    destruct (subscript author "login") as [a|]; [|reflexivity]. cbn [rbind].
    rewrite Hu. cbn [rbind].
    destruct (subscript u "login") as [b|]; [|reflexivity]. cbn [rbind].
    unfold py_ne. destruct (py_eq a b); cbn [negb rbind].
    + rewrite IH, <- app_assoc. reflexivity.
    + destruct (subscript c "created_at") as [created|]; [|reflexivity]. cbn [rbind].
      destruct (str_to_datetime E created) as [d|]; [|reflexivity]. cbn [rbind].
      rewrite IH, <- app_assoc. reflexivity.
Qed.

End Agree.
End VersionFacts.

Module GhostFacts.
Import Py Host DictFacts.
#[local] Open Scope list_scope.

Section Ghost.
Variable E : Env.
Variable item : value.

#[local] Abbreviation ghost := (VDict [("login", VStr Gitlink2.DELETED_USER_LOGIN)]).

(** What the loop makes of a comment: one without an author is given the
    ghost user, the others are left as they are. *)
#[local] Abbreviation settled c c' :=
  (exists u, subscript c "user" = Ok u /\
             c' = if truthy u then c else value_set c "user" ghost).

Lemma first_attention_settles (cs : list value) :
  forall done dates cs' ds,
    rfold (Gitlink2.first_attention_step E item) cs (done, dates) = Ok (cs', ds) ->
    exists new, cs' = done ++ new /\ Forall2 (fun c c' => settled c c') cs new.
Proof.
  induction cs as [|c cs IH]; intros done dates cs' ds H.
  - injection H as <- _. exists []. rewrite app_nil_r. split; [reflexivity|constructor].
  - cbn [rfold] in H. unfold Gitlink2.first_attention_step at 1 in H.
    destruct (subscript c "user") as [u|] eqn:Hu; [|discriminate]. cbn [rbind] in H.
    set (c1 := if negb (truthy u) then value_set c "user" ghost else c) in H.
    assert (Hc1 : c1 = if truthy u then c else value_set c "user" ghost)
      by (unfold c1; destruct (truthy u); reflexivity).
    clearbody c1.
    destruct (subscript item "author") as [author|]; [|discriminate]. cbn [rbind] in H.
    destruct (subscript author "login") as [a|]; [|discriminate]. cbn [rbind] in H.
    destruct (subscript c1 "user") as [u1|]; [|discriminate]. cbn [rbind] in H.
    destruct (subscript u1 "login") as [b|]; [|discriminate]. cbn [rbind] in H.
    assert (Hstep : exists dates', rfold (Gitlink2.first_attention_step E item) cs
                                     (done ++ [c1], dates') = Ok (cs', ds)).
    { destruct (py_eq a b); [eexists; exact H|].
      destruct (subscript c1 "created_at") as [created|]; [|discriminate].
      cbn [rbind] in H. destruct (str_to_datetime E created); [|discriminate].
      eexists. exact H. }
    destruct Hstep as [dates' Hstep]. apply IH in Hstep.
    destruct Hstep as (new & -> & Hnew). exists (c1 :: new).
    split; [rewrite <- app_assoc; reflexivity|].
    constructor; [|exact Hnew]. exists u. split; [exact Hu|exact Hc1].
Qed.

End Ghost.
End GhostFacts.

Module CountFacts.
Import Py Host.
#[local] Open Scope list_scope.

Lemma set_of_length (l : list value) :
  forall seen members,
    set_of seen l = Ok members ->
    (List.length seen <= List.length members <= List.length seen + List.length l)%nat /\
    (l <> [] -> (1 <= List.length members)%nat).
Proof.
  induction l as [|x l IH]; intros seen members H.
  - injection H as <-. simpl. split; [lia|]. intros Hn. contradiction.
  - cbn [set_of] in H. destruct (hashable x); [|discriminate].
    apply IH in H. destruct H as [Hb _]. destruct (existsb (py_eq x) seen) eqn:Hx.
    + split; [simpl; lia|]. intros _. destruct seen; [discriminate Hx|].
      simpl in Hb. lia.
    + rewrite length_app in Hb. simpl in *. split; lia.
Qed.

Lemma rmap_length {A B} (f : A -> result B) (l : list A) (l' : list B) :
  rmap f l = Ok l' -> List.length l' = List.length l.
Proof.
  revert l'. induction l as [|a l IH]; intros l' H.
  - injection H as <-. reflexivity.
  - cbn [rmap] in H. destruct (f a); [|discriminate]. cbn [rbind] in H.
    destruct (rmap f l) as [bs|]; [|discriminate]. cbn [rbind] in H.
    injection H as <-. simpl. rewrite (IH bs eq_refl). reflexivity.
Qed.

End CountFacts.

(* ===================================================================== *)
(** * Comment records *)
(* ===================================================================== *)

Module CommentFacts.
Import Py Host Behaviour DictFacts Frames ReactionFacts.
#[local] Open Scope list_scope.

Section Records.
Variable E : Env.

#[local] Abbreviation kept_fields :=
  ["id"; "body"; "body_analyzed"; "item_type"; "sub_type"].

Hypothesis L : host_leaves E kept_fields.
Hypothesis D : decorators_leave E kept_fields.

(** What both comment loops do after the identifier is set leaves the
    identifier, the body and the types as they are. *)
Lemma finish_comment_keeps (sub_type : string) (comment : value) (eitem ecomment ec : dict)
  (w w' : world) (k : string) :
  In k kept_fields ->
  Gitlink2.finish_comment E sub_type comment eitem ecomment w = (w', Ok ec) ->
  dict_get ec k = dict_get ecomment k.
Proof.
  intros Hk H.
  unfold Gitlink2.finish_comment, Gitlink2.add_gelk_metadata, Gitlink2.utcnow,
    bind, lift, ret in H.
  inv_m H.
  all: injection H as _ <-.
  all: repeat (destruct Hk as [<- | Hk]); try contradiction.
  all: repeat (rewrite dict_get_set; eqb_eval).
  all: rewrite (filter_leaves _ _ D), (labels_leave _ _ D) by reflexivity.
  all: walk L.
  all: reflexivity.
Qed.

(** The record made of a comment of an issue. *)
Lemma issue_comment_fields (eitem : dict) (comment : value) (w w' : world) (ec : dict) :
  Gitlink2.rich_issue_comment E eitem comment w = (w', Ok ec) ->
  exists parent own body short,
    dict_get eitem "id" = Some parent /\
    subscript comment "id" = Ok own /\
    subscript comment "body" = Ok body /\
    py_slice_to body (KEYWORD_MAX_LENGTH E) = Ok short /\
    dict_get ec "id"
      = Some (VStr (Gitlink2.py_str E parent ++ "_issue_comment_"
                    ++ Gitlink2.py_str E own)%string) /\
    dict_get ec "body" = Some short /\
    dict_get ec "body_analyzed" = Some body /\
    dict_get ec "item_type" = Some (VStr "comment") /\
    dict_get ec "sub_type" = Some (VStr "issue_comment").
Proof.
  intros H. unfold Gitlink2.rich_issue_comment, bind, lift, ret in H.
  inv_m H.
  match goal with
  | Hb : subscript comment "body" = Ok _ |- _ =>
      destruct comment as [| | | | | |c|]; try discriminate Hb
  end.
  match goal with
  | Hg : Gitlink2.__get_reactions (VDict _) = Ok (_, _) |- _ =>
      destruct (get_reactions_keeps _ _ _ Hg) as (c' & -> & Hkeep)
  end.
  repeat match goal with
  | Hs : subscript (VDict c') _ = Ok _ |- _ =>
      cbn [subscript] in Hs; rewrite Hkeep in Hs by reflexivity
  end.
  do 4 eexists.
  split; [apply dict_sub_ok; eassumption|].
  split; [cbn [subscript]; eassumption|].
  split; [reflexivity|]. split; [eassumption|].
  rewrite (finish_comment_keeps _ _ _ _ _ _ _ "id" ltac:(simpl; tauto) H),
    (finish_comment_keeps _ _ _ _ _ _ _ "body" ltac:(simpl; tauto) H),
    (finish_comment_keeps _ _ _ _ _ _ _ "body_analyzed" ltac:(simpl; tauto) H),
    (finish_comment_keeps _ _ _ _ _ _ _ "item_type" ltac:(simpl; tauto) H),
    (finish_comment_keeps _ _ _ _ _ _ _ "sub_type" ltac:(simpl; tauto) H).
  repeat split; walk L; reflexivity.
Qed.

End Records.

(** The text of an integer tells the integer. *)
Lemma py_str_int_inj (E : Env) (a b : Z) :
  Gitlink2.py_str E (VInt a) = Gitlink2.py_str E (VInt b) -> a = b.
Proof.
  cbn [Gitlink2.py_str]. intros H.
  assert (Hn : forall n, NilZero.int_of_string (NilZero.string_of_int (Z.to_int n))
                         = Some (Z.to_int n)).
  { intros n. apply NilZero.isi; destruct n; cbn [Z.to_int]; try discriminate;
      intros Hp; injection Hp as Hp; exact (Unsigned.to_uint_nonnil _ Hp). }
  apply DecimalZ.to_int_inj.
  pose proof (Hn a) as Ha. rewrite H, Hn in Ha. injection Ha as <-. reflexivity.
Qed.

Lemma append_inv_head (p a b : string) : (p ++ a)%string = (p ++ b)%string -> a = b.
Proof.
  induction p as [|c p IH]; simpl; intros H; [exact H|].
  injection H as H. apply IH. exact H.
Qed.

End CommentFacts.

(* ===================================================================== *)
(** * Assignees and mergers *)
(* ===================================================================== *)

Module ActorFacts.
Import Py Host Behaviour DictFacts Frames.
#[local] Open Scope list_scope.

Section Assignee.
Variable E : Env.

#[local] Abbreviation assignee_fields :=
  ["assignee_login"; "assignee_name"; "assignee_domain"; "assignee_org";
   "assignee_location"; "assignee_geolocation"].

Hypothesis L : host_leaves E assignee_fields.

Lemma assignee_fields_none (rich rich' : dict) (assignee : value) :
  truthy assignee && py_ne assignee Gitlink2.USER_NOT_AVAILABLE = false ->
  Gitlink2.issue_assignee_fields E rich assignee = Ok rich' ->
  Forall (fun k => dict_get rich' k = Some VNone) assignee_fields.
Proof.
  intros Hc H. unfold Gitlink2.issue_assignee_fields in H. rewrite Hc in H.
  injection H as <-.
  repeat (apply Forall_cons; [repeat (rewrite dict_get_set; eqb_eval); reflexivity|]).
  apply Forall_nil.
Qed.

Lemma v2_no_assignee (item : dict) (w w' : world) (item' rich : dict) (d : dict) :
  dict_get item "data" = Some (VDict d) ->
  (let assignee := match dict_get d "assignee_data" with Some x => x | None => VNone end in
   truthy assignee && py_ne assignee Gitlink2.USER_NOT_AVAILABLE = false) ->
  Gitlink2.__get_rich_issue E item w = (w', Ok (item', rich)) ->
  Forall (fun k => dict_get rich k = Some VNone) assignee_fields.
Proof.
  intros Hd Ha H. unfold Gitlink2.__get_rich_issue, bind, lift, ret, dict_sub in H.
  rewrite Hd in H. cbn [py_get] in H. inv_m H.
  all: injection H as Hw Hi Hr.
  all: match goal with
       | Hs : Gitlink2.issue_assignee_fields _ _ _ = Ok _ |- _ =>
           pose proof (assignee_fields_none _ _ _ Ha Hs) as Hnone
       end.
  all: rewrite Forall_forall in Hnone |- *.
  all: intros k Hk; rewrite <- (Hnone k Hk), <- Hr.
  all: simpl in Hk.
  all: repeat (destruct Hk as [<- | Hk]); try contradiction.
  all: walk L; reflexivity.
Qed.

End Assignee.
Section Merger.
Variable E : Env.
Hypothesis L : host_leaves E ["merge_author_login"; "merge_author_name"].

Lemma v1_pull_merger (item : dict) (rich : dict) (d : dict) :
  dict_get item "data" = Some (VDict d) ->
  Gitlink.__get_rich_pull E item = Ok rich ->
  let merged_by := match dict_get d "merge_by" with Some x => x | None => VNone end in
  if truthy merged_by
  then exists login name,
         subscript merged_by "login" = Ok login /\
         subscript merged_by "name" = Ok name /\
         dict_get rich "merge_author_login" = Some login /\
         dict_get rich "merge_author_name" = Some name
  else dict_get rich "merge_author_login" = Some VNone /\
       dict_get rich "merge_author_name" = Some VNone.
Proof.
  intros Hd H. unfold Gitlink.__get_rich_pull, dict_sub in H. rewrite Hd in H.
  cbn [py_get rbind] in H. cbv zeta.
  destruct (truthy match dict_get d "merge_by" with Some x => x | None => VNone end).
  - inv_res H.
    all: match goal with Hm : rbind _ _ = Ok _ |- _ => inv_res Hm end.
    all: do 2 eexists; do 2 (split; [reflexivity|]); split; walk L; reflexivity.
  - inv_res H.
    all: match goal with Hm : Ok _ = Ok _ |- _ => inv_res Hm end.
    all: split; walk L; reflexivity.
Qed.

End Merger.
End ActorFacts.

(* ===================================================================== *)
(** * The sample host once more *)
(* ===================================================================== *)

Module CaseFacts.
Import Py Host Behaviour.
#[local] Open Scope list_scope.

(** The decorators of the sample host write the repository labels and the
    three metadata fields, and nothing else. *)
Lemma sample_decorators_leave_keys (keys : list string) :
  forallb (fun k => negb (String.eqb "repository_labels" k)
                    && negb (is_prefix "metadata__" k)) keys = true ->
  decorators_leave SampleHost.host keys.
Proof.
  intros Hkeys.
  assert (Hk : forall k, mem k keys = true ->
                 String.eqb "repository_labels" k = false /\
                 is_prefix "metadata__" k = false).
  { intros k Hm. unfold mem in Hm. apply existsb_exists in Hm.
    destruct Hm as (key & Hin & He). apply String.eqb_eq in He. subst key.
    rewrite forallb_forall in Hkeys. specialize (Hkeys k Hin).
    apply andb_true_iff in Hkeys. destruct Hkeys as [H1 H2].
    apply negb_true_iff in H1, H2. split; assumption. }
  split.
  - intros d k H. destruct (Hk k H) as [Hl _].
    cbn [SampleHost.host add_repository_labels].
    rewrite DictFacts.dict_get_set, Hl. reflexivity.
  - intros d k _. reflexivity.
  - intros now d k H. destruct (Hk k H) as [_ Hp].
    cbn [SampleHost.host metadata]. unfold SampleHost.metadata, dict_update.
    cbn [fold_left fst snd]. rewrite !DictFacts.dict_get_set.
    repeat match goal with
           | |- context [String.eqb ?x k] =>
               let He := fresh "He" in
               destruct (String.eqb x k) eqn:He;
               [apply String.eqb_eq in He; subst k; simpl in Hp; discriminate Hp|]
           end.
    reflexivity.
Qed.

End CaseFacts.

Module BotFacts.
Import Py Host DictFacts.
#[local] Open Scope list_scope.

(** A comment the bot filter keeps is a comment by someone else than the
    author. *)
Lemma human_is_another (item c : value) :
  Gitlink.by_another_human item c = Ok true -> Gitlink.by_another item c = Ok true.
Proof.
  unfold Gitlink.by_another_human. destruct (Gitlink.by_another item c) as [[|]|];
    cbn [rbind]; [reflexivity|discriminate|discriminate].
Qed.

Section Kept.
Variable keep : value -> result bool.

Lemma kept_fold (cs : list value) :
  forall acc l,
    rfold (fun acc comment =>
             rbind (keep comment) (fun k =>
             Ok (if (k : bool) then acc ++ [comment] else acc))) cs acc = Ok l ->
    (acc = [] /\ Forall (fun c => keep c = Ok false) cs -> l = []) /\
    (l = [] -> acc = [] /\ Forall (fun c => keep c = Ok false) cs).
Proof.
  induction cs as [|c cs IH]; intros acc l H.
  - injection H as <-. split; [tauto|]. intros ->. split; [reflexivity|constructor].
  - cbn [rfold] in H. destruct (keep c) as [[|]|] eqn:Hk; [| |discriminate];
      cbn [rbind] in H; apply IH in H; destruct H as [H1 H2]; split.
    + intros [_ Hf]. inversion Hf as [|? ? Hc _]; subst. congruence.
    + intros Hl. destruct (H2 Hl) as [Ha _]. destruct acc; discriminate Ha.
    + intros [-> Hf]. apply H1. split; [reflexivity|]. inversion Hf; assumption.
    + intros Hl. destruct (H2 Hl) as [-> Hf]. split; [reflexivity|].
      constructor; assumption.
Qed.

Lemma kept_none (cs l : list value) :
  Gitlink.kept keep cs = Ok l ->
  (l = [] <-> Forall (fun c => keep c = Ok false) cs).
Proof.
  intros H. apply kept_fold in H. destruct H as [H1 H2]. split.
  - intros Hl. apply H2. exact Hl.
  - intros Hf. apply H1. split; [reflexivity|exact Hf].
Qed.

End Kept.
End BotFacts.

Module ReleaseFacts.
Import Py Host DictFacts Frames Behaviour.
#[local] Open Scope list_scope.

Lemma rmap_Forall2 {A B} (f : A -> result B) (l : list A) (l' : list B) :
  rmap f l = Ok l' -> Forall2 (fun a b => f a = Ok b) l l'.
Proof.
  revert l'. induction l as [|a l IH]; intros l' H.
  - injection H as <-. constructor.
  - cbn [rmap] in H. destruct (f a) eqn:Hf; [|discriminate]. cbn [rbind] in H.
    destruct (rmap f l) as [bs|]; [|discriminate]. cbn [rbind] in H.
    injection H as <-. constructor; [exact Hf|apply IH; reflexivity].
Qed.

Section Releases.
Variable E : Env.
Hypothesis L : host_leaves E ["releases"; "releases_count"].

Lemma v1_repo_releases (item rich : dict) :
  Gitlink.__get_rich_repo E item = Ok rich ->
  exists repo releases_v releases rich_releases,
    dict_get item "data" = Some repo /\
    subscript repo "releases" = Ok releases_v /\
    py_iter releases_v = Ok releases /\
    rmap (Gitlink.rich_release) releases = Ok rich_releases /\
    dict_get rich "releases" = Some (VList rich_releases) /\
    dict_get rich "releases_count" = Some (VInt (Z.of_nat (List.length rich_releases))).
Proof.
  intros H. unfold Gitlink.__get_rich_repo in H.
  inv_res H.
  exists a, a5, a6, a7. unfold dict_sub in Ea.
  destruct (dict_get item "data") as [v|]; [|discriminate Ea]. injection Ea as ->.
  repeat split; try assumption; walk L; reflexivity.
Qed.
End Releases.
End ReleaseFacts.

Module Unroutable.
Import Py Host Behaviour.
#[local] Open Scope list_scope.

Section Run.
Variable E : Env.
Variable sink : Sink.

(** A record in the buffer is in the buffer the loop leaves, or in a batch
    the loop has uploaded by then. *)
Lemma enrich_loop_keeps (x : dict) (items : list dict) :
  forall (buf : list dict) (num ins : Z) (w w' : world) (out : list dict * Z * Z),
    In x buf ->
    Gitlink2.enrich_loop E sink items buf num ins w = (w', Ok out) ->
    exists evs,
      trace w' = trace w ++ evs /\
      (In x (fst (fst out)) \/
       exists batch field written, In (BulkUpload batch field written) evs /\ In x batch).
Proof.
  induction items as [|item rest IH]; intros buf num ins w w' out Hx H.
  - simpl in H. inversion H; subst. exists []. rewrite app_nil_r.
    split; [reflexivity|]. left. exact Hx.
  - destruct w as [c t].
    destruct (Loop.enrich_loop_cons E sink item rest buf num ins c t)
      as (c1 & logs & r & _ & _ & Hstep).
    rewrite Hstep in H. clear Hstep. destruct r as [g|e]; [|discriminate].
    destruct (List.length (buf ++ g) <? Gitlink2.MAX_SIZE_BULK_ENRICHED_ITEMS)%nat.
    + destruct (IH _ _ _ _ _ _ (in_or_app _ _ _ (or_introl Hx)) H)
        as (evs & Ht & Hor).
      exists (logs ++ evs). simpl in *. rewrite Ht, app_assoc.
      split; [reflexivity|].
      destruct Hor as [Hb|(batch & f & wr & Hin & Hxb)]; [left; exact Hb|].
      right. exists batch, f, wr. split; [apply in_or_app; right; exact Hin|exact Hxb].
    + destruct (Loop.enrich_loop_trace E sink rest _ _ _ _ _ _ H) as (evs & Ht & _).
      simpl in Ht.
      match type of Ht with
      | _ = (_ ++ [?ev]) ++ _ => exists (logs ++ ev :: evs)
      end.
      simpl. rewrite Ht, <- !app_assoc. split; [reflexivity|].
      right. do 3 eexists. split.
      * apply in_or_app. right. left. reflexivity.
      * apply in_or_app. left. exact Hx.
Qed.

Variable item : dict.
Variable category : value.
Hypothesis Hcat : dict_get item "category" = Some category.
Hypothesis Hi : py_eq category (VStr "issue") = false.
Hypothesis Hp : py_eq category (VStr "pull_request") = false.
Hypothesis Hr : py_eq category (VStr "repository") = false.

(** The turn of the loop on an item of another category. *)
Lemma enrich_one_unroutable (w : world) :
  Gitlink2.enrich_one E item w =
    (mkWorld (S (clock_reads w)) (trace w ++ [LogUnroutable category]),
     Ok [unroutable_record E (clock_reads w)]).
Proof.
  unfold Gitlink2.enrich_one, Gitlink2.get_rich_item, bind, lift, dict_sub.
  rewrite Hcat, Hi, Hp, Hr. simpl. rewrite Hcat.
  unfold Gitlink2.ISSUE_TYPE, Gitlink2.PULL_TYPE. rewrite Hi, Hp. reflexivity.
Qed.

Lemma enrich_loop_unroutable_step (rest buf : list dict) (num ins : Z) (w : world) :
  let buf' := buf ++ [unroutable_record E (clock_reads w)] in
  let w1 := mkWorld (S (clock_reads w)) (trace w ++ [LogUnroutable category]) in
  Gitlink2.enrich_loop E sink (item :: rest) buf num ins w =
    if (List.length buf' <? 200)%nat
    then Gitlink2.enrich_loop E sink rest buf' num ins w1
    else
      let written := sink (Gitlink2.uploads (trace w1)) buf' Gitlink2.get_field_unique_id in
      Gitlink2.enrich_loop E sink rest [] (num + Z.of_nat (List.length buf')) (ins + written)
        (mkWorld (clock_reads w1)
           (trace w1 ++ [BulkUpload buf' Gitlink2.get_field_unique_id written])).
Proof.
  intros buf' w1. simpl. unfold bind at 1. rewrite enrich_one_unroutable.
  fold buf' w1. unfold Gitlink2.MAX_SIZE_BULK_ENRICHED_ITEMS.
  destruct (List.length buf' <? 200)%nat; reflexivity.
Qed.

(** The loop over items among which is one of another category: its line is
    logged, and its record is in the buffer the loop leaves or in a batch
    uploaded after the line. *)
Lemma enrich_loop_unroutable (items : list dict) :
  forall (buf : list dict) (num ins : Z) (w w' : world) (out : list dict * Z * Z),
    In item items ->
    Gitlink2.enrich_loop E sink items buf num ins w = (w', Ok out) ->
    exists c before after,
      trace w' = trace w ++ before ++ LogUnroutable category :: after /\
      (In (unroutable_record E c) (fst (fst out)) \/
       exists batch field written,
         In (BulkUpload batch field written) after /\ In (unroutable_record E c) batch).
Proof.
  induction items as [|h rest IH]; intros buf num ins w w' out Hin H; [destruct Hin|].
  destruct Hin as [-> | Hin].
  - rewrite enrich_loop_unroutable_step in H. cbv zeta in H.
    exists (clock_reads w), [].
    assert (Hx : In (unroutable_record E (clock_reads w))
                   (buf ++ [unroutable_record E (clock_reads w)]))
      by (apply in_or_app; right; left; reflexivity).
    destruct (List.length (buf ++ [unroutable_record E (clock_reads w)]) <? 200)%nat.
    + destruct (enrich_loop_keeps _ _ _ _ _ _ _ _ Hx H) as (evs & Ht & Hor).
      exists evs. simpl in Ht. rewrite Ht, <- app_assoc. split; [reflexivity|exact Hor].
    + destruct (Loop.enrich_loop_trace E sink rest _ _ _ _ _ _ H) as (evs & Ht & _).
      simpl in Ht.
      match type of Ht with
      | _ = (_ ++ [?ev]) ++ _ => exists (ev :: evs)
      end.
      rewrite Ht, <- !app_assoc. split; [reflexivity|].
      right. do 3 eexists. split; [left; reflexivity|exact Hx].
  - destruct w as [c t].
    destruct (Loop.enrich_loop_cons E sink h rest buf num ins c t)
      as (c1 & logs & r & _ & _ & Hstep).
    rewrite Hstep in H. clear Hstep. destruct r as [g|e]; [|discriminate].
    destruct (List.length (buf ++ g) <? Gitlink2.MAX_SIZE_BULK_ENRICHED_ITEMS)%nat;
      destruct (IH _ _ _ _ _ _ Hin H) as (c' & before & after & Ht & Hor);
      simpl in Ht.
    + exists c', (logs ++ before), after. simpl. rewrite Ht, <- !app_assoc.
      split; [reflexivity|exact Hor].
    + match type of Ht with
      | _ = (_ ++ [?ev]) ++ _ => exists c', (logs ++ ev :: before), after
      end.
      simpl. rewrite Ht, <- !app_assoc. split; [reflexivity|exact Hor].
Qed.

(** A whole run that returns: the record was uploaded, after its line. *)
Lemma enrich_items_unroutable (items : list dict) (w w' : world) (n : Z) :
  In item items ->
  Gitlink2.enrich_items E sink items w = (w', Ok n) ->
  exists c before middle after batch field written,
    trace w' = trace w ++ before ++ LogUnroutable category :: middle
                 ++ BulkUpload batch field written :: after /\
    In (unroutable_record E c) batch.
Proof.
  intros Hin H. rewrite Loop.enrich_items_run in H.
  destruct (Gitlink2.enrich_loop E sink items [] 0 0 w)
    as [w1 [[[buf num] ins]|e]] eqn:Hloop; [|discriminate].
  destruct (enrich_loop_unroutable items _ _ _ _ _ _ Hin Hloop)
    as (c & before & after & Ht & Hor).
  inversion H; subst w' n; clear H. cbn [trace]. cbn [fst] in Hor.
  destruct Hor as [Hb|(batch & f & wr & Hup & Hxb)].
  - destruct buf as [|b buf]; [destruct Hb|]. cbn [List.length Nat.ltb Nat.leb].
    exists c, before, after. do 4 eexists. split; [|exact Hb].
    rewrite Ht, <- !app_assoc. cbn [app]. reflexivity.
  - apply in_split in Hup. destruct Hup as (m1 & m2 & ->).
    exists c, before, m1. eexists. exists batch, f, wr. split; [|exact Hxb].
    rewrite Ht, <- !app_assoc. cbn [app]. rewrite <- !app_assoc. cbn [app]. reflexivity.
Qed.

End Run.
End Unroutable.

Module IdentityStops.
Import Py Host AsWritten.
#[local] Open Scope list_scope.

(** The loop over the identity types stops at a reference field the payload
    does not have. *)
Lemma yield_identity_type_missing (d : dict) (identity : string) (rest : list string) :
  dict_get d identity = None ->
  Gitlink2.yield_identity_types (VDict d) (identity :: rest)
    = ([], Some (KeyError identity)).
Proof.
  intros H. cbn [Gitlink2.yield_identity_types]. unfold subscript at 1. rewrite H.
  reflexivity.
Qed.

(** The loop over the comments stops at the first comment whose user record
    cannot be read. *)
Lemma yield_commenters_stop (before : list value) (users : list dict)
  (comment : value) (after : list value) (e : exn) :
  Forall2 (fun c u => subscript c "user_data" = Ok (VDict u)) before users ->
  Forall (fun u => dict_has u "data" = false) users ->
  subscript comment "user_data" = Raise e ->
  Gitlink2.yield_commenters (before ++ comment :: after)
    = (map identity_of (filter nonempty users), Some e).
Proof.
  induction 1 as [|c u before users Hc _ IH]; intros Hd He.
  - cbn [app Gitlink2.yield_commenters]. rewrite He. reflexivity.
  - inversion Hd as [|? ? Hu Hus]; subst.
    cbn [app Gitlink2.yield_commenters]. rewrite Hc. cbn [rbind].
    rewrite (IdentityFacts.sh_identity_of_record u Hu). cbn [rbind].
    rewrite IdentityFacts.yield_record, (IH Hus He).
    unfold Gitlink2.gen_step, Gitlink2.gen_then.
    cbn [fst snd filter]. destruct (nonempty u); reflexivity.
Qed.

End IdentityStops.

Module StringFacts.
Import Py Behaviour.
#[local] Open Scope list_scope.

Lemma concat_cons (p : string) (cs : list string) :
  String.concat "" (p :: cs) = (p ++ String.concat "" cs)%string.
Proof.
  destruct cs as [|q cs]; cbn [String.concat]; [|reflexivity].
  symmetry. apply UrlFacts.append_empty.
Qed.

(** The characters of a string are the string, cut in pieces: no byte is
    lost, none is moved. *)
Lemma split_chars_whole (s : string) :
  (fst (split_chars s) ++ String.concat "" (snd (split_chars s)))%string = s.
Proof.
  induction s as [|c s IH]; [reflexivity|].
  cbn [split_chars]. destruct (split_chars s) as [k cs]. cbn [fst snd] in *.
  destruct (is_continuation c); cbn [fst snd].
  - cbn [String.append]. rewrite IH. reflexivity.
  - rewrite concat_cons. cbn [String.append]. rewrite IH. reflexivity.
Qed.

(** Each character is a byte that is not a continuation byte, followed by
    continuation bytes only. *)
Lemma split_chars_shape (s : string) :
  all_continuation (fst (split_chars s)) = true /\
  Forall (fun p => exists c k, p = String c k /\ is_continuation c = false /\
                               all_continuation k = true)
    (snd (split_chars s)).
Proof.
  induction s as [|c s [IHk IHc]]; [split; [reflexivity|constructor]|].
  cbn [split_chars]. destruct (split_chars s) as [k cs]. cbn [fst snd] in *.
  destruct (is_continuation c) eqn:Hc; cbn [fst snd]; split.
  - cbn [all_continuation]. rewrite Hc, IHk. reflexivity.
  - exact IHc.
  - reflexivity.
  - constructor; [|exact IHc]. exists c, k. repeat split; assumption.
Qed.

(** A string that begins with a character is its characters, one after the
    other. *)
Lemma code_points_whole (c : ascii) (s : string) :
  is_continuation c = false ->
  String.concat "" (code_points (String c s)) = String c s.
Proof.
  intros Hc. pose proof (split_chars_whole (String c s)) as H.
  unfold code_points. cbn [split_chars] in *.
  destruct (split_chars s) as [k cs]. rewrite Hc in *. exact H.
Qed.

Lemma concat_app (l1 l2 : list string) :
  String.concat "" (l1 ++ l2) = (String.concat "" l1 ++ String.concat "" l2)%string.
Proof.
  induction l1 as [|p l1 IH]; [reflexivity|].
  cbn [app]. rewrite !concat_cons, IH, UrlFacts.append_assoc. reflexivity.
Qed.

(** Cutting a string keeps a prefix of it. *)
Lemma string_take_prefix (n : nat) (c : ascii) (s : string) :
  is_continuation c = false ->
  exists rest, String c s = (string_take n (String c s) ++ rest)%string.
Proof.
  intros Hc. unfold string_take.
  exists (String.concat "" (skipn n (code_points (String c s)))).
  rewrite <- concat_app, firstn_skipn. symmetry. apply code_points_whole. exact Hc.
Qed.

(** A string of no more than [n] characters is not cut. *)
Lemma string_take_all (n : nat) (c : ascii) (s : string) :
  is_continuation c = false ->
  (List.length (code_points (String c s)) <= n)%nat ->
  string_take n (String c s) = String c s.
Proof.
  intros Hc Hn. unfold string_take. rewrite firstn_all2 by exact Hn.
  apply code_points_whole. exact Hc.
Qed.

(** What is kept has [n] characters, or all there are. *)
Lemma string_take_length (n : nat) (s : string) :
  List.length (firstn n (code_points s)) = Nat.min n (List.length (code_points s)).
Proof. apply length_firstn. Qed.

(** In a string of bytes below 128 every byte is a character, and cutting
    by characters is cutting by bytes. *)
Lemma split_chars_ascii (s : string) :
  all_ascii s = true ->
  split_chars s = (EmptyString, map (fun c => String c EmptyString) (list_ascii_of_string s)).
Proof.
  induction s as [|c s IH]; intros H; [reflexivity|].
  cbn [all_ascii] in H. destruct c as [b0 b1 b2 b3 b4 b5 b6 b7].
  apply andb_true_iff in H. destruct H as [Hb Hs].
  cbn [split_chars]. rewrite (IH Hs). destruct b7; [discriminate|]. reflexivity.
Qed.

Lemma string_take_ascii (n : nat) (s : string) :
  all_ascii s = true -> string_take n s = byte_take n s.
Proof.
  intros H. unfold string_take, code_points. rewrite (split_chars_ascii s H).
  cbn [snd]. clear H. revert n. induction s as [|c s IH]; intros [|n]; try reflexivity.
  cbn [list_ascii_of_string map firstn byte_take]. rewrite concat_cons, IH. reflexivity.
Qed.

End StringFacts.

(* ===================================================================== *)
(** * The properties of the specification *)
(* ===================================================================== *)

Import Py Host.
#[local] Open Scope list_scope.

(** C1. A run of [enrich_items] that reaches the end of the source has handed
    the sink the records of the items, in order and each once, in batches made
    of whole per-item groups (the enriched item and its comment and review
    records): the threshold is tested once per item, on the number of records
    in the buffer. Every batch but the last holds 200 records or more; every
    batch was below 200 before the group of its last item was added, so no
    flush came early or late; and no batch is empty, so what is left in the
    buffer at the end of the source is flushed once if it holds 1 to 199
    records, and not at all if it holds none. When no item has comment or
    review records, the batches before the last hold 200 records each. *)
Theorem flush_at_threshold (E : Env) (sink : Sink) (items : list dict)
  (w w' : world) (n : Z) :
  Gitlink2.enrich_items E sink items w = (w', Ok n) ->
  exists gss : list (list (list dict)),
    Forall2 (Behaviour.produced E) items (concat gss) /\
    Gitlink2.uploads (trace w') = Gitlink2.uploads (trace w) ++ map (@concat dict) gss /\
    Forall (fun gs => (1 <= List.length (concat gs))%nat /\
                      (List.length (concat (removelast gs)) < 200)%nat) gss /\
    Forall (fun gs => (200 <= List.length (concat gs))%nat) (removelast gss) /\
    (Forall (fun g => List.length g = 1%nat) (concat gss) ->
     Forall (fun gs => List.length (concat gs) = 200%nat) (removelast gss)).
Proof.
  intros H.
  destruct (Loop.enrich_items_batches E sink items w w' n H)
    as (gss & Hp & Hup & Hall & Hfull).
  exists gss. repeat split; try assumption.
  apply Loop.exact_batches; assumption.
Qed.

Lemma flush_at_threshold_witness :
  snd Samples.run_201 = Ok 201 /\
  map (@List.length dict) (Gitlink2.uploads (trace (fst Samples.run_201)))
    = [200%nat; 1%nat] /\
  exists gss : list (list (list dict)),
    Forall2 (Behaviour.produced SampleHost.host) Samples.source_201 (concat gss) /\
    Gitlink2.uploads (trace (fst Samples.run_201)) =
      Gitlink2.uploads (trace world0) ++ map (@concat dict) gss /\
    Forall (fun gs => (1 <= List.length (concat gs))%nat /\
                      (List.length (concat (removelast gs)) < 200)%nat) gss /\
    Forall (fun gs => (200 <= List.length (concat gs))%nat) (removelast gss) /\
    (Forall (fun g => List.length g = 1%nat) (concat gss) ->
     Forall (fun gs => List.length (concat gs) = 200%nat) (removelast gss)).
Proof.
  split; [vm_compute; reflexivity|]. split; [vm_compute; reflexivity|].
  apply (flush_at_threshold SampleHost.host SampleHost.writes_all
           Samples.source_201 world0 (fst Samples.run_201) 201).
  vm_compute. reflexivity.
Defined.

(** C8. [enrich_items] returns whenever every item is enriched without an
    exception. What it returns is the number of records it handed to the sink
    over the whole run, which is the number of records the items were
    enriched into, comment and review records included; and with any other
    sink, whatever it reports as written, the run returns the same number. *)
Theorem returns_submitted_count (E : Env) (sink : Sink) (items : list dict)
  (w : world) :
  ((forall item w0, In item items ->
      exists w1 g, Gitlink2.enrich_one E item w0 = (w1, Ok g)) ->
   exists w' n, Gitlink2.enrich_items E sink items w = (w', Ok n)) /\
  (forall w' n,
     Gitlink2.enrich_items E sink items w = (w', Ok n) ->
     (exists evs, trace w' = trace w ++ evs /\ n = Behaviour.submitted evs) /\
     (exists groups,
        Forall2 (Behaviour.produced E) items groups /\
        n = Z.of_nat (List.length (concat groups))) /\
     (forall sink2, snd (Gitlink2.enrich_items E sink2 items w) = Ok n)).
Proof.
  split; [apply Loop.enrich_items_returns|].
  intros w' n H.
  destruct (Loop.enrich_items_trace E sink items w w' n H) as (body & Ht & _ & Hn).
  destruct (Loop.enrich_items_batches E sink items w w' n H) as (gss & Hp & Hup & _).
  split; [|split].
  - exists (body ++ [Behaviour.final_report (Behaviour.submitted body) (Behaviour.reported body)]).
    split; [assumption|]. rewrite Loop.submitted_app, Hn.
    unfold Behaviour.final_report. destruct (negb _); simpl; lia.
  - exists (concat gss). split; [assumption|].
    rewrite Hn, Loop.submitted_uploads.
    rewrite Ht, !Loop.uploads_app, Loop.uploads_final_report, app_nil_r in Hup.
    apply app_inv_head in Hup. rewrite Hup, Loop.concat_map_concat. reflexivity.
  - intros sink2. rewrite <- (Loop.enrich_items_any_sink E sink sink2), H. reflexivity.
Qed.

Lemma returns_submitted_count_witness :
  snd Samples.run_201 = Ok 201 /\
  (forall sink2,
     snd (Gitlink2.enrich_items SampleHost.host sink2 Samples.source_201 world0) = Ok 201).
Proof.
  split; [vm_compute; reflexivity|].
  apply (proj2 (returns_submitted_count SampleHost.host SampleHost.writes_all
                  Samples.source_201 world0) (fst Samples.run_201) 201).
  vm_compute. reflexivity.
Defined.

(** C5, as written, fails: with a sink that loses two records of the first
    batch of 200, nothing is logged after that flush; the run goes on to the
    next item and the next flush, and the one error line, for 2 of 201, comes
    when the run ends. *)
Lemma mismatch_not_logged_after_flush :
  AsWritten.checked_after_each_flush (trace (fst Samples.run_lossy)) = false /\
  filter Behaviour.is_report (trace (fst Samples.run_lossy)) = [LogMissing 2 201] /\
  map (fun b => List.length b) (Gitlink2.uploads (trace (fst Samples.run_lossy)))
    = [200%nat; 1%nat] /\
  snd Samples.run_lossy = Ok 201.
Proof. repeat split; vm_compute; reflexivity. Qed.

(** C5, amended. The comparison is made once, when the source is exhausted
    and the last flush is done, on the totals of the run: the trace of a run
    that returns is the events of the loop and the flushes, none of them a
    report, followed by one line, the error with the missing count when the
    records handed to the sink and the records it reported written differ,
    the count of inserted items when they agree. Nothing is handed to the
    sink twice, and whatever the sink reports the run returns. *)
Theorem report_once_at_end (E : Env) (sink : Sink) (items : list dict)
  (w w' : world) (n : Z) :
  Gitlink2.enrich_items E sink items w = (w', Ok n) ->
  (exists body,
     trace w' =
       trace w ++ body ++ [Behaviour.final_report (Behaviour.submitted body) (Behaviour.reported body)] /\
     forallb (fun ev => negb (Behaviour.is_report ev)) body = true /\
     n = Behaviour.submitted body) /\
  (exists groups,
     Forall2 (Behaviour.produced E) items groups /\
     concat (Gitlink2.uploads (trace w')) =
       concat (Gitlink2.uploads (trace w)) ++ concat groups) /\
  (forall sink2, snd (Gitlink2.enrich_items E sink2 items w) = Ok n).
Proof.
  intros H. split; [|split].
  - apply (Loop.enrich_items_trace E sink items w w' n H).
  - destruct (Loop.enrich_items_batches E sink items w w' n H) as (gss & Hp & Hup & _).
    exists (concat gss). split; [assumption|].
    rewrite Hup, concat_app, Loop.concat_map_concat. reflexivity.
  - intros sink2. rewrite <- (Loop.enrich_items_any_sink E sink sink2), H. reflexivity.
Qed.

Lemma report_once_at_end_witness :
  exists body,
    trace (fst Samples.run_lossy) =
      trace world0 ++ body ++ [Behaviour.final_report (Behaviour.submitted body) (Behaviour.reported body)] /\
    forallb (fun ev => negb (Behaviour.is_report ev)) body = true /\
    201 = Behaviour.submitted body.
Proof.
  apply (report_once_at_end SampleHost.host Samples.loses_two
           Samples.source_201 world0 (fst Samples.run_lossy) 201).
  vm_compute. reflexivity.
Defined.

(** C2, as written, fails: an item of category [commit] is logged, but the
    dictionary [get_rich_item] returns for it, empty but for what the host
    adds to every record, is put in the buffer and handed to the sink. *)
Lemma unroutable_record_is_submitted :
  trace (fst Samples.run_commit) =
    [LogUnroutable (VStr "commit");
     BulkUpload
       [[("repository_labels", VNone);
         ("metadata__gelk_version", VStr "1.0");
         ("metadata__gelk_backend_name", VStr "GitlinkEnrich2");
         ("metadata__enriched_on", VStr "1700000000+00:00")]]
       "id" 1;
     LogInserted 1] /\
  snd Samples.run_commit = Ok 1.
Proof. split; vm_compute; reflexivity. Qed.

(** C2, amended. For an item whose category is none of [issue],
    [pull_request], [repository], the turn of the loop logs the category and
    adds exactly one record to the buffer: the empty dictionary as the host
    decorates it (repository labels, raw filter, metadata), which has no
    identifier and no item type when the decorations add none. The record is
    counted in the buffer like any other: when the buffer with it holds 200
    records or more, the whole buffer, that record in it, is handed to the
    sink at once; otherwise the loop goes on with the next item and the
    record stays in the buffer. In every run that returns, the line of the
    item is in the trace, and after it the upload of a batch that holds the
    record. *)
Theorem unroutable_logged_and_buffered (E : Env) (item : dict) (category : value) :
  dict_get item "category" = Some category ->
  py_eq category (VStr "issue") = false ->
  py_eq category (VStr "pull_request") = false ->
  py_eq category (VStr "repository") = false ->
  (forall w : world,
     Gitlink2.enrich_one E item w =
       (mkWorld (S (clock_reads w)) (trace w ++ [LogUnroutable category]),
        Ok [Behaviour.unroutable_record E (clock_reads w)])) /\
  (Behaviour.decorators_leave E ["id"; "item_type"] ->
   forall c, dict_get (Behaviour.unroutable_record E c) "id" = None /\
             dict_get (Behaviour.unroutable_record E c) "item_type" = None) /\
  (forall (sink : Sink) (rest buf : list dict) (num ins : Z) (w : world),
     let buf' := buf ++ [Behaviour.unroutable_record E (clock_reads w)] in
     let w1 := mkWorld (S (clock_reads w)) (trace w ++ [LogUnroutable category]) in
     Gitlink2.enrich_loop E sink (item :: rest) buf num ins w =
       if (List.length buf' <? 200)%nat
       then Gitlink2.enrich_loop E sink rest buf' num ins w1
       else
         let written :=
           sink (Gitlink2.uploads (trace w1)) buf' Gitlink2.get_field_unique_id in
         Gitlink2.enrich_loop E sink rest []
           (num + Z.of_nat (List.length buf')) (ins + written)
           (mkWorld (clock_reads w1)
              (trace w1 ++ [BulkUpload buf' Gitlink2.get_field_unique_id written]))) /\
  (forall (sink : Sink) (items : list dict) (w w' : world) (n : Z),
     In item items ->
     Gitlink2.enrich_items E sink items w = (w', Ok n) ->
     exists c before middle after batch field written,
       trace w' = trace w ++ before ++ LogUnroutable category :: middle
                    ++ BulkUpload batch field written :: after /\
       In (Behaviour.unroutable_record E c) batch).
Proof.
  intros Hcat Hi Hp Hr. split; [|split; [|split]].
  - intros w. apply (Unroutable.enrich_one_unroutable E item category Hcat Hi Hp Hr).
  - intros D c. unfold Behaviour.unroutable_record.
    rewrite !(Behaviour.metadata_leaves _ _ D), !(Behaviour.filter_leaves _ _ D),
      !(Behaviour.labels_leave _ _ D) by reflexivity.
    split; reflexivity.
  - intros sink rest buf num ins w.
    apply (Unroutable.enrich_loop_unroutable_step E sink item category Hcat Hi Hp Hr).
  - intros sink items w w' n.
    apply (Unroutable.enrich_items_unroutable E sink item category Hcat Hi Hp Hr).
Qed.

Lemma unroutable_logged_and_buffered_witness :
  Gitlink2.enrich_one SampleHost.host Samples.commit_item world0 =
    (mkWorld 1 [LogUnroutable (VStr "commit")],
     Ok [[("repository_labels", VNone);
          ("metadata__gelk_version", VStr "1.0");
          ("metadata__gelk_backend_name", VStr "GitlinkEnrich2");
          ("metadata__enriched_on", VStr "1700000000+00:00")]]) /\
  exists c before middle after batch field written,
    trace (fst Samples.run_commit)
      = trace world0 ++ before ++ LogUnroutable (VStr "commit") :: middle
          ++ BulkUpload batch field written :: after /\
    In (Behaviour.unroutable_record SampleHost.host c) batch.
Proof.
  split.
  - apply (proj1 (unroutable_logged_and_buffered SampleHost.host Samples.commit_item
                    (VStr "commit") eq_refl eq_refl eq_refl eq_refl) world0).
  - apply (proj2 (proj2 (proj2
             (unroutable_logged_and_buffered SampleHost.host Samples.commit_item
                (VStr "commit") eq_refl eq_refl eq_refl eq_refl)))
             SampleHost.writes_all [Samples.commit_item] world0
             (fst Samples.run_commit) 1).
    + left. reflexivity.
    + vm_compute. reflexivity.
Defined.

(** C3. In both enrichers, the issue's [time_to_close_days] is the days from
    its creation to its closing ([finished_at], in [GitlinkEnrich2]) or update
    ([updated_at], in [GitlinkEnrich]) timestamp; its [time_open_days] is the
    days from its creation to the clock as the method reads it when the status
    code is 1 or 2, and is [time_to_close_days] for any other status code.
    The host is taken not to add fields of these two names itself. *)
Theorem time_open_days_by_status (E : Env) :
  Behaviour.host_leaves E ["time_open_days"; "time_to_close_days"] ->
  (forall item w w' item' rich,
     Gitlink2.__get_rich_issue E item w = (w', Ok (item', rich)) ->
     exists issue created finished status sid ttc,
       dict_get item "data" = Some issue /\
       subscript issue "created_at" = Ok created /\
       subscript issue "finished_at" = Ok finished /\
       subscript issue "status" = Ok status /\
       subscript status "id" = Ok sid /\
       get_time_diff_days E created finished = Ok ttc /\
       dict_get rich "time_to_close_days" = Some ttc /\
       if py_eq sid (VInt 1) || py_eq sid (VInt 2)
       then exists d,
              get_time_diff_days E created
                (VDatetime (datetime_utcnow E (clock_reads w)) false) = Ok d /\
              dict_get rich "time_open_days" = Some d
       else dict_get rich "time_open_days" = Some ttc) /\
  (forall item w w' rich,
     Gitlink.__get_rich_issue E item w = (w', Ok rich) ->
     exists issue created updated status sid ttc,
       dict_get item "data" = Some issue /\
       subscript issue "created_at" = Ok created /\
       subscript issue "updated_at" = Ok updated /\
       subscript issue "status" = Ok status /\
       subscript status "id" = Ok sid /\
       get_time_diff_days E created updated = Ok ttc /\
       dict_get rich "time_to_close_days" = Some ttc /\
       if py_eq sid (VInt 1) || py_eq sid (VInt 2)
       then exists d,
              get_time_diff_days E created
                (VDatetime (datetime_utcnow E (clock_reads w)) false) = Ok d /\
              dict_get rich "time_open_days" = Some d
       else dict_get rich "time_open_days" = Some ttc) /\
  (forall n : Z,
     py_eq (VInt n) (VInt 1) || py_eq (VInt n) (VInt 2) = true <-> n = 1 \/ n = 2).
Proof.
  intros L. split; [|split].
  - intros item w w' item' rich. apply Frames.v2_issue_times. exact L.
  - intros item w w' rich. apply Frames.v1_issue_times. exact L.
  - exact Frames.status_code_open.
Qed.

Lemma time_open_days_by_status_witness :
  Behaviour.host_leaves SampleHost.host ["time_open_days"; "time_to_close_days"] /\
  (exists issue created finished status sid ttc,
     dict_get (Samples.issue_item 1 []) "data" = Some issue /\
     subscript issue "created_at" = Ok created /\
     subscript issue "finished_at" = Ok finished /\
     subscript issue "status" = Ok status /\
     subscript status "id" = Ok sid /\
     get_time_diff_days SampleHost.host created finished = Ok ttc /\
     dict_get (Samples.rich_v2 (Samples.issue_item 1 [])) "time_to_close_days" = Some ttc /\
     if py_eq sid (VInt 1) || py_eq sid (VInt 2)
     then exists d,
            get_time_diff_days SampleHost.host created
              (VDatetime (datetime_utcnow SampleHost.host (clock_reads world0)) false)
              = Ok d /\
            dict_get (Samples.rich_v2 (Samples.issue_item 1 [])) "time_open_days" = Some d
     else dict_get (Samples.rich_v2 (Samples.issue_item 1 [])) "time_open_days" = Some ttc).
Proof.
  split; [apply SampleFacts.sample_host_leaves; reflexivity|].
  apply (proj1 (time_open_days_by_status SampleHost.host
                  (SampleFacts.sample_host_leaves
                     ["time_open_days"; "time_to_close_days"] eq_refl))
           (Samples.issue_item 1 []) world0
           (fst (Gitlink2.__get_rich_issue SampleHost.host (Samples.issue_item 1 []) world0))
           (Samples.issue_item 1 [])
           (Samples.rich_v2 (Samples.issue_item 1 []))).
  vm_compute. reflexivity.
Defined.

(** The two enrichers on an open issue (status 1, measured against the clock)
    and on a closed one (status 5). *)
Example time_fields_of_samples :
  dict_get (Samples.rich_v2 (Samples.issue_item 1 [])) "time_open_days"
    = Some (VFloat (31793 # 100)) /\
  dict_get (Samples.rich_v2 (Samples.issue_item 5 [])) "time_open_days"
    = Some (VFloat (250 # 100)) /\
  dict_get (Samples.rich_v2 (Samples.issue_item 5 [])) "time_to_close_days"
    = Some (VFloat (250 # 100)) /\
  dict_get (Samples.rich_v1 (Samples.issue_item 5 [])) "time_open_days"
    = Some (VFloat (125 # 100)).
Proof. repeat split; vm_compute; reflexivity. Qed.

(** C10. In [GitlinkEnrich.__get_rich_issue], when the issue's [assignee] is
    a non-empty list, the enriched [assignee] is one dictionary, holding the
    login and the name of the last assignee of the list and nothing else. The
    host is taken not to add a field of that name itself. *)
Theorem assignee_is_last_of_list (E : Env) (item : dict) (w w' : world)
  (rich : dict) (issue : value) (assignees : list value) :
  Behaviour.host_leaves E ["assignee"] ->
  Gitlink.__get_rich_issue E item w = (w', Ok rich) ->
  dict_sub item "data" = Ok issue ->
  py_get issue "assignee" VNone = Ok (VList assignees) ->
  assignees <> [] ->
  exists login name,
    subscript (last assignees VNone) "login" = Ok login /\
    subscript (last assignees VNone) "name" = Ok name /\
    dict_get rich "assignee"
      = Some (VDict [("assignee_login", login); ("assignee_name", name)]).
Proof.
  intros L H Hdata Hassignee Hne.
  unfold Gitlink.__get_rich_issue, bind, lift, ret in H.
  rewrite Hdata in H. cbv beta iota in H. rewrite Hassignee in H.
  Frames.inv_m H.
  all: injection H as Hw Hr.
  all: match goal with
       | Hs : Gitlink.issue_assignee _ (VList _) = Ok ?r |- _ =>
           destruct (Frames.v1_issue_assignee_last _ _ _ Hs Hne)
             as (login & name & Hl & Hn & Hget);
           exists login, name; split; [exact Hl|]; split; [exact Hn|];
           rewrite <- Hget, <- Hr; Frames.walk L; reflexivity
       end.
Qed.

Lemma assignee_is_last_of_list_witness :
  dict_get (Samples.rich_v1 Samples.issue_assigned) "assignee"
    = Some (VDict [("assignee_login", VStr "carol"); ("assignee_name", VStr "Carol")]).
Proof.
  destruct (assignee_is_last_of_list SampleHost.host Samples.issue_assigned world0
              (fst (Gitlink.__get_rich_issue SampleHost.host Samples.issue_assigned world0))
              (Samples.rich_v1 Samples.issue_assigned)
              (value_set (Samples.issue_data 5 []) "assignee"
                 (VList [Samples.user "bob" "Bob"; Samples.user "carol" "Carol"]))
              [Samples.user "bob" "Bob"; Samples.user "carol" "Carol"]
              (SampleFacts.sample_host_leaves ["assignee"] eq_refl)
              eq_refl eq_refl eq_refl ltac:(discriminate))
    as (login & name & Hl & Hn & Hget).
  vm_compute in Hl, Hn. injection Hl as <-. injection Hn as <-. exact Hget.
Defined.

(** C6, as written, fails: on the record of the scenario as the
    specification writes it, [GitlinkEnrich2.__get_rich_repo] raises, for
    [data] has no [origin] (nor the item a [metadata__updated_on]), and no
    enriched record is produced; [GitlinkEnrich.__get_rich_repo] raises on it
    too, for it reads the counts under other names. *)
Lemma scenario_repository_raises :
  Samples.run_scenario_repo = (world0, Raise (KeyError "origin")) /\
  Gitlink.__get_rich_repo SampleHost.host Samples.scenario_repo
    = Raise (KeyError "forked_count").
Proof. split; vm_compute; reflexivity. Qed.

(** C6, amended. A repository record that has the four fields of the
    scenario in its [data], and also an [origin] there and a
    [metadata__updated_on] on the item, is enriched by [GitlinkEnrich2] into
    exactly one record, with the three counts of the scenario and the item
    type [repository]. The host is taken to flag the record as it flags every
    one ([is_gitlink2_repository]) and to leave these four fields alone. *)
Theorem scenario_repository_enriched (E : Env) (item data : dict) (w : world)
  (origin updated : value) (g : dict) :
  Behaviour.host_leaves E
    ["forks_count"; "subscribers_count"; "stargazers_count"; "item_type"] ->
  Behaviour.decorators_leave E
    ["forks_count"; "subscribers_count"; "stargazers_count"; "item_type"] ->
  (prjs_map E = true -> forall d, exists p, get_item_project E d = Ok p) ->
  dict_get item "category" = Some (VStr "repository") ->
  dict_get item "data" = Some (VDict data) ->
  dict_get data "forks_count" = Some (VInt 3) ->
  dict_get data "subscribers_count" = Some (VInt 10) ->
  dict_get data "stargazers_count" = Some (VInt 7) ->
  dict_get data "fetched_on" = Some (VStr "2023-01-01T00:00:00") ->
  dict_get data "origin" = Some origin ->
  dict_get item "metadata__updated_on" = Some updated ->
  get_grimoire_fields E updated "repository" = Ok g ->
  dict_has g "is_gitlink2_repository" = true ->
  exists rich w',
    Gitlink2.enrich_one E item w = (w', Ok [rich]) /\
    dict_get rich "forks_count" = Some (VInt 3) /\
    dict_get rich "subscribers_count" = Some (VInt 10) /\
    dict_get rich "stargazers_count" = Some (VInt 7) /\
    dict_get rich "item_type" = Some (VStr "repository").
Proof.
  intros L D Hproj Hcat Hdata Hf Hs Hg Hfo Ho Hu Hgr Hflag.
  destruct (Frames.v2_rich_repo E item data _ _ _ _ _ _ g
              L Hproj Hdata Hf Hs Hg Hfo Ho Hu Hgr Hflag)
    as (rich0 & Hrun & H1 & H2 & H3 & H4).
  unfold Gitlink2.enrich_one, Gitlink2.get_rich_item, bind, lift, ret, dict_sub.
  rewrite Hcat. cbn [py_eq String.eqb Ascii.eqb Bool.eqb]. rewrite Hrun.
  cbn [Gitlink2.utcnow]. rewrite Hcat.
  cbn [py_eq String.eqb Ascii.eqb Bool.eqb Gitlink2.ISSUE_TYPE Gitlink2.PULL_TYPE].
  eexists. eexists. split; [reflexivity|].
  repeat split;
    rewrite (Behaviour.metadata_leaves _ _ D), (Behaviour.filter_leaves _ _ D),
      (Behaviour.labels_leave _ _ D) by reflexivity; assumption.
Qed.

Lemma scenario_repository_enriched_witness :
  exists rich w',
    Samples.run_repo = (w', Ok [rich]) /\
    dict_get rich "forks_count" = Some (VInt 3) /\
    dict_get rich "subscribers_count" = Some (VInt 10) /\
    dict_get rich "stargazers_count" = Some (VInt 7) /\
    dict_get rich "item_type" = Some (VStr "repository").
Proof.
  eapply (scenario_repository_enriched SampleHost.host Samples.repo_item _ world0
            Samples.repo_url (VStr "2023-01-01T00:00:00")
            _
            (SampleFacts.sample_host_leaves
               ["forks_count"; "subscribers_count"; "stargazers_count"; "item_type"]
               eq_refl)
            SampleFacts.sample_decorators_leave);
    first [reflexivity | discriminate].
Defined.

(** C9. On a raw item in which [classified_fields_filtered] is absent or
    falsy, [_fix_item] leaves the item exactly as it was, and, the item having
    a category as every raw item has, returns without raising. *)
Theorem fix_item_leaves_unfiltered (item : dict) :
  dict_has item "classified_fields_filtered" = false \/
  (exists v, dict_get item "classified_fields_filtered" = Some v /\ truthy v = false) ->
  fst (Ocean._fix_item item) = item /\
  (dict_has item "category" = true -> snd (Ocean._fix_item item) = None).
Proof.
  intros H. unfold Ocean._fix_item.
  destruct (dict_get item "category") as [category|] eqn:Hcat.
  - destruct H as [H|(v & Hv & Ht)].
    + rewrite H. simpl. split; [reflexivity|]. intros _. reflexivity.
    + unfold dict_has. rewrite Hv, Ht. simpl. split; [reflexivity|]. intros _. reflexivity.
  - simpl. split; [reflexivity|]. unfold dict_has. rewrite Hcat. discriminate.
Qed.

Lemma fix_item_leaves_unfiltered_witness :
  Ocean._fix_item (Samples.issue_item 5 [Samples.comment 11 "bob" "Bob"])
    = (Samples.issue_item 5 [Samples.comment 11 "bob" "Bob"], None) /\
  Ocean._fix_item Samples.unfiltered_issue = (Samples.unfiltered_issue, None).
Proof.
  split.
  - destruct (fix_item_leaves_unfiltered
                (Samples.issue_item 5 [Samples.comment 11 "bob" "Bob"])
                (or_introl eq_refl)) as [Hs Hr].
    rewrite (surjective_pairing (Ocean._fix_item _)), Hs, (Hr eq_refl). reflexivity.
  - destruct (fix_item_leaves_unfiltered Samples.unfiltered_issue
                (or_intror (ex_intro _ VNone (conj eq_refl eq_refl)))) as [Hs Hr].
    rewrite (surjective_pairing (Ocean._fix_item _)), Hs, (Hr eq_refl). reflexivity.
Defined.

(** When the mark is there, [_fix_item] does rewrite the user records: the
    name of the commenter gives way to the login. *)
Example fix_item_rewrites_filtered :
  snd (Ocean._fix_item Samples.filtered_issue) = None /\
  fst (Ocean._fix_item Samples.filtered_issue) <> Samples.filtered_issue /\
  rbind (dict_sub (fst (Ocean._fix_item Samples.filtered_issue)) "data") (fun data =>
  rbind (subscript data "comments_data") (fun comments =>
  match comments with
  | VList (c :: _) => subscript c "user_data"
  | _ => Raise IndexError
  end)) = Ok (Ocean.filtered_user (VStr "bob")).
Proof.
  split; [vm_compute; reflexivity|]. split; [|vm_compute; reflexivity].
  vm_compute. discriminate.
Qed.

(** C7, as written, fails: on an issue whose author also wrote the first
    comment and whose second comment comes from a user with no login and no
    username, [get_identities] yields the author twice, and yields the second
    commenter with a null username instead of skipping it. *)
Lemma identities_repeat_and_lack_username :
  Gitlink2.get_identities Samples.identities_issue =
    ([[("name", VStr "Alice"); ("email", VNone); ("username", VStr "alice")];
      [("name", VStr "Alice"); ("email", VNone); ("username", VStr "alice")];
      [("name", VStr "Anonymous"); ("email", VNone); ("username", VNone)]],
     None) /\
  AsWritten.distinct (fst (Gitlink2.get_identities Samples.identities_issue)) = false /\
  forallb AsWritten.has_username
    (fst (Gitlink2.get_identities Samples.identities_issue)) = false.
Proof. repeat split; vm_compute; reflexivity. Qed.

(** C7, amended. Take a record whose payload has the reference fields of
    its category ([author] and [assignee] for an issue, [merged_by] for a
    pull request), whose user records (the [_data] companions of these
    fields and the [user_data] of the comments) are dictionaries without a
    [data] field, and, for an issue, whose [comments_data] is absent or a
    list of comments that each have a [user_data]. On it [get_identities]
    yields one identity tuple per reference to an actor, in the order of the
    references: for an issue the author and the assignee, each if the field
    is not empty and has its record, then the user of every comment; for a
    pull request the user who merged it. Only an empty user record is
    skipped. An actor referred to twice is yielded twice, and the tuple is
    made by [identity_of]: a record with neither username nor login gives a
    tuple with a null username.

    Where a reference field is missing the generator raises [KeyError] for
    it after what it yielded before: an issue without [author] yields
    nothing, an issue without [assignee] yields at most its author and none
    of its commenters, a pull request without [merged_by] yields nothing.
    A comment whose [user_data] cannot be read stops the generator, after
    the identities of the author, the assignee and the commenters before
    it. *)
Theorem identities_per_reference :
  (forall (item d : dict) (author assignee : value)
          (author_data assignee_data : option dict)
          (comments : list value) (commenters : list dict),
     dict_get item "category" = Some (VStr "issue") ->
     dict_get item "data" = Some (VDict d) ->
     dict_get d "author" = Some author ->
     dict_get d "author_data" = option_map VDict author_data ->
     dict_get d "assignee" = Some assignee ->
     dict_get d "assignee_data" = option_map VDict assignee_data ->
     dict_get d "comments_data" = Some (VList comments) \/
       dict_get d "comments_data" = None /\ comments = [] ->
     Forall2 (fun c u => subscript c "user_data" = Ok (VDict u)) comments commenters ->
     Forall (fun u => dict_has u "data" = false)
       (AsWritten.referenced author author_data
        ++ AsWritten.referenced assignee assignee_data ++ commenters) ->
     Gitlink2.get_identities item =
       (map AsWritten.identity_of
          (filter AsWritten.nonempty
             (AsWritten.referenced author author_data
              ++ AsWritten.referenced assignee assignee_data ++ commenters)),
        None)) /\
  (forall (item d : dict) (merged_by : value) (merged_by_data : option dict),
     dict_get item "category" = Some (VStr "pull_request") ->
     dict_get item "data" = Some (VDict d) ->
     dict_get d "merged_by" = Some merged_by ->
     dict_get d "merged_by_data" = option_map VDict merged_by_data ->
     Forall (fun u => dict_has u "data" = false)
       (AsWritten.referenced merged_by merged_by_data) ->
     Gitlink2.get_identities item =
       (map AsWritten.identity_of
          (filter AsWritten.nonempty (AsWritten.referenced merged_by merged_by_data)),
        None)) /\
  (forall (item d : dict),
     dict_get item "category" = Some (VStr "issue") ->
     dict_get item "data" = Some (VDict d) ->
     dict_get d "author" = None ->
     Gitlink2.get_identities item = ([], Some (KeyError "author"))) /\
  (forall (item d : dict) (author : value) (author_data : option dict),
     dict_get item "category" = Some (VStr "issue") ->
     dict_get item "data" = Some (VDict d) ->
     dict_get d "author" = Some author ->
     dict_get d "author_data" = option_map VDict author_data ->
     dict_get d "assignee" = None ->
     Forall (fun u => dict_has u "data" = false)
       (AsWritten.referenced author author_data) ->
     Gitlink2.get_identities item =
       (map AsWritten.identity_of
          (filter AsWritten.nonempty (AsWritten.referenced author author_data)),
        Some (KeyError "assignee"))) /\
  (forall (item d : dict),
     dict_get item "category" = Some (VStr "pull_request") ->
     dict_get item "data" = Some (VDict d) ->
     dict_get d "merged_by" = None ->
     Gitlink2.get_identities item = ([], Some (KeyError "merged_by"))) /\
  (forall (item d : dict) (author assignee : value)
          (author_data assignee_data : option dict)
          (before : list value) (commenters : list dict)
          (comment : value) (after : list value) (e : exn),
     dict_get item "category" = Some (VStr "issue") ->
     dict_get item "data" = Some (VDict d) ->
     dict_get d "author" = Some author ->
     dict_get d "author_data" = option_map VDict author_data ->
     dict_get d "assignee" = Some assignee ->
     dict_get d "assignee_data" = option_map VDict assignee_data ->
     dict_get d "comments_data" = Some (VList (before ++ comment :: after)) ->
     Forall2 (fun c u => subscript c "user_data" = Ok (VDict u)) before commenters ->
     subscript comment "user_data" = Raise e ->
     Forall (fun u => dict_has u "data" = false)
       (AsWritten.referenced author author_data
        ++ AsWritten.referenced assignee assignee_data ++ commenters) ->
     Gitlink2.get_identities item =
       (map AsWritten.identity_of
          (filter AsWritten.nonempty
             (AsWritten.referenced author author_data
              ++ AsWritten.referenced assignee assignee_data ++ commenters)),
        Some e)).
Proof.
  repeat apply conj.
  - intros item d author assignee author_data assignee_data comments commenters
      Hcat Hdata Ha Had Hs Hsd Hc Hcs Hall.
    apply Forall_app in Hall. destruct Hall as [H1 Hall].
    apply Forall_app in Hall. destruct Hall as [H2 H3].
    unfold Gitlink2.get_identities. rewrite Hcat, Hdata.
    cbn [py_eq String.eqb Ascii.eqb Bool.eqb].
    rewrite (IdentityFacts.yield_identity_type d "author" _ author author_data Ha Had H1).
    rewrite (IdentityFacts.yield_identity_type d "assignee" _ assignee assignee_data
               Hs Hsd H2).
    cbn [Gitlink2.yield_identity_types]. unfold py_get.
    assert (Hget : match dict_get d "comments_data" with
                   | Some x => x | None => VList [] end = VList comments).
    { destruct Hc as [-> | [-> ->]]; reflexivity. }
    rewrite Hget. cbn [rbind py_iter].
    rewrite (IdentityFacts.yield_commenters_records comments commenters Hcs H3).
    unfold Gitlink2.gen_then. cbn [fst snd].
    rewrite !filter_app, !map_app, app_nil_r, <- app_assoc. reflexivity.
  - intros item d merged_by merged_by_data Hcat Hdata Hm Hmd Hall.
    unfold Gitlink2.get_identities. rewrite Hcat, Hdata.
    cbn [py_eq String.eqb Ascii.eqb Bool.eqb].
    rewrite (IdentityFacts.yield_identity_type d "merged_by" _ merged_by merged_by_data
               Hm Hmd Hall).
    cbn [Gitlink2.yield_identity_types py_get_none rbind py_iter Gitlink2.yield_commenters].
    unfold Gitlink2.gen_then. cbn [fst snd]. rewrite !app_nil_r. reflexivity.
  - intros item d Hcat Hdata Ha.
    unfold Gitlink2.get_identities. rewrite Hcat, Hdata.
    cbn [py_eq String.eqb Ascii.eqb Bool.eqb].
    rewrite (IdentityStops.yield_identity_type_missing d "author" _ Ha). reflexivity.
  - intros item d author author_data Hcat Hdata Ha Had Hs Hall.
    unfold Gitlink2.get_identities. rewrite Hcat, Hdata.
    cbn [py_eq String.eqb Ascii.eqb Bool.eqb].
    rewrite (IdentityFacts.yield_identity_type d "author" _ author author_data Ha Had Hall).
    rewrite (IdentityStops.yield_identity_type_missing d "assignee" _ Hs).
    unfold Gitlink2.gen_then. cbn [fst snd]. rewrite !app_nil_r. reflexivity.
  - intros item d Hcat Hdata Hm.
    unfold Gitlink2.get_identities. rewrite Hcat, Hdata.
    cbn [py_eq String.eqb Ascii.eqb Bool.eqb].
    rewrite (IdentityStops.yield_identity_type_missing d "merged_by" _ Hm). reflexivity.
  - intros item d author assignee author_data assignee_data before commenters
      comment after e Hcat Hdata Ha Had Hs Hsd Hc Hcs He Hall.
    apply Forall_app in Hall. destruct Hall as [H1 Hall].
    apply Forall_app in Hall. destruct Hall as [H2 H3].
    unfold Gitlink2.get_identities. rewrite Hcat, Hdata.
    cbn [py_eq String.eqb Ascii.eqb Bool.eqb].
    rewrite (IdentityFacts.yield_identity_type d "author" _ author author_data Ha Had H1).
    rewrite (IdentityFacts.yield_identity_type d "assignee" _ assignee assignee_data
               Hs Hsd H2).
    cbn [Gitlink2.yield_identity_types]. unfold py_get. rewrite Hc.
    cbn [rbind py_iter].
    rewrite (IdentityStops.yield_commenters_stop before commenters comment after e
               Hcs H3 He).
    unfold Gitlink2.gen_then. cbn [fst snd].
    rewrite !filter_app, !map_app, app_nil_r, <- app_assoc. reflexivity.
Qed.

Lemma identities_per_reference_witness :
  Gitlink2.get_identities Samples.identities_issue =
    (map AsWritten.identity_of
       [[("login", VStr "alice"); ("name", VStr "Alice")];
        [("login", VStr "alice"); ("name", VStr "Alice")];
        [("name", VStr "Anonymous")]],
     None) /\
  Gitlink2.get_identities Cases.no_assignee_issue =
    (map AsWritten.identity_of [[("login", VStr "alice"); ("name", VStr "Alice")]],
     Some (KeyError "assignee")).
Proof.
  split.
  - apply (proj1 identities_per_reference Samples.identities_issue
             Samples.identities_data
             (Samples.user "alice" "Alice") VNone
             (Some [("login", VStr "alice"); ("name", VStr "Alice")]) None
             [Samples.comment 11 "alice" "Alice";
              VDict [("id", VInt 12); ("user_data", VDict [("name", VStr "Anonymous")])]]
             [[("login", VStr "alice"); ("name", VStr "Alice")];
              [("name", VStr "Anonymous")]]);
      try reflexivity; [left; reflexivity|repeat constructor..].
  - apply (proj1 (proj2 (proj2 (proj2 identities_per_reference)))
             Cases.no_assignee_issue
             (dict_remove Samples.identities_data "assignee")
             (Samples.user "alice" "Alice")
             (Some [("login", VStr "alice"); ("name", VStr "Alice")]));
      try reflexivity; repeat constructor.
Defined.

(** C4. The specification has an issue with N comments enriched into 1 + N
    records, each comment record under the identifier
    [<issue id>_issue_comment_<comment id>]; the code sets out to do so and
    fails. An issue without comments is enriched into one record. An issue
    with one comment is not enriched into two: [get_rich_issue_comments] reads
    [eitem["issue_url"]], a field [__get_rich_issue] no longer sets, and
    raises [KeyError]; the exception leaves [enrich_items], so the run ends
    there with nothing handed to the sink. *)
Theorem issue_comment_fan_out_raises :
  (exists eitem, snd Samples.run_issue_plain = Ok [eitem] /\
                 dict_get eitem "id" = Some (VInt 7) /\
                 dict_get eitem "issue_url" = None) /\
  Samples.run_issue_commented = (mkWorld 1 [], Raise (KeyError "issue_url")) /\
  Gitlink2.enrich_items SampleHost.host SampleHost.writes_all
    [Samples.issue_item 5 [Samples.comment 11 "bob" "Bob"]] world0
    = (mkWorld 1 [], Raise (KeyError "issue_url")).
Proof.
  split; [|split; vm_compute; reflexivity].
  eexists. split; [vm_compute; reflexivity|]. split; vm_compute; reflexivity.
Qed.

(** When the payload of the issue has no [user] field beside [author], the
    comments stop the enrichment of the issue itself:
    [get_num_of_comments_without_bot] reads [item["user"]]. *)
Example issue_without_user_raises :
  Gitlink2.enrich_one SampleHost.host Samples.issue_without_user world0
    = (world0, Raise (KeyError "user")).
Proof. vm_compute. reflexivity. Qed.

(** This does not depend on the sample host: with any host that leaves
    [issue_url] alone and does not copy it from the raw item, an issue that is
    enriched at all is enriched into one record, so an issue with comments is
    never enriched into more. *)
Corollary issue_enriched_alone (E : Env) (item : dict) (w w' : world)
  (group : list dict) :
  Behaviour.host_leaves E ["issue_url"] ->
  Behaviour.decorators_leave E ["issue_url"] ->
  dict_get (copy_raw_fields E (RAW_FIELDS_COPY E) item []) "issue_url" = None ->
  dict_get item "category" = Some (VStr "issue") ->
  Gitlink2.enrich_one E item w = (w', Ok group) ->
  exists eitem, group = [eitem].
Proof. intros L D. apply Frames.v2_issue_alone; assumption. Qed.

(* ===================================================================== *)
(** * Further properties of the code *)
(* ===================================================================== *)

(** ** Pull requests and aborted runs *)

(** X1. [GitlinkEnrich2] enriches no pull request. [__get_rich_pull] ends by
    removing the field [is_gitlink2_pull_request] from the record it built,
    but the call that would add the field is commented out; unless the host
    copies the field from the raw item or adds it with the project fields,
    the removal raises, and the turn of the loop for the item raises with it,
    leaving the world as it was. *)
Theorem pull_request_never_enriched (E : Env) (item : dict) (w : world) :
  (forall d p, get_item_project E d = Ok p ->
               dict_get p "is_gitlink2_pull_request" = None) ->
  dict_get (copy_raw_fields E (RAW_FIELDS_COPY E) item []) "is_gitlink2_pull_request"
    = None ->
  dict_get item "category" = Some (VStr "pull_request") ->
  exists e, Gitlink2.enrich_one E item w = (w, Raise e).
Proof.
  intros P Hraw Hcat. exact (Pulls.enrich_one_pull_raises E P item w Hcat Hraw).
Qed.

Lemma pull_request_never_enriched_witness :
  exists e, Gitlink2.enrich_one SampleHost.host Cases.pull_item world0 = (world0, Raise e).
Proof.
  apply (pull_request_never_enriched SampleHost.host Cases.pull_item world0).
  - intros d p H. injection H as <-. reflexivity.
  - reflexivity.
  - reflexivity.
Defined.

(** X2. So a source with a pull request in it is not enriched to its end:
    [enrich_items] raises, whatever the other items and the sink are. *)
Theorem run_with_pull_request_aborts (E : Env) (sink : Sink) (items : list dict)
  (item : dict) (w : world) :
  (forall d p, get_item_project E d = Ok p ->
               dict_get p "is_gitlink2_pull_request" = None) ->
  In item items ->
  dict_get item "category" = Some (VStr "pull_request") ->
  dict_get (copy_raw_fields E (RAW_FIELDS_COPY E) item []) "is_gitlink2_pull_request"
    = None ->
  exists w' e, Gitlink2.enrich_items E sink items w = (w', Raise e).
Proof.
  intros P Hin Hcat Hraw. rewrite Loop.enrich_items_run.
  destruct (Pulls.enrich_loop_raises E sink items item Hin
              (fun w0 => Pulls.enrich_one_pull_raises E P item w0 Hcat Hraw) [] 0 0 w)
    as (w' & e & ->).
  exists w', e. reflexivity.
Qed.

Lemma run_with_pull_request_aborts_witness :
  exists w' e,
    Gitlink2.enrich_items SampleHost.host SampleHost.writes_all
      Cases.source_with_pull world0 = (w', Raise e).
Proof.
  apply (run_with_pull_request_aborts SampleHost.host SampleHost.writes_all
           Cases.source_with_pull Cases.pull_item world0).
  - intros d p H. injection H as <-. reflexivity.
  - right. left. reflexivity.
  - reflexivity.
  - reflexivity.
Defined.

(** X3. When [enrich_items] stops on an exception, it has logged no report,
    neither the error line nor the count of inserted items, and every batch
    it handed to the sink held 200 records or more: the records that were in
    the buffer when the exception came were never submitted. *)
Theorem aborted_run_drops_buffer (E : Env) (sink : Sink) (items : list dict)
  (w w' : world) (e : exn) :
  Gitlink2.enrich_items E sink items w = (w', Raise e) ->
  exists evs,
    trace w' = trace w ++ evs /\
    forallb (fun ev => negb (Behaviour.is_report ev)) evs = true /\
    Forall (fun batch => (200 <= List.length batch)%nat) (Gitlink2.uploads evs).
Proof.
  intros H. rewrite Loop.enrich_items_run in H.
  destruct (Gitlink2.enrich_loop E sink items [] 0 0 w) as [w1 [[[buf num] ins]|e1]] eqn:Hl;
    [discriminate|].
  injection H as <- <-.
  destruct (Loop.enrich_loop_trace E sink items _ _ _ _ _ _ Hl) as (evs & Ht & Hrep & _).
  destruct (Pulls.enrich_loop_full E sink items _ _ _ _ _ _ Hl) as (batches & Hu & Hfull).
  exists evs. split; [exact Ht|]. split; [exact Hrep|].
  rewrite Ht, Loop.uploads_app in Hu. apply app_inv_head in Hu. rewrite Hu. exact Hfull.
Qed.

Lemma aborted_run_drops_buffer_witness :
  snd Cases.run_aborting = Raise (KeyError "is_gitlink2_pull_request") /\
  map (@List.length dict) (Gitlink2.uploads (trace (fst Cases.run_aborting))) = [200%nat] /\
  exists evs,
    trace (fst Cases.run_aborting) = trace world0 ++ evs /\
    forallb (fun ev => negb (Behaviour.is_report ev)) evs = true /\
    Forall (fun batch => (200 <= List.length batch)%nat) (Gitlink2.uploads evs).
Proof.
  split; [vm_compute; reflexivity|]. split; [vm_compute; reflexivity|].
  apply (aborted_run_drops_buffer SampleHost.host SampleHost.writes_all
           Cases.source_aborting world0 (fst Cases.run_aborting)
           (KeyError "is_gitlink2_pull_request")).
  vm_compute. reflexivity.
Defined.

(** ** Reactions *)

(** X4. On an item whose [reactions] are a dictionary, [__get_reactions]
    returns, and what it returns are the reaction counts of the item under
    their enriched names: [reaction_thumb_down] for [-1],
    [reaction_thumb_up] for [+1], and [reaction_] followed by the name for
    any other. Every field it returns is the field of a reaction of the item
    other than [url], with the value of that reaction; and every reaction of
    the item other than [url] has its field. *)
Theorem reactions_are_renamed_counts (item : value) (r : dict) :
  py_get item "reactions" (VDict []) = Ok (VDict r) ->
  let field name :=
    if String.eqb name "-1" then "reaction_thumb_down"
    else if String.eqb name "+1" then "reaction_thumb_up"
    else ("reaction_" ++ name)%string in
  exists item' reactions,
    Gitlink2.__get_reactions item = Ok (item', reactions) /\
    (forall k v, dict_get reactions k = Some v ->
       exists name, In (name, v) r /\ name <> "url" /\ k = field name) /\
    (forall name, In name (dict_keys r) -> name <> "url" ->
       dict_has reactions (field name) = true).
Proof.
  intros H field.
  assert (Hf : forall name,
             ("reaction_" ++ Gitlink2.reaction_name name)%string = field name).
  { intros name. unfold field, Gitlink2.reaction_name.
    destruct (String.eqb name "-1"); [reflexivity|].
    destruct (String.eqb name "+1"); reflexivity. }
  destruct (ReactionFacts.get_reactions_of_dict item r H) as (item' & Hr & _).
  exists item'. eexists. split; [exact Hr|]. split.
  - intros k v Hk. apply ReactionFacts.reactions_fold_sound in Hk.
    destruct Hk as [Hk|(name & Hin & ->)]; [discriminate|].
    apply ReactionFacts.In_dict_remove in Hin. destruct Hin as [Hin Hne].
    exists name. split; [exact Hin|]. split; [exact Hne|]. apply Hf.
  - intros name Hin Hne. rewrite <- Hf. apply ReactionFacts.reactions_fold_complete. right.
    unfold dict_keys in *. apply in_map_iff in Hin. destruct Hin as ([n v] & Hn & Hin).
    simpl in Hn. subst n. apply in_map_iff. exists (name, v). split; [reflexivity|].
    apply ReactionFacts.In_dict_remove. split; assumption.
Qed.

Lemma reactions_are_renamed_counts_witness :
  Gitlink2.__get_reactions Cases.reacted
  = Ok (VDict [("id", VInt 11);
               ("reactions", VDict [("+1", VInt 2); ("-1", VInt 1); ("heart", VInt 0)])],
        [("reaction_thumb_up", VInt 2); ("reaction_thumb_down", VInt 1);
         ("reaction_heart", VInt 0)]) /\
  exists item' reactions,
    Gitlink2.__get_reactions Cases.reacted = Ok (item', reactions) /\
    (forall k v, dict_get reactions k = Some v ->
       exists name,
         In (name, v) [("url", VStr "https://www.gitlink.org.cn/api/reactions/11");
                       ("+1", VInt 2); ("-1", VInt 1); ("heart", VInt 0)] /\
         name <> "url" /\
         k = if String.eqb name "-1" then "reaction_thumb_down"
             else if String.eqb name "+1" then "reaction_thumb_up"
             else ("reaction_" ++ name)%string) /\
    (forall name,
       In name (dict_keys [("url", VStr "https://www.gitlink.org.cn/api/reactions/11");
                           ("+1", VInt 2); ("-1", VInt 1); ("heart", VInt 0)]) ->
       name <> "url" ->
       dict_has reactions
         (if String.eqb name "-1" then "reaction_thumb_down"
          else if String.eqb name "+1" then "reaction_thumb_up"
          else ("reaction_" ++ name)%string) = true).
Proof.
  split; [vm_compute; reflexivity|].
  apply (reactions_are_renamed_counts Cases.reacted). reflexivity.
Defined.

(** X5. [__get_reactions] changes the item it is given, and only the first
    time: the item it leaves has no [url] among its reactions, and a second
    call on that item returns the same reactions and leaves the item as it
    is. *)
Theorem reactions_twice (item item' : value) (reactions : dict) :
  Gitlink2.__get_reactions item = Ok (item', reactions) ->
  Gitlink2.__get_reactions item' = Ok (item', reactions) /\
  (forall r', py_get item' "reactions" (VDict []) = Ok (VDict r') -> dict_get r' "url" = None).
Proof.
  intros H. destruct (ReactionFacts.get_reactions_is_dict _ _ _ H) as [r Hr].
  destruct (ReactionFacts.get_reactions_of_dict item r Hr) as (i1 & H1 & Hg & Hi).
  rewrite H1 in H. injection H as <- <-.
  destruct (ReactionFacts.get_reactions_of_dict i1 _ Hg) as (i2 & H2 & _ & Hi2).
  rewrite ReactionFacts.dict_remove_twice in H2. split.
  - rewrite H2. f_equal. f_equal.
    destruct i1 as [| | | | | |d1|]; try exact Hi2.
    destruct (dict_has d1 "reactions") eqn:Hh; [|exact Hi2]. rewrite Hi2.
    rewrite ReactionFacts.dict_remove_twice. f_equal.
    apply ReactionFacts.dict_set_present.
    cbn [py_get] in Hg. unfold dict_has in Hh.
    destruct (dict_get d1 "reactions"); [|discriminate]. injection Hg as ->. reflexivity.
  - intros r' Hr'. rewrite Hg in Hr'. injection Hr' as <-.
    rewrite DictFacts.dict_get_remove. reflexivity.
Qed.

Lemma reactions_twice_witness :
  exists item' reactions,
    Gitlink2.__get_reactions Cases.reacted = Ok (item', reactions) /\
    item' <> Cases.reacted /\
    Gitlink2.__get_reactions item' = Ok (item', reactions) /\
    (forall r', py_get item' "reactions" (VDict []) = Ok (VDict r') ->
                dict_get r' "url" = None).
Proof.
  do 2 eexists. split; [vm_compute; reflexivity|]. split; [discriminate|].
  apply (reactions_twice Cases.reacted). vm_compute. reflexivity.
Defined.

(** ** The parameters of a repository URL *)

(** X6. [get_perceval_params_from_url] returns the owner and the repository
    of a URL: the last two fields between slashes of what stands before the
    first space, the filter after the space being left out even when it has
    slashes of its own. *)
Theorem perceval_params_of_url (prefix owner repository rest : string) :
  prefix = "" \/ (exists base, prefix = (base ++ "/")%string) ->
  has_char " " prefix = false ->
  has_char " " owner = false -> has_char "/" owner = false ->
  has_char " " repository = false -> has_char "/" repository = false ->
  rest = "" \/ (exists filter, rest = String " " filter) ->
  Ocean.get_perceval_params_from_url (prefix ++ owner ++ "/" ++ repository ++ rest)
    = Ok [owner; repository].
Proof.
  intros Hp Hsp Hso Ho Hsr Hr Hrest. unfold Ocean.get_perceval_params_from_url.
  replace (prefix ++ owner ++ "/" ++ repository ++ rest)%string
    with ((prefix ++ owner ++ "/" ++ repository) ++ rest)%string
    by (rewrite !UrlFacts.append_assoc; reflexivity).
  rewrite UrlFacts.before_filter;
    [|rewrite !UrlFacts.has_char_app, Hsp, Hso, Hsr; reflexivity|exact Hrest].
  assert (Hs : split_on "/" (owner ++ "/" ++ repository)%string = [owner; repository]).
  { change (owner ++ "/" ++ repository)%string with (owner ++ String "/" repository)%string.
    rewrite UrlFacts.split_on_app, !UrlFacts.split_on_field by assumption. reflexivity. }
  destruct Hp as [-> | [base ->]].
  - change ("" ++ owner ++ "/" ++ repository)%string
      with (owner ++ "/" ++ repository)%string.
    rewrite Hs. reflexivity.
  - replace ((base ++ "/") ++ owner ++ "/" ++ repository)%string
      with (base ++ String "/" (owner ++ "/" ++ repository))%string
      by (rewrite UrlFacts.append_assoc; reflexivity).
    rewrite UrlFacts.split_on_app, Hs. unfold index_from_end.
    rewrite rev_app_distr. reflexivity.
Qed.

Lemma perceval_params_of_url_witness :
  Ocean.get_perceval_params_from_url
    "https://www.gitlink.org.cn/owner/repo --filter-raw=data.x:y/z" = Ok ["owner"; "repo"].
Proof.
  apply (perceval_params_of_url "https://www.gitlink.org.cn/" "owner" "repo"
           " --filter-raw=data.x:y/z");
    try reflexivity.
  - right. exists "https://www.gitlink.org.cn". reflexivity.
  - right. eexists. reflexivity.
Defined.

(** X7. On a URL that has no slash before its first space,
    [get_perceval_params_from_url] raises [IndexError]: there is no field
    before the last one to take the owner from. *)
Theorem perceval_params_need_a_slash (url rest : string) :
  has_char " " url = false -> has_char "/" url = false ->
  rest = "" \/ (exists filter, rest = String " " filter) ->
  Ocean.get_perceval_params_from_url (url ++ rest) = Raise IndexError.
Proof.
  intros Hs Hu Hrest. unfold Ocean.get_perceval_params_from_url.
  rewrite UrlFacts.before_filter by assumption.
  rewrite UrlFacts.split_on_field by assumption. reflexivity.
Qed.

Lemma perceval_params_need_a_slash_witness :
  Ocean.get_perceval_params_from_url "repo --filter-raw=data.x:y/z" = Raise IndexError.
Proof.
  apply (perceval_params_need_a_slash "repo" " --filter-raw=data.x:y/z"); try reflexivity.
  right. eexists. reflexivity.
Defined.

(** ** The fix of filtered items and the identities *)

(** X8. Whatever its outcome, [_fix_item] writes nothing but user records:
    of the item it changes the payload [data] only, and in the payload the
    fields [author_data], [assignee_data], [merge_by_data] and
    [comments_data] only. *)
Theorem fix_item_writes_user_data_only (item : dict) (data : value) (k : string) :
  dict_get item "data" = Some data ->
  Behaviour.mem k ["author_data"; "assignee_data"; "merge_by_data"; "comments_data"] = false ->
  (forall k', k' <> "data" ->
     dict_get (fst (Ocean._fix_item item)) k' = dict_get item k') /\
  exists data',
    dict_get (fst (Ocean._fix_item item)) "data" = Some data' /\
    subscript data' k = subscript data k.
Proof.
  intros Hd Hk.
  destruct (FixFrame.fix_item_frame item data k Hd Hk) as [-> | (data' & -> & Hs)].
  - split; [reflexivity|]. exists data. split; [exact Hd|reflexivity].
  - split.
    + intros k' Hne. rewrite DictFacts.dict_get_set.
      destruct (String.eqb "data" k') eqn:He; [|reflexivity].
      apply String.eqb_eq in He. congruence.
    + exists data'. split; [apply DictFacts.dict_get_set_same|exact Hs].
Qed.

Lemma fix_item_writes_user_data_only_witness :
  fst (Ocean._fix_item Cases.private_issue) <> Cases.private_issue /\
  (forall k', k' <> "data" ->
     dict_get (fst (Ocean._fix_item Cases.private_issue)) k'
       = dict_get Cases.private_issue k') /\
  exists data',
    dict_get (fst (Ocean._fix_item Cases.private_issue)) "data" = Some data' /\
    subscript data' "title" = subscript Cases.private_data "title".
Proof.
  split; [vm_compute; discriminate|].
  apply (fix_item_writes_user_data_only Cases.private_issue Cases.private_data "title");
    reflexivity.
Defined.

(** X9. After [_fix_item] has returned on an issue marked as filtered, the
    identities [GitlinkEnrich2.get_identities] yields for the issue carry no
    personal field: each is made of a login alone, which stands for the name
    and for the username, with no e-mail address. This holds for the author,
    the assignee and the commenters alike. *)
Theorem filtered_issue_identities (item item' : dict) (flag : value)
  (ids : list dict) (stop : option exn) :
  dict_get item "category" = Some (VStr "issue") ->
  dict_get item "classified_fields_filtered" = Some flag -> truthy flag = true ->
  Ocean._fix_item item = (item', None) ->
  Gitlink2.get_identities item' = (ids, stop) ->
  Forall (fun id => exists login, id = Privacy.identity_v2 login) ids.
Proof.
  intros Hcat Hflag Ht Hfix Hids.
  destruct (PrivacyFacts.fix_item_masks item item' _ flag Hcat Hflag Ht Hfix)
    as (d' & -> & Hm & Hc).
  unfold Gitlink2.get_identities in Hids.
  rewrite DictFacts.dict_get_set, DictFacts.dict_get_set_same in Hids.
  cbn [String.eqb Ascii.eqb Bool.eqb] in Hids. rewrite Hcat in Hids.
  cbn [py_eq String.eqb Ascii.eqb Bool.eqb] in Hids, Hm, Hc.
  assert (H : Forall (fun id => exists h, Privacy.any h /\ id = Privacy.identity_v2 h) ids).
  { replace ids with (fst (ids, stop)) by reflexivity. rewrite <- Hids.
    apply PrivacyFacts.gen_then_Forall.
    - apply PrivacyFacts.yield_types_masked. exact Hm.
    - specialize (Hc eq_refl).
      destruct (rbind (py_get (VDict d') "comments_data" (VList [])) py_iter) as [cs|];
        [|constructor].
      apply PrivacyFacts.yield_commenters_masked. apply Hc. reflexivity. }
  eapply Forall_impl; [|exact H]. intros id (h & _ & ->). exists h. reflexivity.
Qed.

Lemma filtered_issue_identities_witness :
  fst (Gitlink2.get_identities (fst (Ocean._fix_item Cases.private_issue)))
    = [Privacy.identity_v2 (VStr "alice"); Privacy.identity_v2 (VStr "bob");
       Privacy.identity_v2 (VStr "carol")] /\
  Forall (fun id => exists login, id = Privacy.identity_v2 login)
    (fst (Gitlink2.get_identities (fst (Ocean._fix_item Cases.private_issue)))).
Proof.
  split; [vm_compute; reflexivity|].
  apply (filtered_issue_identities Cases.private_issue
           (fst (Ocean._fix_item Cases.private_issue))
           (VList [VStr "user_data"])
           (fst (Gitlink2.get_identities (fst (Ocean._fix_item Cases.private_issue))))
           (snd (Gitlink2.get_identities (fst (Ocean._fix_item Cases.private_issue)))));
    vm_compute; reflexivity.
Defined.

(** X10. For a pull request, [_fix_item] does not reach what
    [GitlinkEnrich2.get_identities] reads. The fix writes the record of the
    merger to [merge_by_data]; the identities are taken from [merged_by] and
    [merged_by_data]. So the identities of a pull request are the same after
    the fix as before it, personal fields included. *)
Theorem fix_item_misses_merger (item : dict) :
  dict_get item "category" = Some (VStr "pull_request") ->
  Gitlink2.get_identities (fst (Ocean._fix_item item)) = Gitlink2.get_identities item.
Proof.
  intros Hcat. destruct (dict_get item "data") as [data|] eqn:Hd.
  - assert (Hsame : forall x,
      Gitlink2.yield_identity_types x ["merged_by"] =
        Gitlink2.yield_identity_types data ["merged_by"] ->
      py_get_none x (VList []) = py_get_none data (VList []) ->
      Gitlink2.get_identities (dict_set item "data" x) = Gitlink2.get_identities item).
    { intros x Hy Hg. unfold Gitlink2.get_identities.
      rewrite DictFacts.dict_get_set, DictFacts.dict_get_set_same.
      cbn [String.eqb Ascii.eqb Bool.eqb]. rewrite Hcat, Hd.
      cbn [py_eq String.eqb Ascii.eqb Bool.eqb]. rewrite Hy, Hg. reflexivity. }
    destruct (PullFacts.fix_item_pull item data Hcat Hd) as [-> | [-> | [m ->]]].
    + reflexivity.
    + apply Hsame; reflexivity.
    + apply Hsame; apply PullFacts.merger_reads_same.
  - unfold Ocean._fix_item. rewrite Hcat, Hd.
    match goal with |- context [if ?c then _ else _] => destruct c end; reflexivity.
Qed.

Lemma fix_item_misses_merger_witness :
  fst (Ocean._fix_item Cases.filtered_pull) <> Cases.filtered_pull /\
  fst (Gitlink2.get_identities Cases.filtered_pull)
    = [[("name", VStr "Bob"); ("email", VStr "bob@example.org");
        ("username", VStr "bob")]] /\
  Gitlink2.get_identities (fst (Ocean._fix_item Cases.filtered_pull))
    = Gitlink2.get_identities Cases.filtered_pull.
Proof.
  split; [vm_compute; discriminate|]. split; [vm_compute; reflexivity|].
  apply (fix_item_misses_merger Cases.filtered_pull). reflexivity.
Defined.

(** X11. [GitlinkEnrich.get_identities], which reads [merge_by], agrees with
    the fix: after [_fix_item] has returned on an item marked as filtered, of
    any category, every identity it yields is made of a login alone. *)
Theorem filtered_identities_v1 (item item' : dict) (category flag : value)
  (ids : list dict) (stop : option exn) :
  dict_get item "category" = Some category ->
  dict_get item "classified_fields_filtered" = Some flag -> truthy flag = true ->
  Ocean._fix_item item = (item', None) ->
  Gitlink.get_identities item' = (ids, stop) ->
  Forall (fun id => exists login, id = Privacy.identity_v1 login) ids.
Proof.
  intros Hcat Hflag Ht Hfix Hids.
  destruct (PrivacyFacts.fix_item_masks item item' _ flag Hcat Hflag Ht Hfix)
    as (d' & -> & Hm & _).
  unfold Gitlink.get_identities in Hids.
  rewrite DictFacts.dict_get_set, DictFacts.dict_get_set_same in Hids.
  cbn [String.eqb Ascii.eqb Bool.eqb] in Hids. rewrite Hcat in Hids.
  assert (H : Forall (fun id => exists h, Privacy.any h /\ id = Privacy.identity_v1 h) ids).
  { replace ids with (fst (ids, stop)) by reflexivity. rewrite <- Hids.
    apply PrivacyFacts.v1_yield_types_masked. exact Hm. }
  eapply Forall_impl; [|exact H]. intros id (h & _ & ->). exists h. reflexivity.
Qed.

Lemma filtered_identities_v1_witness :
  fst (Gitlink.get_identities (fst (Ocean._fix_item Cases.filtered_pull)))
    = [Privacy.identity_v1 (VStr "bob")] /\
  Forall (fun id => exists login, id = Privacy.identity_v1 login)
    (fst (Gitlink.get_identities (fst (Ocean._fix_item Cases.filtered_pull)))).
Proof.
  split; [vm_compute; reflexivity|].
  apply (filtered_identities_v1 Cases.filtered_pull
           (fst (Ocean._fix_item Cases.filtered_pull))
           (VStr "pull_request") (VList [VStr "user_data"])
           (fst (Gitlink.get_identities (fst (Ocean._fix_item Cases.filtered_pull))))
           (snd (Gitlink.get_identities (fst (Ocean._fix_item Cases.filtered_pull)))));
    vm_compute; reflexivity.
Defined.

(** X12. After [anonymize_item] has returned, the identities
    [GitlinkEnrich2.get_identities] yields for the item tell nothing but
    hashes: the name and the username of each are one and the same output of
    the hash, and there is no e-mail address. This holds for issues (author,
    assignee, commenters), for pull requests (merger) and for every hash. *)
Theorem anonymized_identities (_hash : value -> result value) (item item' : dict)
  (ids : list dict) (stop : option exn) :
  Identities.anonymize_item _hash item = (item', None) ->
  Gitlink2.get_identities item' = (ids, stop) ->
  Forall (fun id => exists login h, _hash login = Ok h /\ id = Privacy.identity_v2 h) ids.
Proof.
  intros Hanon Hids.
  destruct (AnonFacts.anonymize_item_masks _hash item item' Hanon)
    as (category & d' & Hcat & -> & Hm & Hc).
  unfold Gitlink2.get_identities in Hids.
  rewrite DictFacts.dict_get_set, DictFacts.dict_get_set_same in Hids.
  cbn [String.eqb Ascii.eqb Bool.eqb] in Hids. rewrite Hcat in Hids.
  assert (H : Forall (fun id => exists h, Privacy.hashes _hash h /\ id = Privacy.identity_v2 h)
                ids).
  { replace ids with (fst (ids, stop)) by reflexivity. rewrite <- Hids.
    destruct (py_eq category (VStr "issue")) eqn:Hi;
      [|destruct (py_eq category (VStr "pull_request"))].
    all: apply PrivacyFacts.gen_then_Forall;
      [apply PrivacyFacts.yield_types_masked; exact Hm|].
    - specialize (Hc eq_refl).
      destruct (rbind (py_get (VDict d') "comments_data" (VList [])) py_iter) as [cs|];
        [|constructor].
      apply PrivacyFacts.yield_commenters_masked. apply Hc. reflexivity.
    - constructor.
    - constructor. }
  eapply Forall_impl; [|exact H].
  intros id (h & (login & Hh) & ->). exists login, h. split; [exact Hh|reflexivity].
Qed.

Lemma anonymized_identities_witness :
  fst (Gitlink2.get_identities
         (fst (Identities.anonymize_item Cases.sample_hash Cases.private_issue)))
    = [Privacy.identity_v2 (VStr "sha1:alice"); Privacy.identity_v2 (VStr "sha1:bob");
       Privacy.identity_v2 (VStr "sha1:carol")] /\
  Forall (fun id => exists login h,
            Cases.sample_hash login = Ok h /\ id = Privacy.identity_v2 h)
    (fst (Gitlink2.get_identities
            (fst (Identities.anonymize_item Cases.sample_hash Cases.private_issue)))).
Proof.
  split; [vm_compute; reflexivity|].
  apply (anonymized_identities Cases.sample_hash Cases.private_issue
           (fst (Identities.anonymize_item Cases.sample_hash Cases.private_issue))
           (fst (Gitlink2.get_identities
                   (fst (Identities.anonymize_item Cases.sample_hash Cases.private_issue))))
           (snd (Gitlink2.get_identities
                   (fst (Identities.anonymize_item Cases.sample_hash Cases.private_issue)))));
    vm_compute; reflexivity.
Defined.

(** ** Issues and pull requests among the issues *)

(** X13. [GitlinkEnrich2.__get_rich_issue] enriches every issue as an
    [issue]; whether the payload is a pull request shows in
    [issue_pull_request] alone, which is true exactly when the payload has a
    [head] or a [pull_request] field. *)
Theorem issue_kind_v2 (E : Env) (item : dict) (w w' : world) (item' rich : dict) :
  Behaviour.host_leaves E ["item_type"; "issue_pull_request"] ->
  Gitlink2.__get_rich_issue E item w = (w', Ok (item', rich)) ->
  exists d,
    dict_get item "data" = Some (VDict d) /\
    dict_get rich "item_type" = Some (VStr "issue") /\
    dict_get rich "issue_pull_request"
      = Some (VBool (dict_has d "head" || dict_has d "pull_request")).
Proof. intros L. exact (Kinds.v2_issue_kind E L item w w' item' rich). Qed.

Lemma issue_kind_v2_witness :
  dict_get (Samples.rich_v2 (Samples.issue_item 5 [])) "item_type" = Some (VStr "issue") /\
  exists d,
    dict_get (Samples.issue_item 5 []) "data" = Some (VDict d) /\
    dict_get (Samples.rich_v2 (Samples.issue_item 5 [])) "item_type"
      = Some (VStr "issue") /\
    dict_get (Samples.rich_v2 (Samples.issue_item 5 [])) "issue_pull_request"
      = Some (VBool (dict_has d "head" || dict_has d "pull_request")).
Proof.
  split; [vm_compute; reflexivity|].
  apply (issue_kind_v2 SampleHost.host (Samples.issue_item 5 []) world0
           (fst (Gitlink2.__get_rich_issue SampleHost.host (Samples.issue_item 5 []) world0))
           (Samples.issue_item 5 [])
           (Samples.rich_v2 (Samples.issue_item 5 []))).
  - apply (SampleFacts.sample_host_leaves ["item_type"; "issue_pull_request"]).
    reflexivity.
  - vm_compute. reflexivity.
Defined.

(** X14. [GitlinkEnrich.__get_rich_issue] tells the two apart in the type of
    the record: the record is an [issue] exactly when the payload has neither
    a [head] nor a [pull_request] field, and a [pull_request] otherwise, with
    the [pull_request] flag to match. *)
Theorem issue_kind_v1 (E : Env) (item : dict) (w w' : world) (rich : dict) :
  Behaviour.host_leaves E ["item_type"; "pull_request"] ->
  Gitlink.__get_rich_issue E item w = (w', Ok rich) ->
  exists d,
    dict_get item "data" = Some (VDict d) /\
    if dict_has d "head" || dict_has d "pull_request"
    then dict_get rich "item_type" = Some (VStr "pull_request") /\
         dict_get rich "pull_request" = Some (VBool true)
    else dict_get rich "item_type" = Some (VStr "issue") /\
         dict_get rich "pull_request" = Some (VBool false).
Proof. intros L. exact (Kinds.v1_issue_kind E L item w w' rich). Qed.

Lemma issue_kind_v1_witness :
  dict_get (Samples.rich_v1 (Samples.issue_item 5 [])) "item_type" = Some (VStr "issue") /\
  exists d,
    dict_get (Samples.issue_item 5 []) "data" = Some (VDict d) /\
    if dict_has d "head" || dict_has d "pull_request"
    then dict_get (Samples.rich_v1 (Samples.issue_item 5 [])) "item_type"
           = Some (VStr "pull_request") /\
         dict_get (Samples.rich_v1 (Samples.issue_item 5 [])) "pull_request"
           = Some (VBool true)
    else dict_get (Samples.rich_v1 (Samples.issue_item 5 [])) "item_type"
           = Some (VStr "issue") /\
         dict_get (Samples.rich_v1 (Samples.issue_item 5 [])) "pull_request"
           = Some (VBool false).
Proof.
  split; [vm_compute; reflexivity|].
  apply (issue_kind_v1 SampleHost.host (Samples.issue_item 5 []) world0
           (fst (Gitlink.__get_rich_issue SampleHost.host (Samples.issue_item 5 []) world0))
           (Samples.rich_v1 (Samples.issue_item 5 []))).
  - apply (SampleFacts.sample_host_leaves ["item_type"; "pull_request"]).
    reflexivity.
  - vm_compute. reflexivity.
Defined.

(** ** Dates and counts of comments *)

(** X15. What [GitlinkEnrich.get_time_to_first_attention] returns is the
    date of the earliest comment by someone other than the author of the
    issue: it is the date of such a comment, no such comment has an earlier
    date, and it is [None] exactly when every comment is the author's. *)
Theorem first_attention_is_earliest (E : Env) (item first : value) (cs : list value) :
  Gitlink.comments_data item = Ok cs ->
  Gitlink.get_time_to_first_attention E item = Ok first ->
  (first = VNone <-> Forall (fun c => Gitlink.by_another item c = Ok false) cs) /\
  forall t aware, first = VDatetime t aware ->
    (exists c created,
        In c cs /\ Gitlink.by_another item c = Ok true /\
        subscript c "created_at" = Ok created /\
        str_to_datetime E created = Ok (t, aware)) /\
    (forall c created d,
        In c cs -> Gitlink.by_another item c = Ok true ->
        subscript c "created_at" = Ok created ->
        str_to_datetime E created = Ok d -> t <= fst d).
Proof.
  intros Hcs H. unfold Gitlink.get_time_to_first_attention in H. rewrite Hcs in H.
  cbn [rbind] in H.
  destruct (Gitlink.dates_of E (Gitlink.by_another item) cs) as [ds|] eqn:Hds;
    [|discriminate].
  cbn [rbind] in H. destruct (DateFacts.dates_of_kept _ _ _ _ Hds) as [Hin Hall].
  destruct (DateFacts.py_min_date_least _ _ H) as [Hnone Hleast].
  rewrite Forall_forall in Hall. split.
  - rewrite Hnone, Forall_forall. split.
    + intros -> c Hc. destruct (Hall c Hc) as [Hf | (d & Hd)]; [exact Hf|].
      exfalso. apply (proj2 (Hin d)). exists c. split; assumption.
    + intros Hno. destruct ds as [|d ds]; [reflexivity|]. exfalso.
      destruct (proj1 (Hin d) (or_introl eq_refl)) as (c & Hc & Hk & _).
      rewrite (Hno c Hc) in Hk. discriminate.
  - intros t aware Ht. destruct (Hleast t aware Ht) as [Hm Hle]. split.
    + destruct (proj1 (Hin _) Hm) as (c & Hc & Hk & created & Hcr & Hd).
      exists c, created. repeat split; assumption.
    + intros c created d Hc Hk Hcr Hd. apply Hle. apply Hin. exists c.
      split; [exact Hc|]. split; [exact Hk|]. exists created. split; assumption.
Qed.

Lemma first_attention_is_earliest_witness :
  exists first,
    Gitlink.get_time_to_first_attention SampleHost.host Cases.discussed = Ok first /\
    (first = VNone <->
     Forall (fun c => Gitlink.by_another Cases.discussed c = Ok false) Cases.discussion) /\
    forall t aware, first = VDatetime t aware ->
      (exists c created,
          In c Cases.discussion /\ Gitlink.by_another Cases.discussed c = Ok true /\
          subscript c "created_at" = Ok created /\
          str_to_datetime SampleHost.host created = Ok (t, aware)) /\
      (forall c created d,
          In c Cases.discussion -> Gitlink.by_another Cases.discussed c = Ok true ->
          subscript c "created_at" = Ok created ->
          str_to_datetime SampleHost.host created = Ok d -> t <= fst d).
Proof.
  eexists. split; [vm_compute; reflexivity|].
  apply (first_attention_is_earliest SampleHost.host Cases.discussed _ Cases.discussion);
    vm_compute; reflexivity.
Defined.

(** X16. What [GitlinkEnrich.get_latest_comment_date] returns is the date of
    the latest comment of the pull request: it is the date of one of the
    comments, no comment has a later date, and it is [None] exactly when
    there is no comment. *)
Theorem latest_comment_is_latest (E : Env) (item latest : value) (cs : list value) :
  Gitlink.journals item = Ok cs ->
  Gitlink.get_latest_comment_date E item = Ok latest ->
  (latest = VNone <-> cs = []) /\
  forall t aware, latest = VDatetime t aware ->
    (exists c created,
        In c cs /\ subscript c "created_at" = Ok created /\
        str_to_datetime E created = Ok (t, aware)) /\
    (forall c created d,
        In c cs -> subscript c "created_at" = Ok created ->
        str_to_datetime E created = Ok d -> fst d <= t).
Proof.
  intros Hcs H. unfold Gitlink.get_latest_comment_date in H. rewrite Hcs in H.
  cbn [rbind] in H.
  destruct (Gitlink.dates_of E (fun _ => Ok true) cs) as [ds|] eqn:Hds; [|discriminate].
  cbn [rbind] in H. destruct (DateFacts.dates_of_kept _ _ _ _ Hds) as [Hin Hall].
  destruct (DateFacts.py_max_date_greatest _ _ H) as [Hnone Hgreatest].
  rewrite Forall_forall in Hall. split.
  - rewrite Hnone. split.
    + intros ->. destruct cs as [|c cs]; [reflexivity|]. exfalso.
      destruct (Hall c (or_introl eq_refl)) as [Hf | (d & Hd)]; [discriminate|].
      apply (proj2 (Hin d)). exists c. split; [left; reflexivity|exact Hd].
    + intros ->. destruct ds as [|d ds]; [reflexivity|]. exfalso.
      destruct (proj1 (Hin d) (or_introl eq_refl)) as (c & [] & _).
  - intros t aware Ht. destruct (Hgreatest t aware Ht) as [Hm Hle]. split.
    + destruct (proj1 (Hin _) Hm) as (c & Hc & _ & created & Hcr & Hd).
      exists c, created. repeat split; assumption.
    + intros c created d Hc Hcr Hd. apply (Hle d). apply Hin. exists c.
      split; [exact Hc|]. split; [reflexivity|]. exists created. split; assumption.
Qed.

Lemma latest_comment_is_latest_witness :
  exists latest,
    Gitlink.get_latest_comment_date SampleHost.host Cases.pull_data = Ok latest /\
    (latest = VNone <-> Cases.reviews = []) /\
    forall t aware, latest = VDatetime t aware ->
      (exists c created,
          In c Cases.reviews /\ subscript c "created_at" = Ok created /\
          str_to_datetime SampleHost.host created = Ok (t, aware)) /\
      (forall c created d,
          In c Cases.reviews -> subscript c "created_at" = Ok created ->
          str_to_datetime SampleHost.host created = Ok d -> fst d <= t).
Proof.
  eexists. split; [vm_compute; reflexivity|].
  apply (latest_comment_is_latest SampleHost.host Cases.pull_data _ Cases.reviews);
    vm_compute; reflexivity.
Defined.

(** X17. On an issue whose comments all have an author, the two enrichers
    agree on the first attention: [GitlinkEnrich2.get_time_to_first_attention]
    returns what [GitlinkEnrich.get_time_to_first_attention] returns, raises
    what it raises, and leaves the issue as it was. *)
Theorem first_attention_versions_agree (E : Env) (item : value) (cs : list value) :
  subscript item "comments_data" = Ok (VList cs) ->
  Forall (fun c => exists u, subscript c "user" = Ok u /\ truthy u = true) cs ->
  Gitlink2.get_time_to_first_attention E item =
    rbind (Gitlink.get_time_to_first_attention E item) (fun first => Ok (item, first)).
Proof.
  intros Hcs Husers.
  unfold Gitlink2.get_time_to_first_attention, Gitlink.get_time_to_first_attention,
    Gitlink.comments_data, Gitlink.dates_of.
  rewrite Hcs. cbn [rbind py_iter].
  rewrite (VersionFacts.first_attention_fold E item cs Husers [] []).
  match goal with
  | |- context [rfold ?f cs []] => destruct (rfold f cs []) as [ds|]; [|reflexivity]
  end.
  cbn [rbind app]. destruct (py_min_date ds) as [first|]; [|reflexivity].
  cbn [rbind]. destruct item; try discriminate Hcs. cbn [value_set subscript] in *.
  destruct (dict_get d "comments_data") as [x|] eqn:Hd; [|discriminate].
  injection Hcs as ->. rewrite (ReactionFacts.dict_set_present _ _ _ Hd). reflexivity.
Qed.

Lemma first_attention_versions_agree_witness :
  Gitlink2.get_time_to_first_attention SampleHost.host Cases.discussed =
    rbind (Gitlink.get_time_to_first_attention SampleHost.host Cases.discussed)
      (fun first => Ok (Cases.discussed, first)).
Proof.
  apply (first_attention_versions_agree SampleHost.host Cases.discussed Cases.discussion).
  - reflexivity.
  - repeat constructor; eexists; split; reflexivity.
Defined.

(** X18. [GitlinkEnrich2.get_time_to_first_attention] writes into the raw
    issue: when it returns, every comment that had no author has the ghost
    user for its [user], and the other comments, like the rest of the issue,
    are as they were. *)
Theorem first_attention_writes_ghost_users (E : Env) (item item' first : value)
  (cs : list value) :
  subscript item "comments_data" = Ok (VList cs) ->
  Gitlink2.get_time_to_first_attention E item = Ok (item', first) ->
  exists cs',
    item' = value_set item "comments_data" (VList cs') /\
    Forall2 (fun c c' =>
               exists u, subscript c "user" = Ok u /\
                 c' = if truthy u then c
                      else value_set c "user"
                             (VDict [("login", VStr "Deleted user login")]))
      cs cs'.
Proof.
  intros Hcs H. unfold Gitlink2.get_time_to_first_attention in H.
  rewrite Hcs in H. cbn [rbind py_iter] in H.
  destruct (rfold (Gitlink2.first_attention_step E item) cs ([], [])) as [[cs' ds]|] eqn:Hf;
    [|discriminate].
  cbn [rbind] in H. destruct (py_min_date ds); [|discriminate].
  cbn [rbind] in H. injection H as <- _.
  destruct (GhostFacts.first_attention_settles E item cs _ _ _ _ Hf) as (new & -> & Hnew).
  exists new. split; [reflexivity|exact Hnew].
Qed.

Lemma first_attention_writes_ghost_users_witness :
  exists item' first,
    Gitlink2.get_time_to_first_attention SampleHost.host Cases.haunted = Ok (item', first) /\
    item' <> Cases.haunted /\
    exists cs',
      item' = value_set Cases.haunted "comments_data" (VList cs') /\
      Forall2 (fun c c' =>
                 exists u, subscript c "user" = Ok u /\
                   c' = if truthy u then c
                        else value_set c "user"
                               (VDict [("login", VStr "Deleted user login")]))
        Cases.haunting cs'.
Proof.
  do 2 eexists. split; [vm_compute; reflexivity|]. split; [discriminate|].
  eapply (first_attention_writes_ghost_users SampleHost.host Cases.haunted);
    vm_compute; reflexivity.
Defined.

(** X19. [GitlinkEnrich.get_num_commenters] returns a count of the comments'
    authors that does not exceed the number of comments and is zero exactly
    when there is no comment. *)
Theorem num_commenters_bounds (item n : value) (cs : list value) :
  Gitlink.journals item = Ok cs ->
  Gitlink.get_num_commenters item = Ok n ->
  exists k, n = VInt (Z.of_nat k) /\
            (k <= List.length cs)%nat /\ (k = 0%nat <-> cs = []).
Proof.
  intros Hcs H. unfold Gitlink.get_num_commenters in H. rewrite Hcs in H.
  cbn [rbind] in H.
  match type of H with
  | rbind ?r _ = _ => destruct r as [logins|] eqn:Hl; [|discriminate]
  end.
  cbn [rbind] in H. unfold py_set_len in H.
  destruct (set_of [] logins) as [members|] eqn:Hs; [|discriminate].
  cbn [rbind] in H. injection H as <-.
  apply CountFacts.rmap_length in Hl.
  destruct (CountFacts.set_of_length _ _ _ Hs) as [Hb Hne]. simpl in Hb.
  exists (List.length members). split; [reflexivity|]. split; [lia|]. split.
  - intros H0. destruct cs as [|c cs]; [reflexivity|].
    destruct logins as [|x logins]; [discriminate Hl|].
    assert (1 <= List.length members)%nat by (apply Hne; discriminate). lia.
  - intros ->. destruct logins; [|discriminate Hl]. simpl in Hb. lia.
Qed.

Lemma num_commenters_bounds_witness :
  Gitlink.get_num_commenters Cases.pull_data = Ok (VInt 2) /\
  exists k, VInt 2 = VInt (Z.of_nat k) /\
            (k <= List.length Cases.reviews)%nat /\ (k = 0%nat <-> Cases.reviews = []).
Proof.
  split; [vm_compute; reflexivity|].
  apply (num_commenters_bounds Cases.pull_data (VInt 2) Cases.reviews);
    vm_compute; reflexivity.
Defined.

(** ** Comment records *)

(** X20. When [get_rich_issue_comments] makes a record of a comment, the
    identifier of the record is the text of the parent's identifier, then
    [_issue_comment_], then the text of the comment's own identifier; its
    [body] is the comment's body cut to the maximum keyword length, which
    for a string is its first that many characters (code points, not
    bytes); its [body_analyzed] is the whole body; and it is a [comment] of
    sub-type [issue_comment]. The host is assumed to leave these five fields
    alone. *)
Theorem issue_comment_record (E : Env) (eitem : dict) (comment : value)
  (w w' : world) (ec : dict) :
  Behaviour.host_leaves E ["id"; "body"; "body_analyzed"; "item_type"; "sub_type"] ->
  Behaviour.decorators_leave E ["id"; "body"; "body_analyzed"; "item_type"; "sub_type"] ->
  Gitlink2.rich_issue_comment E eitem comment w = (w', Ok ec) ->
  exists parent own body short,
    dict_get eitem "id" = Some parent /\
    subscript comment "id" = Ok own /\
    subscript comment "body" = Ok body /\
    py_slice_to body (KEYWORD_MAX_LENGTH E) = Ok short /\
    (forall s, body = VStr s ->
       short = VStr (String.concat "" (firstn (KEYWORD_MAX_LENGTH E) (code_points s)))) /\
    dict_get ec "id"
      = Some (VStr (Gitlink2.py_str E parent ++ "_issue_comment_"
                    ++ Gitlink2.py_str E own)%string) /\
    dict_get ec "body" = Some short /\
    dict_get ec "body_analyzed" = Some body /\
    dict_get ec "item_type" = Some (VStr "comment") /\
    dict_get ec "sub_type" = Some (VStr "issue_comment").
Proof.
  intros L D H.
  destruct (CommentFacts.issue_comment_fields E L D eitem comment w w' ec H)
    as (parent & own & body & short & Hp & Ho & Hb & Hs & Hrest).
  exists parent, own, body, short.
  split; [exact Hp|]. split; [exact Ho|]. split; [exact Hb|]. split; [exact Hs|].
  split; [|exact Hrest].
  intros s ->. cbn [py_slice_to] in Hs. injection Hs as <-. reflexivity.
Qed.

Lemma issue_comment_record_witness :
  exists w' ec,
    Gitlink2.rich_issue_comment SampleHost.host Cases.parent_issue
      Cases.verbose world0 = (w', Ok ec) /\
    dict_get ec "id" = Some (VStr "7_issue_comment_11") /\
    dict_get ec "body" = Some (VStr (Cases.times 1000 Cases.wide)) /\
    dict_get ec "body_analyzed" = Some (VStr (Cases.times 1001 Cases.wide)) /\
    exists parent own body short,
      dict_get Cases.parent_issue "id" = Some parent /\
      subscript Cases.verbose "id" = Ok own /\
      subscript Cases.verbose "body" = Ok body /\
      py_slice_to body (KEYWORD_MAX_LENGTH SampleHost.host) = Ok short /\
      (forall s, body = VStr s ->
         short = VStr (String.concat ""
                         (firstn (KEYWORD_MAX_LENGTH SampleHost.host) (code_points s)))) /\
      dict_get ec "id"
        = Some (VStr (Gitlink2.py_str SampleHost.host parent ++ "_issue_comment_"
                      ++ Gitlink2.py_str SampleHost.host own)%string) /\
      dict_get ec "body" = Some short /\
      dict_get ec "body_analyzed" = Some body /\
      dict_get ec "item_type" = Some (VStr "comment") /\
      dict_get ec "sub_type" = Some (VStr "issue_comment").
Proof.
  do 2 eexists. split; [vm_compute; reflexivity|]. split; [vm_compute; reflexivity|].
  split; [vm_compute; reflexivity|]. split; [vm_compute; reflexivity|].
  eapply (issue_comment_record SampleHost.host Cases.parent_issue
            Cases.verbose world0).
  - apply (SampleFacts.sample_host_leaves
             ["id"; "body"; "body_analyzed"; "item_type"; "sub_type"]). reflexivity.
  - apply (CaseFacts.sample_decorators_leave_keys
             ["id"; "body"; "body_analyzed"; "item_type"; "sub_type"]). reflexivity.
  - vm_compute. reflexivity.
Defined.

(** X21. Two comments of an issue whose identifiers are different integers
    are made into records with different identifiers. *)
Theorem issue_comment_ids_distinct (E : Env) (eitem : dict) (c1 c2 : value) (n1 n2 : Z)
  (w1 w1' w2 w2' : world) (e1 e2 : dict) :
  Behaviour.host_leaves E ["id"; "body"; "body_analyzed"; "item_type"; "sub_type"] ->
  Behaviour.decorators_leave E ["id"; "body"; "body_analyzed"; "item_type"; "sub_type"] ->
  subscript c1 "id" = Ok (VInt n1) ->
  subscript c2 "id" = Ok (VInt n2) ->
  n1 <> n2 ->
  Gitlink2.rich_issue_comment E eitem c1 w1 = (w1', Ok e1) ->
  Gitlink2.rich_issue_comment E eitem c2 w2 = (w2', Ok e2) ->
  dict_get e1 "id" <> dict_get e2 "id".
Proof.
  intros L D H1 H2 Hne R1 R2.
  destruct (CommentFacts.issue_comment_fields E L D _ _ _ _ _ R1)
    as (p1 & o1 & _ & _ & Hp1 & Ho1 & _ & _ & Hid1 & _).
  destruct (CommentFacts.issue_comment_fields E L D _ _ _ _ _ R2)
    as (p2 & o2 & _ & _ & Hp2 & Ho2 & _ & _ & Hid2 & _).
  rewrite Hid1, Hid2. rewrite Hp1 in Hp2. injection Hp2 as <-.
  rewrite H1 in Ho1. injection Ho1 as <-. rewrite H2 in Ho2. injection Ho2 as <-.
  intros Heq. injection Heq as Heq. apply Hne.
  apply CommentFacts.append_inv_head in Heq.
  apply (CommentFacts.append_inv_head "_issue_comment_") in Heq.
  exact (CommentFacts.py_str_int_inj E n1 n2 Heq).
Qed.

Lemma issue_comment_ids_distinct_witness :
  exists w1 e1 w2 e2,
    Gitlink2.rich_issue_comment SampleHost.host Cases.parent_issue
      (Samples.comment 11 "bob" "Bob") world0 = (w1, Ok e1) /\
    Gitlink2.rich_issue_comment SampleHost.host Cases.parent_issue
      (Samples.comment 12 "carol" "Carol") world0 = (w2, Ok e2) /\
    dict_get e1 "id" <> dict_get e2 "id".
Proof.
  do 4 eexists. split; [vm_compute; reflexivity|]. split; [vm_compute; reflexivity|].
  eapply (issue_comment_ids_distinct SampleHost.host Cases.parent_issue
            (Samples.comment 11 "bob" "Bob") (Samples.comment 12 "carol" "Carol") 11 12
            world0 _ world0 _).
  - apply (SampleFacts.sample_host_leaves
             ["id"; "body"; "body_analyzed"; "item_type"; "sub_type"]). reflexivity.
  - apply (CaseFacts.sample_decorators_leave_keys
             ["id"; "body"; "body_analyzed"; "item_type"; "sub_type"]). reflexivity.
  - reflexivity.
  - reflexivity.
  - discriminate.
  - vm_compute. reflexivity.
  - vm_compute. reflexivity.
Defined.

(** ** Assignees and mergers *)

(** X22. When an issue has no assignee record, or an empty one, or the
    record that stands for a user who is not available,
    [GitlinkEnrich2.__get_rich_issue] sets every [assignee_] field of the
    enriched issue to [None]. *)
Theorem absent_assignee_is_none (E : Env) (item : dict) (w w' : world)
  (item' rich : dict) (d : dict) :
  Behaviour.host_leaves E
    ["assignee_login"; "assignee_name"; "assignee_domain"; "assignee_org";
     "assignee_location"; "assignee_geolocation"] ->
  dict_get item "data" = Some (VDict d) ->
  (let assignee := match dict_get d "assignee_data" with Some x => x | None => VNone end in
   truthy assignee && py_ne assignee Gitlink2.USER_NOT_AVAILABLE = false) ->
  Gitlink2.__get_rich_issue E item w = (w', Ok (item', rich)) ->
  Forall (fun k => dict_get rich k = Some VNone)
    ["assignee_login"; "assignee_name"; "assignee_domain"; "assignee_org";
     "assignee_location"; "assignee_geolocation"].
Proof. intros L. exact (ActorFacts.v2_no_assignee E L item w w' item' rich d). Qed.

Lemma absent_assignee_is_none_witness :
  Forall (fun k => dict_get (Samples.rich_v2 Cases.unassigned) k = Some VNone)
    ["assignee_login"; "assignee_name"; "assignee_domain"; "assignee_org";
     "assignee_location"; "assignee_geolocation"].
Proof.
  apply (absent_assignee_is_none SampleHost.host Cases.unassigned world0
           (fst (Gitlink2.__get_rich_issue SampleHost.host Cases.unassigned world0))
           Cases.unassigned (Samples.rich_v2 Cases.unassigned)
           (Cases.fields_of Cases.unassigned_data)).
  - apply (SampleFacts.sample_host_leaves
             ["assignee_login"; "assignee_name"; "assignee_domain"; "assignee_org";
              "assignee_location"; "assignee_geolocation"]). reflexivity.
  - reflexivity.
  - reflexivity.
  - vm_compute. reflexivity.
Defined.

(** X23. [GitlinkEnrich.__get_rich_pull] takes the merger of a pull request
    from [merge_by]: the login and the name of the record when there is a
    record that is not empty, [None] for both otherwise. *)
Theorem pull_merger_v1 (E : Env) (item rich d : dict) :
  Behaviour.host_leaves E ["merge_author_login"; "merge_author_name"] ->
  dict_get item "data" = Some (VDict d) ->
  Gitlink.__get_rich_pull E item = Ok rich ->
  let merged_by := match dict_get d "merge_by" with Some x => x | None => VNone end in
  if truthy merged_by
  then exists login name,
         subscript merged_by "login" = Ok login /\
         subscript merged_by "name" = Ok name /\
         dict_get rich "merge_author_login" = Some login /\
         dict_get rich "merge_author_name" = Some name
  else dict_get rich "merge_author_login" = Some VNone /\
       dict_get rich "merge_author_name" = Some VNone.
Proof. intros L. exact (ActorFacts.v1_pull_merger E L item rich d). Qed.

Lemma pull_merger_v1_witness :
  exists rich,
    Gitlink.__get_rich_pull SampleHost.host Cases.pull_item = Ok rich /\
    dict_get rich "merge_author_login" = Some (VStr "bob") /\
    exists login name,
      subscript (Cases.person "bob" "Bob" "bob@example.org") "login" = Ok login /\
      subscript (Cases.person "bob" "Bob" "bob@example.org") "name" = Ok name /\
      dict_get rich "merge_author_login" = Some login /\
      dict_get rich "merge_author_name" = Some name.
Proof.
  eexists. split; [vm_compute; reflexivity|]. split; [vm_compute; reflexivity|].
  apply (pull_merger_v1 SampleHost.host Cases.pull_item _ Cases.pull_fields).
  - apply (SampleFacts.sample_host_leaves ["merge_author_login"; "merge_author_name"]).
    reflexivity.
  - reflexivity.
  - vm_compute. reflexivity.
Defined.

(** ** Bots and releases *)

(** X24. Leaving the bots out can only delay the first attention: when
    [GitlinkEnrich.get_time_to_first_attention] finds no comment by another
    user, [get_time_to_first_attention_without_bot] finds none either, and
    when both return a date the one without bots is not the earlier. *)
Theorem bots_only_delay_attention (E : Env) (item first first' : value) (cs : list value) :
  Gitlink.comments_data item = Ok cs ->
  Gitlink.get_time_to_first_attention E item = Ok first ->
  Gitlink.get_time_to_first_attention_without_bot E item = Ok first' ->
  (first = VNone -> first' = VNone) /\
  forall t aware t' aware',
    first = VDatetime t aware -> first' = VDatetime t' aware' -> t <= t'.
Proof.
  intros Hcs H H'.
  unfold Gitlink.get_time_to_first_attention in H.
  unfold Gitlink.get_time_to_first_attention_without_bot in H'.
  rewrite Hcs in H, H'. cbn [rbind] in H, H'.
  destruct (Gitlink.dates_of E (Gitlink.by_another item) cs) as [ds|] eqn:Hds;
    [|discriminate].
  destruct (Gitlink.dates_of E (Gitlink.by_another_human item) cs) as [ds'|] eqn:Hds';
    [|discriminate].
  cbn [rbind] in H, H'.
  destruct (DateFacts.dates_of_kept _ _ _ _ Hds) as [Hin _].
  destruct (DateFacts.dates_of_kept _ _ _ _ Hds') as [Hin' _].
  destruct (DateFacts.py_min_date_least _ _ H) as [Hnone Hleast].
  destruct (DateFacts.py_min_date_least _ _ H') as [Hnone' Hleast'].
  assert (Hsub : forall d, In d ds' -> In d ds).
  { intros d Hd. apply Hin. apply Hin' in Hd. destruct Hd as (c & Hc & Hk & Hd).
    exists c. split; [exact Hc|]. split; [apply BotFacts.human_is_another; exact Hk|exact Hd]. }
  split.
  - intros Hf. apply Hnone'. apply Hnone in Hf. subst ds.
    destruct ds' as [|d ds']; [reflexivity|]. destruct (Hsub d (or_introl eq_refl)).
  - intros t aware t' aware' Ht Ht'.
    destruct (Hleast _ _ Ht) as [_ Hle]. destruct (Hleast' _ _ Ht') as [Hm _].
    apply (Hle (t', aware')). apply Hsub. exact Hm.
Qed.

Lemma bots_only_delay_attention_witness :
  Gitlink.get_time_to_first_attention SampleHost.host Cases.automated_issue
  = Ok (VDatetime 1672617600 true) /\
  Gitlink.get_time_to_first_attention_without_bot SampleHost.host Cases.automated_issue
  = Ok (VDatetime 1672790400 true) /\
  1672617600 <= 1672790400.
Proof.
  split; [vm_compute; reflexivity|]. split; [vm_compute; reflexivity|].
  apply (proj2 (bots_only_delay_attention SampleHost.host Cases.automated_issue
                  (VDatetime 1672617600 true) (VDatetime 1672790400 true)
                  Cases.automated eq_refl eq_refl eq_refl)
           1672617600 true 1672790400 true); reflexivity.
Defined.

(** X25. [GitlinkEnrich.get_num_of_comments_without_bot] and
    [get_time_to_first_attention_without_bot] read the same comments: the
    number is zero exactly when there is no date. *)
Theorem no_human_comment_no_attention (E : Env) (item n first : value) (cs : list value) :
  Gitlink.comments_data item = Ok cs ->
  Gitlink.get_num_of_comments_without_bot item = Ok n ->
  Gitlink.get_time_to_first_attention_without_bot E item = Ok first ->
  (n = VInt 0 <-> first = VNone).
Proof.
  intros Hcs Hn H.
  unfold Gitlink.get_num_of_comments_without_bot in Hn.
  unfold Gitlink.get_time_to_first_attention_without_bot in H.
  rewrite Hcs in Hn, H. cbn [rbind] in Hn, H.
  destruct (Gitlink.kept (Gitlink.by_another_human item) cs) as [l|] eqn:Hl; [|discriminate].
  destruct (Gitlink.dates_of E (Gitlink.by_another_human item) cs) as [ds|] eqn:Hds;
    [|discriminate].
  cbn [rbind] in Hn, H. injection Hn as <-.
  pose proof (BotFacts.kept_none _ _ _ Hl) as Hk.
  destruct (DateFacts.dates_of_kept _ _ _ _ Hds) as [Hin Hall].
  destruct (DateFacts.py_min_date_least _ _ H) as [Hnone _].
  rewrite Hnone. rewrite Forall_forall in Hall, Hk. split.
  - intros H0. assert (Hnil : l = []).
    { destruct l; [reflexivity|]. simpl in H0. injection H0 as H0. lia. }
    pose proof (proj1 Hk Hnil) as Hno. destruct ds as [|d ds]; [reflexivity|].
    destruct (proj1 (Hin d) (or_introl eq_refl)) as (c & Hc & Hkc & _).
    rewrite (Hno c Hc) in Hkc. discriminate.
  - intros ->. assert (Hnil : l = []).
    { apply (proj2 Hk). intros c Hc. destruct (Hall c Hc) as [Hf | (d & Hd)]; [exact Hf|].
      exfalso. apply (proj2 (Hin d)). exists c. split; assumption. }
    rewrite Hnil. reflexivity.
Qed.

Lemma no_human_comment_no_attention_witness :
  Gitlink.get_num_of_comments_without_bot Cases.bot_only_issue = Ok (VInt 0) /\
  (VInt 0 = VInt 0 <-> VNone = VNone).
Proof.
  split; [vm_compute; reflexivity|].
  apply (no_human_comment_no_attention SampleHost.host Cases.bot_only_issue _ _
           Cases.bot_only); vm_compute; reflexivity.
Defined.

(** X26. [GitlinkEnrich.__get_rich_repo] makes one release record of each
    release of the repository, in their order, and [releases_count] is the
    number of the releases. *)
Theorem repo_releases_v1 (E : Env) (item rich : dict) :
  Behaviour.host_leaves E ["releases"; "releases_count"] ->
  Gitlink.__get_rich_repo E item = Ok rich ->
  exists repo releases_v releases rich_releases,
    dict_get item "data" = Some repo /\
    subscript repo "releases" = Ok releases_v /\
    py_iter releases_v = Ok releases /\
    dict_get rich "releases" = Some (VList rich_releases) /\
    dict_get rich "releases_count" = Some (VInt (Z.of_nat (List.length releases))) /\
    Forall2 (fun release r => Gitlink.rich_release release = Ok r) releases rich_releases.
Proof.
  intros L H.
  destruct (ReleaseFacts.v1_repo_releases E L item rich H)
    as (repo & rv & rs & rr & Hd & Hr & Hi & Hm & Hg & Hc).
  exists repo, rv, rs, rr. repeat split; try assumption.
  - rewrite Hc, (CountFacts.rmap_length _ _ _ Hm). reflexivity.
  - apply ReleaseFacts.rmap_Forall2. exact Hm.
Qed.

Lemma repo_releases_v1_witness :
  exists rich,
    Gitlink.__get_rich_repo SampleHost.host Cases.released = Ok rich /\
    exists repo releases_v releases rich_releases,
      dict_get Cases.released "data" = Some repo /\
      subscript repo "releases" = Ok releases_v /\
      py_iter releases_v = Ok releases /\
      dict_get rich "releases" = Some (VList rich_releases) /\
      dict_get rich "releases_count" = Some (VInt (Z.of_nat (List.length releases))) /\
      Forall2 (fun release r => Gitlink.rich_release release = Ok r)
        releases rich_releases.
Proof.
  eexists. split; [vm_compute; reflexivity|].
  apply (repo_releases_v1 SampleHost.host Cases.released).
  - apply (SampleFacts.sample_host_leaves ["releases"; "releases_count"]). reflexivity.
  - vm_compute. reflexivity.
Defined.
